(* ===== verification/_CoqProject ===== *)
-Q . S2P
Prelude.v
PyStr.v
DateTime.v
Account.v
Bank.v
Routes.v
Server.v
Ledger.v
