(* ===== verification/Prelude.v ===== *)
(** * A verification development of the Wick Bank web application

    The program ([src/src/1.0/main.py], a Flask application of 234 lines) is
    a toy retail bank.  Its parts, and how they interact:

    - [Account] (main.py 14-50): an account record (number, name, balance,
      PIN, append-only transaction list) with [add_transaction], [deposit],
      [withdraw] and [get_statement].  Errors are returned as Python strings
      ("Invalid PIN", "Insufficient funds") in place of the numeric balance.
    - [Bank] (main.py 53-100): a dict from account-number strings to
      accounts, with [create_account] (PIN and deposit validation, random
      account number, no collision check) and [transfer] (three guards, then
      four in-place mutations of the shared dict entries), each followed by
      [save_data], which pickles the whole bank to [bank_data.pkl];
      [load_data] reads it back at start-up and falls back to an empty bank
      when the file is missing or does not unpickle.
    - The route layer (main.py 103-232): nine Flask handlers reading
      [request.form], the signed-cookie [session] (one key,
      [account_number]) and queueing [flash] notices; the protected routes
      share the guard "not logged in: flash and redirect to /login".

    ** Files of this development, in dependency order

    - [Prelude.v] (this file): the numeric interface [PyNum] for the
      operators the program applies to amounts ([+ - unary- < <=] on Python
      floats), its two instances (the primitive binary64 [float] of the
      kernel, which is Python's [float], and [Z], the Python ints that the
      [Account] and [Bank] methods also accept), the notation scope
      [py_scope], the hint databases [bank] and [bank_rw], the tactic
      [bool_to_prop], the NaN lemmas on binary64 (through the IEEE 754
      specification [FloatAxioms] of the primitive operations), and shared
      lemmas on [gmap] updates and on strings ([lex]).
    - [PyStr.v]: Python's [str(int)] ([py_str], a digit loop with fuel
      [digits_fuel_for n = 1 + log2 n], proved sufficient: more fuel gives
      the same digits) and [str.isdigit] on ASCII ([py_isdigit]), with the
      length, digit, first-character and round-trip lemmas for [py_str].
    - [DateTime.v], [Module DateTime]: Python's [datetime] value and its
      rendering [strftime("%Y-%m-%d %H:%M:%S")] (main.py 28), the parser of
      that layout, and the digit-string lemmas behind their round trips.
    - [Account.v], [Module Account]: the [Account] class (main.py 14-50):
      records for the account and for the transaction dict, the contract of
      [random.randint] ([randint_ok]) and the bounds the code passes it
      ([randint_bounds]), and [init], [generate_account_number],
      [add_transaction], [deposit], [withdraw], [get_statement]; the ledger
      invariant [ledger_ok] of spec section 3 and the field types
      [account_typed].
    - [Bank.v], [Module Bank]: the [Bank] class (main.py 53-100): the bank
      record, its well-formedness [bank_wf] (each account under its own
      number), the process state [World] (the global [bank] and the file),
      the [Pickle] interface (dump, partial load, round-trip law for
      well-formed banks) with the concrete instance [PickleFile],
      [save_data], [load_data], [create_account] and [transfer]; the total
      of all balances.
    - [Routes.v], [Module Routes]: the nine views (main.py 106-232) in a
      small state-and-exception monad [Handler] (world, session, flash queue;
      early [return]; HTTP 500 for a missing form key, which the debug mode
      of [app.run(debug=True)] traps, for a failed [float()] and for a
      missing account), Flask's URL map [route] (404, 405, HEAD served by
      the GET view, the automatic OPTIONS answer), [handle] (one request
      against the process state) and [oracle_ok], the guarantees of
      [random.randint] and [datetime.now].
    - [Server.v], [Module Server]: the process: start-up from the file
      ([start]) and the step relation [step]: a request with any session
      value the process has signed, or a restart by the debug reloader
      (main.py 235) that reloads the file and forgets all sessions;
      invariants over [reachable] states by induction on the steps.
    - [Ledger.v], [Module Ledger]: the abstract specification of spec
      sections 4.1 and 4.4 as a step relation [move] on a map of balances,
      for any amount type, the abstraction [balances], and the refinement
      of [handle] and of whole server runs.

    ** What the theorems show

    The amount type is a parameter.  Theorems about the route layer and
    the server hold for every amount type, and so for the program's
    binary64 floats, with [float()] any parser; theorems stated on [Z] are
    about the [Account] and [Bank] methods called with Python ints.
    - Server (C1-C3, C21, C24, C30, C32, C40): in every reachable state the
      file reloads to the in-memory bank (so restarts lose nothing), every
      account is stored under its own number, every account number has ten
      digits and every transaction a [YYYY-MM-DD HH:MM:SS] date, every
      signed session names an existing account, no GET with a signed
      session ends in HTTP 500, and the owner of any account can log in
      (liveness); a missing or corrupt file gives an empty bank at start-up;
      logging out does not revoke the cookie signed at login, which still
      opens the account's dashboard when replayed (until a restart).
    - Ledger (C28, C29): every request moves the balances by one abstract
      move of the spec (refinement), hence every run of the server is a run
      of the abstract ledger.
    - Routes (C4, C5, C11, C20, C22, C31, C33-C39): the login guard of the
      protected views; login correctness (and that a failed login keeps the
      incoming session); another browser changes an account only by a
      transfer into it, of any sign; GET never mutates; NaN passes the
      amount checks of the deposit and withdraw views; the create-account,
      deposit, withdraw, transfer and statement views on every branch;
      Flask's URL map with HEAD and OPTIONS; a request that flashes an
      error changes nothing; the causes of every HTTP 500.
    - Bank (C6-C10, C12, C13, C23): the error paths of [transfer] and
      [create_account] leave the world unchanged; a transfer between distinct
      accounts debits, credits and records each side; transfers conserve the
      total and, between distinct accounts, the ledger invariant; a transfer
      to oneself breaks it; an account-number collision replaces an account;
      on binary64 amounts a transfer does not conserve the sum of the
      balances (0.1 and 0.2, moving 0.05).
    - Account (C14-C19): the number [str(randint(10**9, 10**10-1))] has ten
      digits and the drawn value; the opening state; deposits accumulate
      with correct snapshots; the three branches of [withdraw]; no overdraft
      on Python ints; ledger preservation.
    - Timestamps (C25-C27): [strftime] round-trips through the timestamp
      parser, the parser accepts only printed timestamps, and string order
      of timestamps is chronological order.
    Helper lemmas that a later claim needs ([handle_sync], [handle_typed],
    [handle_session_sound], [handle_keeps_keys], [transfer_outcome], ...)
    are stated once and shared; claims are never reused by other proofs.

    ** Bounds and fuel

    The only fuel is [digits_fuel_for n = 1 + log2 n] steps of the [str(int)]
    loop; [PyStr.digits_fuel_enough] shows it is never short.  Account
    numbers are drawn with [randint_bounds = (10^9, 10^10 - 1)], the
    arguments of main.py 24, so [py_str] gives exactly ten digits.  Years
    are four digits because [datetime] bounds them to [1 .. 9999].

    ** Not modelled, and why

    Every function, method and view of main.py is a definition here, and
    every statement of the program that changes state (the dict updates, the
    in-place balance and transaction mutations, [save_data], the session,
    the flash queue, the process restart) is modelled.  What stays outside:
    - [float(s)]: CPython's correctly rounded decimal-to-binary64 conversion
      (with "nan", "inf", exponents, underscores and whitespace) is C code
      of the interpreter, not of this program; the views take the parser as
      a section variable, so their theorems hold for every parser, and the
      binary64 arithmetic itself is the kernel's primitive [float].  The
      [:.2f] formatting is a section variable as well.
    - [str.isdigit] beyond ASCII: it consults the Unicode database
      (category Nd and the digit property); [py_isdigit] is exact on ASCII
      and the gap is recorded as a finding.
    - The byte format of pickle: only its law (what is dumped loads back)
      is used, through the [Pickle] interface; a torn write is a file that
      does not load, whose effect at start-up C21 gives (an empty bank).
    - The Jinja templates are not in the repository; only the template
      names and the arguments passed to them are modelled, and a HEAD
      response is the GET response (its body is dropped on the wire).
    - Flask's internals: cookie signing is modelled as "the process accepts
      the session values it issued" and the cookie's expiry is ignored;
      which value [random.randint] and [datetime.now] return are oracle
      arguments bounded by [oracle_ok]; concurrent requests are out of scope
      (the development server handles one at a time).  A crash inside a
      request before its [save_data] leaves the file as the previous
      request saved it, so it is the restart step from the state before.
*)

From Stdlib Require Import ZArith Floats Lia.
From stdpp Require Export base gmap strings list fin_maps.

(** ** Amounts: the operators the program applies to Python floats *)

(** [PyNum A] gathers Python's [0], [a + b], [a - b], [-a], [a < b] and
    [a <= b] on the amount type.  Python compares floats with [<] and [<=]
    returning [bool], so the comparisons are boolean here too. *)
Class PyNum (A : Type) := {
  num_zero : A;
  num_add : A -> A -> A;
  num_sub : A -> A -> A;
  num_neg : A -> A;
  num_ltb : A -> A -> bool;
  num_leb : A -> A -> bool;
}.

Declare Scope py_scope.
Delimit Scope py_scope with py.
Notation "0" := num_zero : py_scope.
Infix "+" := num_add : py_scope.
Infix "-" := num_sub : py_scope.
Notation "- x" := (num_neg x) : py_scope.
Infix "<" := num_ltb : py_scope.
Infix "<=" := num_leb : py_scope.
Notation "x > y" := (num_ltb y x) (only parsing) : py_scope.

(** Exact amounts. *)
#[export] Instance PyNum_Z : PyNum Z := {
  num_zero := 0%Z;
  num_add := Z.add;
  num_sub := Z.sub;
  num_neg := Z.opp;
  num_ltb := Z.ltb;
  num_leb := Z.leb;
}.

(** Python's [float]: IEEE 754 binary64 with round-to-nearest-even, which
    is the kernel's primitive [float]. *)
#[export] Instance PyNum_float : PyNum float := {
  num_zero := 0%float;
  num_add := PrimFloat.add;
  num_sub := PrimFloat.sub;
  num_neg := PrimFloat.opp;
  num_ltb := PrimFloat.ltb;
  num_leb := PrimFloat.leb;
}.

(** ** NaN on binary64

    Python's [float('nan')] is the kernel's [nan] (binary64 has one NaN up
    to its payload, which Python never inspects).  Through the IEEE 754
    specification of the primitive operations ([FloatAxioms]), an
    operation with a NaN operand gives NaN and a comparison with NaN is
    false. *)

Lemma prim2sf_nan : Prim2SF nan = S754_nan.
Proof. reflexivity. Qed.

Lemma nan_add_r (b : float) : PrimFloat.is_nan (b + nan)%float = true.
Proof.
  unfold PrimFloat.is_nan. rewrite FloatAxioms.eqb_spec, FloatAxioms.add_spec, prim2sf_nan. destruct (Prim2SF b); reflexivity.
Qed.

Lemma nan_sub_r (b : float) : PrimFloat.is_nan (b - nan)%float = true.
Proof.
  unfold PrimFloat.is_nan. rewrite FloatAxioms.eqb_spec, FloatAxioms.sub_spec, prim2sf_nan. destruct (Prim2SF b); reflexivity.
Qed.

Lemma ltb_nan_r (b : float) : (b <? nan)%float = false.
Proof. rewrite FloatAxioms.ltb_spec, prim2sf_nan. destruct (Prim2SF b); reflexivity. Qed.

(** On [Z] the operators are the integer ones: [num_Z] unfolds the
    instance so that [lia] sees them. *)
Ltac num_Z :=
  cbn [num_add num_sub num_neg num_ltb num_leb num_zero PyNum_Z] in *.

(** ** Shared automation *)

Create HintDb bank discriminated.
Create Rewrite HintDb bank_rw.

(** Turns boolean comparisons on [Z] and strings in the hypotheses into
    propositions. *)
Ltac bool_to_prop :=
  repeat match goal with
  | H : (_ <? _)%Z = true |- _ => apply Z.ltb_lt in H
  | H : (_ <? _)%Z = false |- _ => apply Z.ltb_ge in H
  | H : (_ <=? _)%Z = true |- _ => apply Z.leb_le in H
  | H : (_ <=? _)%Z = false |- _ => apply Z.leb_gt in H
  | H : String.eqb _ _ = true |- _ => apply String.eqb_eq in H
  | H : String.eqb _ _ = false |- _ => apply String.eqb_neq in H
  | H : (_ =? _)%Z = true |- _ => apply Z.eqb_eq in H
  | H : (_ =? _)%Z = false |- _ => apply Z.eqb_neq in H
  end.

(** ** Lemmas on maps shared by the components *)

Section MapLemmas.
Context {V : Type}.
Implicit Types (m : gmap string V) (f g : V -> V).

Lemma lookup_alter_Some m f k v :
  m !! k = Some v -> alter f k m !! k = Some (f v).
Proof. intros H. rewrite lookup_alter_eq, H. reflexivity. Qed.

Lemma alter_lookup_is_Some m f k j :
  is_Some (alter f k m !! j) <-> is_Some (m !! j).
Proof.
  destruct (decide (k = j)) as [->|Hne].
  - rewrite lookup_alter_eq. destruct (m !! j); simpl; split; intros [? ?]; eauto; discriminate.
  - rewrite lookup_alter_ne by done. reflexivity.
Qed.

(** An update that keeps a per-entry property keeps it for the whole map. *)
Lemma map_Forall_alter_2 (P : string -> V -> Prop) m f k :
  (forall v, P k v -> P k (f v)) -> map_Forall P m -> map_Forall P (alter f k m).
Proof.
  intros Hf Hm j v. destruct (decide (k = j)) as [<-|Hne].
  - rewrite lookup_alter_eq. destruct (m !! k) as [v0|] eqn:Hk; [|discriminate].
    intros [= <-]. exact (Hf v0 (Hm k v0 Hk)).
  - rewrite lookup_alter_ne by done. apply Hm.
Qed.

End MapLemmas.

#[export] Hint Rewrite @lookup_alter_eq @lookup_insert_eq : bank_rw.
#[export] Hint Resolve lookup_alter_Some : bank.

#[export] Hint Rewrite String.eqb_refl : bank_rw.

(** ** Lemmas on strings shared by the components *)

Lemma string_length_app (s t : string) :
  String.length (s ++ t) = (String.length s + String.length t)%nat.
Proof. induction s as [|c s IH]; simpl; [reflexivity | rewrite IH; reflexivity]. Qed.

Lemma string_app_nil_r (s : string) : String.append s EmptyString = s.
Proof. induction s as [|c s IH]; [reflexivity | exact (f_equal (String c) IH)]. Qed.

(** Lexicographic combination of two comparisons: the first that is not
    [Eq]. *)
Definition lex (c1 c2 : comparison) : comparison :=
  match c1 with Eq => c2 | Lt => Lt | Gt => Gt end.

(** [String.compare] of two strings that start with the same character. *)
Lemma string_compare_cons_same (c : Ascii.ascii) (s t : string) :
  String.compare (String c s) (String c t) = String.compare s t.
Proof. simpl. unfold Ascii.compare. rewrite N.compare_refl. reflexivity. Qed.

(** Lexicographic order on a concatenation of two equally long prefixes:
    the prefixes decide unless they are equal. *)
Lemma string_compare_app (s1 s2 t1 t2 : string) :
  String.length s1 = String.length s2 ->
  String.compare (s1 ++ t1) (s2 ++ t2) = lex (String.compare s1 s2) (String.compare t1 t2).
Proof.
  revert s2. induction s1 as [|c1 s1 IH]; intros [|c2 s2] Hl; try discriminate; [reflexivity|].
  simpl. destruct (Ascii.compare c1 c2); [apply IH; simpl in Hl; lia | reflexivity | reflexivity].
Qed.

#[export] Hint Rewrite string_length_app string_compare_cons_same : bank_rw.
