(* ===== verification/PyStr.v ===== *)
(** * Python's [str(int)] and [str.isdigit], the string builtins the bank uses

    [Account.generate_account_number] (main.py 24) is [str(random.randint(..))]
    and [Bank.create_account] (main.py 58) validates the PIN with [len] and
    [str.isdigit].  This file gives both builtins as executable definitions:
    [py_str] renders an integer in decimal (a loop dividing by ten, bounded by
    fuel [digits_fuel_for n = 1 + log2 n], which is always enough), and
    [py_isdigit] is [str.isdigit] restricted to ASCII characters.  The
    theorems give the length of [py_str n] from the decade of [n], that it
    consists of digits, and the round trip through [decimal_value]. *)

From S2P Require Import Prelude.
From Stdlib Require Import ZArith Ascii String Lia.

Local Open Scope Z_scope.

(** ** Definitions *)

Definition digit_char (d : Z) : ascii := ascii_of_nat (48 + Z.to_nat d).

(** ASCII ['0'..'9'] (code points 48 to 57). *)
Definition char_is_digit (c : ascii) : bool :=
  (48 <=? nat_of_ascii c)%nat && (nat_of_ascii c <=? 57)%nat.

Definition digit_value (c : ascii) : Z := Z.of_nat (nat_of_ascii c) - 48.

(** The decimal digits of [n], most significant first, prepended to [acc]. *)
Fixpoint digits_fuel (fuel : nat) (n : Z) (acc : string) : string :=
  match fuel with
  | O => acc
  | S f =>
      let acc' := String (digit_char (n mod 10)) acc in
      if n <? 10 then acc' else digits_fuel f (n / 10) acc'
  end.

Definition digits_fuel_for (n : Z) : nat := S (Z.to_nat (Z.log2 n)).

(** [str(n)] for a Python [int]. *)
Definition py_str (n : Z) : string :=
  if n <? 0 then String "-" (digits_fuel (digits_fuel_for (- n)) (- n) "")
  else digits_fuel (digits_fuel_for n) n "".

Fixpoint all_digits (s : string) : bool :=
  match s with
  | EmptyString => true
  | String c s' => char_is_digit c && all_digits s'
  end.

(** [s.isdigit()]: false on the empty string, otherwise every character is a
    digit (ASCII digits only; see the note in [Bank.v]). *)
Definition py_isdigit (s : string) : bool :=
  match s with
  | EmptyString => false
  | _ => all_digits s
  end.

(** Reading a string of decimal digits back as a number, the value the spec
    calls "numerically within [10^9, 10^10 - 1]". *)
Fixpoint dec_acc (s : string) (v : Z) : option Z :=
  match s with
  | EmptyString => Some v
  | String c s' =>
      if char_is_digit c then dec_acc s' (10 * v + digit_value c) else None
  end.

Definition decimal_value (s : string) : option Z :=
  match s with
  | EmptyString => None
  | _ => dec_acc s 0
  end.

(** ** Digits *)

Lemma digit_char_spec (d : Z) :
  0 <= d < 10 -> char_is_digit (digit_char d) = true /\ digit_value (digit_char d) = d.
Proof.
  intros Hd.
  assert (d = 0 \/ d = 1 \/ d = 2 \/ d = 3 \/ d = 4 \/ d = 5 \/ d = 6 \/ d = 7 \/
          d = 8 \/ d = 9) as Hcases by lia.
  repeat destruct Hcases as [->|Hcases]; split; reflexivity || (subst; reflexivity).
Qed.

Lemma pow10_ge_10 (k : nat) : (1 <= k)%nat -> 10 <= 10 ^ Z.of_nat k.
Proof.
  intros Hk. replace (Z.of_nat k) with (1 + Z.of_nat (k - 1)) by lia.
  rewrite Z.pow_add_r by lia. pose proof (Z.pow_pos_nonneg 10 (Z.of_nat (k - 1))). lia.
Qed.

Lemma div10_decade (k : nat) (n : Z) :
  10 ^ Z.of_nat (S k) <= n < 10 ^ Z.of_nat (S (S k)) ->
  10 ^ Z.of_nat k <= n / 10 < 10 ^ Z.of_nat (S k).
Proof.
  rewrite !Nat2Z.inj_succ, !Z.pow_succ_r by lia. intros [Hlo Hhi]. split.
  - apply Z.div_le_lower_bound; lia.
  - apply Z.div_lt_upper_bound; lia.
Qed.

(** The loop on a number of the decade [10^k <= n < 10^(k+1)] with more than
    [k] steps of fuel: it emits [k+1] digits, and reading them back appends
    [n] to the value read so far. *)
Lemma digits_fuel_decade (f k : nat) (n : Z) (acc : string) :
  10 ^ Z.of_nat k <= n < 10 ^ Z.of_nat (S k) -> (k < f)%nat ->
  String.length (digits_fuel f n acc) = (S k + String.length acc)%nat /\
  all_digits (digits_fuel f n acc) = all_digits acc /\
  (forall v, dec_acc (digits_fuel f n acc) v = dec_acc acc (v * 10 ^ Z.of_nat (S k) + n)).
Proof.
  revert k n acc. induction f as [|f IH]; intros k n acc Hdec Hf; [lia|].
  assert (Hpos : 0 < 10 ^ Z.of_nat k) by (apply Z.pow_pos_nonneg; lia).
  destruct (digit_char_spec (n mod 10)) as [Hdig Hval]; [apply Z.mod_pos_bound; lia|].
  cbn [digits_fuel]. destruct (n <? 10) eqn:Hn; bool_to_prop.
  - assert (k = 0%nat) as ->.
    { destruct k; [reflexivity|]. pose proof (pow10_ge_10 (S k)). lia. }
    rewrite Z.mod_small by lia. rewrite Z.mod_small in Hdig, Hval by lia.
    cbn [String.length all_digits dec_acc]. rewrite Hdig, Hval.
    repeat split. intros v. f_equal. cbn. lia.
  - destruct k as [|k]; [simpl in Hdec; lia|].
    destruct (IH k (n / 10) (String (digit_char (n mod 10)) acc)) as (Hl & Ha & Hv);
      [apply div10_decade; exact Hdec | lia |].
    rewrite Hl, Ha. cbn [String.length all_digits]. rewrite Hdig. repeat split; [lia|].
    intros v. rewrite Hv. cbn [dec_acc]. rewrite Hdig, Hval. f_equal.
    rewrite (Nat2Z.inj_succ (S k)), Z.pow_succ_r by lia.
    pose proof (Z.div_mod n 10). lia.
Qed.

(** Every positive number lies in some decade below the fuel bound. *)
Lemma decade_exists (n : Z) :
  0 < n -> exists k, (k < digits_fuel_for n)%nat /\
                     10 ^ Z.of_nat k <= n < 10 ^ Z.of_nat (S k).
Proof.
  intros Hn. unfold digits_fuel_for.
  assert (Hbound : forall f : nat, n < 10 ^ Z.of_nat f ->
            exists k, (k < f)%nat /\ 10 ^ Z.of_nat k <= n < 10 ^ Z.of_nat (S k)).
  { induction f as [|f IH]; intros Hlt; [simpl in Hlt; lia|].
    destruct (Z.lt_ge_cases n (10 ^ Z.of_nat f)) as [Hlt'|Hge].
    - destruct (IH Hlt') as (k & Hk & Hdec). exists k. split; [lia | exact Hdec].
    - exists f. split; [lia | lia]. }
  apply Hbound. destruct (Z.log2_spec n Hn) as [_ Hhi].
  eapply Z.lt_le_trans; [exact Hhi|].
  rewrite Nat2Z.inj_succ, Z2Nat.id by (apply Z.log2_nonneg).
  apply Z.pow_le_mono_l. lia.
Qed.

(** The fuel bound is always enough: a number of the decade [k] uses [k] steps
    of the loop and [k < 1 + log2 n]. *)
Lemma digits_fuel_for_enough (n : Z) (k : nat) :
  10 ^ Z.of_nat k <= n -> (k < digits_fuel_for n)%nat.
Proof.
  intros Hk. unfold digits_fuel_for.
  assert (Hpos : 0 < n) by (pose proof (Z.pow_pos_nonneg 10 (Z.of_nat k)); lia).
  assert (2 ^ Z.of_nat k <= n).
  { eapply Z.le_trans; [|exact Hk]. apply Z.pow_le_mono_l. lia. }
  apply Z.log2_le_pow2 in H; [|exact Hpos]. lia.
Qed.

(** ** [str(n)] for a non-negative [n] *)

Lemma py_str_decade (n : Z) (k : nat) :
  10 ^ Z.of_nat k <= n < 10 ^ Z.of_nat (S k) ->
  String.length (py_str n) = S k /\ py_isdigit (py_str n) = true /\
  decimal_value (py_str n) = Some n.
Proof.
  intros Hdec.
  assert (Hpos : 0 < 10 ^ Z.of_nat k) by (apply Z.pow_pos_nonneg; lia).
  unfold py_str. replace (n <? 0) with false by (symmetry; apply Z.ltb_ge; lia).
  destruct (digits_fuel_decade (digits_fuel_for n) k n "") as (Hl & Ha & Hv);
    [exact Hdec | apply digits_fuel_for_enough; lia |].
  destruct (digits_fuel (digits_fuel_for n) n "") as [|c s] eqn:Hs;
    [simpl in Hl; lia|].
  rewrite Hl. split; [cbn; lia|]. split; [exact Ha|].
  unfold decimal_value. rewrite Hv. cbn [dec_acc]. f_equal; lia.
Qed.

(** ** The fuel bound *)

(** With at least [f + 1] steps for a number below [10^(f+1)], the loop
    has stopped: more fuel gives the same string. *)
Lemma digits_fuel_stable (f g : nat) (n : Z) (acc : string) :
  0 <= n < 10 ^ Z.of_nat (S f) -> (f <= g)%nat ->
  digits_fuel (S g) n acc = digits_fuel (S f) n acc.
Proof.
  revert g n acc. induction f as [|f IH]; intros g n acc Hn Hfg; cbn [digits_fuel].
  - replace (n <? 10) with true by (symmetry; apply Z.ltb_lt; simpl in Hn; lia). reflexivity.
  - destruct (n <? 10) eqn:Hlt; [reflexivity|]. bool_to_prop.
    destruct g as [|g]; [lia|]. apply IH; [|lia].
    rewrite Nat2Z.inj_succ, Z.pow_succ_r in Hn by lia.
    split; [apply Z.div_pos; lia | apply Z.div_lt_upper_bound; lia].
Qed.

(** Every non-negative number is below [10] to the power of its fuel. *)
Lemma lt_pow10_fuel (n : Z) : 0 <= n -> n < 10 ^ Z.of_nat (digits_fuel_for n).
Proof.
  intros Hn. destruct (Z.eq_dec n 0) as [->|Hne]; [reflexivity|].
  destruct (decade_exists n) as (k & Hk & _ & Hhi); [lia|].
  eapply Z.lt_le_trans; [exact Hhi|]. apply Z.pow_le_mono_r; lia.
Qed.

(** The conversion loop terminates within its fuel: running
    [str(n)]'s division loop with any fuel at least [digits_fuel_for n]
    gives the same digits, so [py_str] is the result of the unbounded
    [while] loop. *)
Theorem digits_fuel_enough (n : Z) (f : nat) (acc : string) :
  0 <= n -> (digits_fuel_for n <= f)%nat ->
  digits_fuel f n acc = digits_fuel (digits_fuel_for n) n acc.
Proof.
  intros Hn Hf. pose proof (lt_pow10_fuel n Hn) as Hlt.
  unfold digits_fuel_for in *. destruct f as [|f]; [lia|].
  apply digits_fuel_stable; [lia | lia].
Qed.

(** ** The first character of [str(n)] *)

Lemma digits_fuel_head (f : nat) (n : Z) (acc : string) :
  0 <= n -> (f <> 0%nat \/ exists c t, acc = String c t /\ char_is_digit c = true) ->
  exists c t, digits_fuel f n acc = String c t /\ char_is_digit c = true.
Proof.
  revert n acc. induction f as [|f IH]; intros n acc Hn Hacc; cbn [digits_fuel].
  - destruct Hacc as [Hf|Hacc]; [congruence | exact Hacc].
  - destruct (digit_char_spec (n mod 10)) as [Hdig _]; [apply Z.mod_pos_bound; lia|].
    destruct (n <? 10); [eauto|].
    apply IH; [apply Z.div_pos; lia | right; eauto].
Qed.

(** [str(n)] starts with a digit or a minus sign. *)
Lemma py_str_head (n : Z) :
  exists c t, py_str n = String c t /\ (c = "-"%char \/ char_is_digit c = true).
Proof.
  unfold py_str. destruct (n <? 0) eqn:Hn; bool_to_prop; [eauto|].
  destruct (digits_fuel_head (digits_fuel_for n) n "") as (c & t & -> & Hc); [lia | left; discriminate |].
  eauto.
Qed.

(** Hence no string that starts with a letter is a prefix of [str(n)]. *)
Lemma py_str_prefix_letter (n : Z) (c : Ascii.ascii) (t : string) :
  c <> "-"%char -> char_is_digit c = false -> String.prefix (String c t) (py_str n) = false.
Proof.
  intros Hm Hd. destruct (py_str_head n) as (c' & t' & -> & Hc'). cbn.
  destruct (Ascii.ascii_dec c c') as [<-|Hne]; [|reflexivity].
  destruct Hc' as [Hc'|Hc']; congruence.
Qed.

