(* ===== verification/DateTime.v ===== *)
(** * The transaction timestamp: [datetime.now().strftime("%Y-%m-%d %H:%M:%S")]

    [Account.add_transaction] (main.py 28) stamps every transaction with the
    current time rendered by [strftime] with the one format the program
    uses.  This file models Python's [datetime] value (its seven fields and
    the range checks of its constructor, which every [datetime.now()]
    passes) and that rendering: [%Y] is the year zero-padded to four digits
    (the documented [0001 .. 9999]; CPython before 3.13 on glibc left years
    below 1000 unpadded), [%m %d %H %M %S] are two digits zero-padded, and
    the microseconds are not printed.

    [parse_timestamp] reads the spec's [YYYY-MM-DD HH:MM:SS] layout back.
    The theorems show that every valid [datetime] prints to 19 characters
    that parse back to it (up to its microseconds), that the parser accepts
    only printed timestamps, and that comparing two timestamps as strings
    (what sorting the statement by its ["date"] column does) is comparing the
    instants chronologically. *)

From S2P Require Import Prelude PyStr.
From Stdlib Require Import ZArith Ascii String Lia.

Module DateTime.

Local Open Scope Z_scope.

(** ** [datetime] values *)

Record datetime := mk_datetime {
  year : Z; month : Z; day : Z;
  hour : Z; minute : Z; second : Z; microsecond : Z;
}.

Definition is_leap (y : Z) : bool :=
  (y mod 4 =? 0) && (negb (y mod 100 =? 0) || (y mod 400 =? 0)).

Definition days_in_month (y m : Z) : Z :=
  if m =? 2 then (if is_leap y then 29 else 28)
  else if (m =? 4) || (m =? 6) || (m =? 9) || (m =? 11) then 30 else 31.

(** The checks of [datetime.__new__]: [MINYEAR = 1], [MAXYEAR = 9999]. *)
Definition valid (dt : datetime) : bool :=
  (1 <=? dt.(year)) && (dt.(year) <=? 9999) &&
  (1 <=? dt.(month)) && (dt.(month) <=? 12) &&
  (1 <=? dt.(day)) && (dt.(day) <=? days_in_month dt.(year) dt.(month)) &&
  (0 <=? dt.(hour)) && (dt.(hour) <? 24) &&
  (0 <=? dt.(minute)) && (dt.(minute) <? 60) &&
  (0 <=? dt.(second)) && (dt.(second) <? 60) &&
  (0 <=? dt.(microsecond)) && (dt.(microsecond) <? 1000000).

(** ** [strftime] *)

(** [n] in [w] decimal digits, zero-padded on the left ([%04d], [%02d]). *)
Fixpoint zpad (w : nat) (n : Z) : string :=
  match w with
  | O => EmptyString
  | S w' => zpad w' (n / 10) ++ String (digit_char (n mod 10)) EmptyString
  end.

(** [dt.strftime("%Y-%m-%d %H:%M:%S")]. *)
Definition strftime (dt : datetime) : string :=
  zpad 4 dt.(year) ++ String "-" (zpad 2 dt.(month) ++ String "-" (zpad 2 dt.(day) ++
  String " " (zpad 2 dt.(hour) ++ String ":" (zpad 2 dt.(minute) ++
  String ":" (zpad 2 dt.(second)))))).

(** The instant a timestamp can show: the [datetime] without its
    microseconds. *)
Definition truncate (dt : datetime) : datetime :=
  mk_datetime dt.(year) dt.(month) dt.(day) dt.(hour) dt.(minute) dt.(second) 0.

(** ** Reading a timestamp back *)

(** [k] decimal digits at the front of [s], accumulated onto [v]. *)
Fixpoint read_digits (k : nat) (s : string) (v : Z) : option (Z * string) :=
  match k with
  | O => Some (v, s)
  | S k' =>
      match s with
      | String c s' => if char_is_digit c then read_digits k' s' (10 * v + digit_value c) else None
      | EmptyString => None
      end
  end.

Definition expect (c : ascii) (s : string) : option string :=
  match s with
  | String c' s' => if Ascii.eqb c c' then Some s' else None
  | EmptyString => None
  end.

(** The spec's [YYYY-MM-DD HH:MM:SS], nothing after it, and a valid date. *)
Definition parse_timestamp (s : string) : option datetime :=
  '(y, s) ← read_digits 4 s 0; s ← expect "-" s;
  '(mo, s) ← read_digits 2 s 0; s ← expect "-" s;
  '(d, s) ← read_digits 2 s 0; s ← expect " " s;
  '(h, s) ← read_digits 2 s 0; s ← expect ":" s;
  '(mi, s) ← read_digits 2 s 0; s ← expect ":" s;
  '(se, s) ← read_digits 2 s 0;
  match s with
  | EmptyString =>
      let dt := mk_datetime y mo d h mi se 0 in
      if valid dt then Some dt else None
  | String _ _ => None
  end.

(** ** Digit strings *)

Lemma dec_acc_app (s t : string) (v : Z) :
  dec_acc (s ++ t) v = match dec_acc s v with Some x => dec_acc t x | None => None end.
Proof.
  revert v. induction s as [|c s IH]; intros v; simpl; [reflexivity|].
  destruct (char_is_digit c); [apply IH | reflexivity].
Qed.

Lemma all_digits_app (s t : string) : all_digits (s ++ t) = all_digits s && all_digits t.
Proof. induction s as [|c s IH]; simpl; [reflexivity | rewrite IH, andb_assoc; reflexivity]. Qed.

(** A string of [L] digits reads as [v * 10^L + r] onto any [v], for one
    [r] in [[0, 10^L)]. *)
Lemma dec_acc_digits (p : string) :
  all_digits p = true ->
  exists r, 0 <= r < 10 ^ Z.of_nat (String.length p) /\
            forall v, dec_acc p v = Some (v * 10 ^ Z.of_nat (String.length p) + r).
Proof.
  induction p as [|c p IH]; simpl; intros Hd.
  - exists 0. split; [lia|]. intros v. f_equal. lia.
  - apply andb_prop in Hd as [Hc Hp]. destruct (IH Hp) as (r & Hr & Hv).
    assert (Hdv : 0 <= digit_value c < 10).
    { unfold char_is_digit in Hc. apply andb_prop in Hc as [H1 H2].
      apply Nat.leb_le in H1, H2. unfold digit_value. lia. }
    exists (digit_value c * 10 ^ Z.of_nat (String.length p) + r).
    rewrite Nat2Z.inj_succ, Z.pow_succ_r by lia. split; [nia|].
    intros v. rewrite Hc, Hv. f_equal. ring.
Qed.

(** Reading [L] digits off the front of [s ++ t] is [dec_acc] on [s]. *)
Lemma read_digits_app (s t : string) (v : Z) :
  all_digits s = true ->
  read_digits (String.length s) (s ++ t) v =
    match dec_acc s v with Some x => Some (x, t) | None => None end.
Proof.
  revert v. induction s as [|c s IH]; intros v Hd; simpl; [reflexivity|].
  apply andb_prop in Hd as [Hc Hs]. rewrite Hc. apply IH, Hs.
Qed.

(** What [read_digits] consumed is a string of [k] digits. *)
Lemma read_digits_inv (k : nat) (s t : string) (v x : Z) :
  read_digits k s v = Some (x, t) ->
  exists p : string, s = (p ++ t)%string /\ String.length p = k /\ all_digits p = true /\ dec_acc p v = Some x.
Proof.
  revert s v. induction k as [|k IH]; intros s v; simpl.
  - intros [= <- <-]. exists EmptyString. repeat split.
  - destruct s as [|c s]; [discriminate|]. destruct (char_is_digit c) eqn:Hc; [|discriminate].
    intros Hr. destruct (IH s _ Hr) as (p & -> & Hl & Hd & Hv).
    exists (String c p). simpl. rewrite Hc, Hd, Hl, Hv. repeat split.
Qed.

Lemma digit_value_inj (c1 c2 : ascii) :
  digit_value c1 = digit_value c2 -> c1 = c2.
Proof.
  unfold digit_value. intros Heq.
  rewrite <- (ascii_nat_embedding c1), <- (ascii_nat_embedding c2). f_equal. lia.
Qed.

(** The leading digit and the rest of a number below [10 * P] are
    determined by its value. *)
Lemma lead_digit_unique (d1 d2 r1 r2 P : Z) :
  0 <= r1 < P -> 0 <= r2 < P -> d1 * P + r1 = d2 * P + r2 -> d1 = d2 /\ r1 = r2.
Proof.
  intros Hr1 Hr2 Heq.
  assert (Hd : forall d r, 0 <= r < P -> (d * P + r) / P = d).
  { intros d r Hr. rewrite Z.div_add_l, Z.div_small by lia. lia. }
  assert (d1 = d2) as <- by (rewrite <- (Hd d1 r1 Hr1), <- (Hd d2 r2 Hr2), Heq; reflexivity).
  split; [reflexivity | lia].
Qed.

(** Two digit strings of one length with one value are the same string. *)
Lemma digits_inj (p1 p2 : string) (x : Z) :
  all_digits p1 = true -> all_digits p2 = true -> String.length p1 = String.length p2 ->
  dec_acc p1 0 = Some x -> dec_acc p2 0 = Some x -> p1 = p2.
Proof.
  revert p2 x. induction p1 as [|c1 p1 IH]; intros [|c2 p2] x Hd1 Hd2 Hl Hv1 Hv2;
    try discriminate; [reflexivity|].
  simpl in Hd1, Hd2, Hl, Hv1, Hv2. injection Hl as Hl.
  apply andb_prop in Hd1 as [Hc1 Hp1]. apply andb_prop in Hd2 as [Hc2 Hp2].
  rewrite Hc1 in Hv1. rewrite Hc2 in Hv2.
  destruct (dec_acc_digits p1 Hp1) as (r1 & Hr1 & Hv1').
  destruct (dec_acc_digits p2 Hp2) as (r2 & Hr2 & Hv2').
  rewrite Hv1' in Hv1. rewrite Hv2' in Hv2. rewrite <- Hl in Hr2, Hv2.
  injection Hv1 as Hx1. injection Hv2 as Hx2.
  assert (Hb : forall c, char_is_digit c = true -> 0 <= digit_value c < 10).
  { intros c Hc. unfold char_is_digit in Hc. apply andb_prop in Hc as [H1 H2].
    apply Nat.leb_le in H1, H2. unfold digit_value. lia. }
  specialize (Hb c1 Hc1) as Hb1. specialize (Hb c2 Hc2) as Hb2.
  assert (Hdig : digit_value c1 = digit_value c2 /\ r1 = r2)
    by (apply (lead_digit_unique _ _ _ _ (10 ^ Z.of_nat (String.length p1))); lia).
  destruct Hdig as [Hdig ->]. rewrite (digit_value_inj c1 c2 Hdig).
  f_equal. apply (IH p2 r2); [exact Hp1 | exact Hp2 | exact Hl | now rewrite Hv1' | now rewrite Hv2'].
Qed.

Lemma zpad_length (w : nat) (n : Z) : String.length (zpad w n) = w.
Proof.
  revert n. induction w as [|w IH]; intros n; simpl; [reflexivity|].
  rewrite string_length_app, IH. simpl. lia.
Qed.

(** [zpad w n] is [w] digits that read as the last [w] digits of [n]. *)
Lemma zpad_spec (w : nat) (n v : Z) :
  0 <= n -> all_digits (zpad w n) = true /\
            dec_acc (zpad w n) v = Some (v * 10 ^ Z.of_nat w + n mod 10 ^ Z.of_nat w).
Proof.
  revert n v. induction w as [|w IH]; intros n v Hn; cbn [zpad].
  - split; [reflexivity|]. cbn [dec_acc]. f_equal. rewrite Z.mod_1_r. lia.
  - destruct (IH (n / 10) v) as [Hd Hv]; [apply Z.div_pos; lia|].
    destruct (digit_char_spec (n mod 10)) as [Hc Hdv]; [apply Z.mod_pos_bound; lia|].
    rewrite all_digits_app, Hd, dec_acc_app, Hv. cbn [all_digits dec_acc].
    rewrite Hc, Hdv. split; [reflexivity|]. f_equal.
    rewrite Nat2Z.inj_succ, Z.pow_succ_r by lia.
    rewrite Z.rem_mul_r by lia. lia.
Qed.

(** Reading back a zero-padded number below [10^w]. *)
Lemma zpad_read (w : nat) (n : Z) (t : string) :
  0 <= n < 10 ^ Z.of_nat w -> read_digits w (zpad w n ++ t) 0 = Some (n, t).
Proof.
  intros Hn. destruct (zpad_spec w n 0) as [Hd Hv]; [lia|].
  pose proof (read_digits_app (zpad w n) t 0 Hd) as Hr.
  rewrite zpad_length, Hv, Z.mod_small in Hr by exact Hn. exact Hr.
Qed.

(** The only [w]-digit string of value [x] is [zpad w x]. *)
Lemma zpad_unique (p : string) (w : nat) (x : Z) :
  all_digits p = true -> String.length p = w -> dec_acc p 0 = Some x -> p = zpad w x.
Proof.
  intros Hd Hl Hx. destruct (dec_acc_digits p Hd) as (r & Hr & Hv).
  rewrite Hv in Hx. injection Hx as <-. rewrite Hl in Hr.
  destruct (zpad_spec w r 0) as [Hzd Hzv]; [lia|].
  apply (digits_inj p (zpad w r) r); [exact Hd | exact Hzd | rewrite zpad_length; exact Hl | |].
  - now rewrite Hv, Hl.
  - rewrite Hzv, Z.mod_small by lia. reflexivity.
Qed.

Lemma expect_same (c : ascii) (t : string) : expect c (String c t) = Some t.
Proof. simpl. rewrite Ascii.eqb_refl. reflexivity. Qed.

Lemma expect_inv (c : ascii) (s t : string) : expect c s = Some t -> s = String c t.
Proof.
  destruct s as [|c' s]; simpl; [discriminate|].
  destruct (Ascii.eqb_spec c c') as [<-|_]; [intros [= <-]; reflexivity | discriminate].
Qed.

(** ** Validity *)

Lemma valid_spec (dt : datetime) :
  valid dt = true <->
  (1 <= dt.(year) <= 9999 /\ 1 <= dt.(month) <= 12 /\
   1 <= dt.(day) <= days_in_month dt.(year) dt.(month) /\
   0 <= dt.(hour) < 24 /\ 0 <= dt.(minute) < 60 /\ 0 <= dt.(second) < 60 /\
   0 <= dt.(microsecond) < 1000000).
Proof. unfold valid. rewrite !andb_true_iff, !Z.leb_le, !Z.ltb_lt. tauto. Qed.

Lemma days_in_month_le (y m : Z) : days_in_month y m <= 31.
Proof. unfold days_in_month. repeat case_match; lia. Qed.

Lemma valid_truncate (dt : datetime) : valid dt = true -> valid (truncate dt) = true.
Proof. rewrite !valid_spec. cbn. lia. Qed.

(** ** Chronological order *)

(** Comparing two instants field by field, the most significant first:
    the chronological order of valid [datetime]s (microseconds apart). *)
Definition dt_compare (d1 d2 : datetime) : comparison :=
  lex (Z.compare d1.(year) d2.(year)) (lex (Z.compare d1.(month) d2.(month))
  (lex (Z.compare d1.(day) d2.(day)) (lex (Z.compare d1.(hour) d2.(hour))
  (lex (Z.compare d1.(minute) d2.(minute)) (Z.compare d1.(second) d2.(second)))))).

Lemma ascii_compare_digit_value (c1 c2 : ascii) :
  Ascii.compare c1 c2 = Z.compare (digit_value c1) (digit_value c2).
Proof.
  unfold Ascii.compare, digit_value, nat_of_ascii. rewrite !N_nat_Z.
  destruct (N.compare_spec (N_of_ascii c1) (N_of_ascii c2)) as [H|H|H]; symmetry;
    [apply Z.compare_eq_iff | apply Z.compare_lt_iff | apply Z.compare_gt_iff]; lia.
Qed.

(** Numbers written with a leading digit and a rest below [P] compare by
    their leading digits first. *)
Lemma lead_digit_compare (d1 d2 r1 r2 P : Z) :
  0 <= r1 < P -> 0 <= r2 < P ->
  Z.compare (d1 * P + r1) (d2 * P + r2) = lex (Z.compare d1 d2) (Z.compare r1 r2).
Proof.
  intros Hr1 Hr2. unfold lex.
  destruct (Z.compare_spec d1 d2) as [<-|Hlt|Hgt].
  - destruct (Z.compare_spec r1 r2); [apply Z.compare_eq_iff | apply Z.compare_lt_iff
      | apply Z.compare_gt_iff]; lia.
  - apply Z.compare_lt_iff. nia.
  - apply Z.compare_gt_iff. nia.
Qed.

(** On digit strings of one length, string order is numeric order. *)
Lemma digits_compare (p1 p2 : string) (x1 x2 : Z) :
  all_digits p1 = true -> all_digits p2 = true -> String.length p1 = String.length p2 ->
  dec_acc p1 0 = Some x1 -> dec_acc p2 0 = Some x2 -> String.compare p1 p2 = Z.compare x1 x2.
Proof.
  revert p2 x1 x2. induction p1 as [|c1 p1 IH]; intros [|c2 p2] x1 x2 Hd1 Hd2 Hl Hv1 Hv2;
    try discriminate.
  - injection Hv1 as <-. injection Hv2 as <-. reflexivity.
  - simpl in Hd1, Hd2, Hl, Hv1, Hv2. injection Hl as Hl.
    apply andb_prop in Hd1 as [Hc1 Hp1]. apply andb_prop in Hd2 as [Hc2 Hp2].
    rewrite Hc1 in Hv1. rewrite Hc2 in Hv2.
    destruct (dec_acc_digits p1 Hp1) as (r1 & Hr1 & Hv1').
    destruct (dec_acc_digits p2 Hp2) as (r2 & Hr2 & Hv2').
    rewrite Hv1' in Hv1. rewrite Hv2' in Hv2. rewrite <- Hl in Hr2, Hv2.
    injection Hv1 as <-. injection Hv2 as <-.
    cbn [String.compare]. rewrite (IH p2 r1 r2 Hp1 Hp2 Hl) by (rewrite ?Hv1', ?Hv2'; reflexivity).
    rewrite ascii_compare_digit_value, !Z.mul_0_r, !Z.add_0_l, lead_digit_compare by lia.
    reflexivity.
Qed.

Lemma zpad_compare (w : nat) (a b : Z) :
  0 <= a < 10 ^ Z.of_nat w -> 0 <= b < 10 ^ Z.of_nat w ->
  String.compare (zpad w a) (zpad w b) = Z.compare a b.
Proof.
  intros Ha Hb. destruct (zpad_spec w a 0) as [Hda Hva]; [lia|].
  destruct (zpad_spec w b 0) as [Hdb Hvb]; [lia|].
  apply digits_compare; [exact Hda | exact Hdb | rewrite !zpad_length; reflexivity | |].
  - rewrite Hva, Z.mod_small by exact Ha. reflexivity.
  - rewrite Hvb, Z.mod_small by exact Hb. reflexivity.
Qed.

(** ** Theorems *)

(** C25: every valid [datetime] is printed by [strftime] as 19 characters
    that [parse_timestamp] reads back as the same instant (microseconds
    are not printed). *)
Theorem strftime_roundtrip (dt : datetime) :
  valid dt = true ->
  String.length (strftime dt) = 19%nat /\ parse_timestamp (strftime dt) = Some (truncate dt).
Proof.
  intros Hv. pose proof (valid_truncate dt Hv) as Hvt.
  apply valid_spec in Hv. pose proof (days_in_month_le dt.(year) dt.(month)). split.
  - unfold strftime. rewrite !string_length_app, !zpad_length. reflexivity.
  - unfold parse_timestamp, strftime.
    repeat (first [rewrite zpad_read by (cbn; lia) | rewrite expect_same]; cbn [mbind option_bind]).
    rewrite <- (string_app_nil_r (zpad 2 dt.(second))), zpad_read by (cbn; lia).
    cbn [mbind option_bind]. unfold truncate in Hvt |- *. rewrite Hvt. reflexivity.
Qed.


(** C26: [parse_timestamp] accepts only what [strftime] prints: a string it
    reads is the timestamp of the valid instant it returns. *)
Theorem parse_timestamp_canonical (s : string) (dt : datetime) :
  parse_timestamp s = Some dt -> strftime dt = s /\ valid dt = true /\ dt.(microsecond) = 0.
Proof.
  unfold parse_timestamp. intros H.
  repeat match type of H with
  | context [read_digits ?k ?s0 ?v] =>
      let E := fresh "E" in
      destruct (read_digits k s0 v) as [[? ?]|] eqn:E; cbn [mbind option_bind] in H;
        [|discriminate];
      apply read_digits_inv in E as (? & -> & ? & ? & ?)
  | context [expect ?c ?s0] =>
      let E := fresh "E" in
      destruct (expect c s0) eqn:E; cbn [mbind option_bind] in H; [|discriminate];
      apply expect_inv in E as ->
  end.
  repeat case_match; simplify_eq.
  repeat match goal with
  | Hd : all_digits ?p = true, Hl : String.length ?p = _, Hx : dec_acc ?p 0 = Some _ |- _ =>
      rewrite (zpad_unique p _ _ Hd Hl Hx); clear Hd Hl Hx
  end.
  split; [|split]; [unfold strftime; cbn [year month day hour minute second];
                    rewrite string_app_nil_r; reflexivity | assumption | reflexivity].
Qed.

(** C27: on valid instants, comparing two timestamps as strings (what
    sorting by the ["date"] text does) is comparing the instants
    chronologically, to the second. *)
Theorem timestamp_order (d1 d2 : datetime) :
  valid d1 = true -> valid d2 = true ->
  String.compare (strftime d1) (strftime d2) = dt_compare d1 d2.
Proof.
  rewrite !valid_spec. intros Hv1 Hv2.
  pose proof (days_in_month_le d1.(year) d1.(month)).
  pose proof (days_in_month_le d2.(year) d2.(month)).
  unfold strftime, dt_compare.
  repeat ((rewrite string_compare_app by (rewrite !zpad_length; reflexivity))
          || rewrite string_compare_cons_same).
  repeat rewrite zpad_compare by (cbn; lia). reflexivity.
Qed.

(** ** Witnesses *)

(** Three instants a second apart, the clock readings of the concrete runs
    of the other files. *)
Definition tick0 : datetime := mk_datetime 2026 1 1 9 0 0 0.
Definition tick1 : datetime := mk_datetime 2026 1 1 9 0 1 0.
Definition tick2 : datetime := mk_datetime 2026 1 1 9 0 2 0.

(** A leap-day instant with microseconds. *)
Definition leap_noon : datetime := mk_datetime 2024 2 29 12 5 9 250000.

Lemma strftime_roundtrip_witness :
  valid leap_noon = true /\
  String.length (strftime leap_noon) = 19%nat /\
  parse_timestamp (strftime leap_noon) = Some (truncate leap_noon).
Proof.
  assert (Hv : valid leap_noon = true) by reflexivity.
  split; [exact Hv | exact (strftime_roundtrip leap_noon Hv)].
Defined.

Lemma parse_timestamp_canonical_witness :
  parse_timestamp "2026-11-09 23:59:59" = Some (mk_datetime 2026 11 9 23 59 59 0) /\
  strftime (mk_datetime 2026 11 9 23 59 59 0) = "2026-11-09 23:59:59" /\
  valid (mk_datetime 2026 11 9 23 59 59 0) = true /\
  (mk_datetime 2026 11 9 23 59 59 0).(microsecond) = 0.
Proof.
  assert (Hp : parse_timestamp "2026-11-09 23:59:59" = Some (mk_datetime 2026 11 9 23 59 59 0))
    by (vm_compute; reflexivity).
  split; [exact Hp | exact (parse_timestamp_canonical _ _ Hp)].
Defined.

Lemma timestamp_order_witness :
  valid (mk_datetime 2026 1 31 23 59 59 0) = true /\ valid (mk_datetime 2026 2 1 0 0 0 0) = true /\
  String.compare (strftime (mk_datetime 2026 1 31 23 59 59 0)) (strftime (mk_datetime 2026 2 1 0 0 0 0)) =
    dt_compare (mk_datetime 2026 1 31 23 59 59 0) (mk_datetime 2026 2 1 0 0 0 0).
Proof.
  assert (H1 : valid (mk_datetime 2026 1 31 23 59 59 0) = true) by reflexivity.
  assert (H2 : valid (mk_datetime 2026 2 1 0 0 0 0) = true) by reflexivity.
  split; [exact H1|]. split; [exact H2 | exact (timestamp_order _ _ H1 H2)].
Defined.

End DateTime.
