(* ===== verification/Account.v ===== *)
(** * The [Account] class (main.py 14-50)

    [Module Account] holds the account record, the transaction dict built by
    [add_transaction], and one definition per method.  Methods mutate
    [self] in Python; here each returns the updated record together with the
    Python return value.  [withdraw] returns a [string + A]: [inl msg] for the
    string the code returns on failure, [inr balance] for the float it
    returns on success (the route tells them apart with [isinstance]).

    The theorems: the behaviour of each method on every branch (for any
    amount type), and the ledger invariant of spec section 3 ([ledger_ok]:
    replaying the recorded amounts from 0 reproduces every balance snapshot
    and the current balance), established by the constructor and kept by
    [deposit] and [withdraw] (on Python ints, [Z]).  The account number is
    [str] of a [randint] draw with the code's bounds ([randint_bounds])
    under the library's contract ([randint_ok]).
    Each method's [now] is the [datetime] that [datetime.now()] returned;
    [add_transaction] renders it with [DateTime.strftime] as the code does.
    [account_typed] states the field types of spec section 3 (ten-digit
    number, timestamped transactions), kept by every method. *)

From S2P Require Import Prelude PyStr DateTime.
From Stdlib Require Import ZArith String Lia Floats.

Module Account.
Import DateTime.

(** The dict [{"date", "type", "amount", "balance"}] of main.py 27-32. *)
Record transaction (A : Type) := mk_transaction {
  date : string;
  type : string;
  amount : A;
  balance_after : A;
}.
Arguments mk_transaction {A} _ _ _ _.
Arguments date {A} _.
Arguments type {A} _.
Arguments amount {A} _.
Arguments balance_after {A} _.

(** The instance attributes set by [__init__] (main.py 16-20). *)
Record Account (A : Type) := mk_account {
  account_number : string;
  name : string;
  balance : A;
  pin : string;
  transactions : list (transaction A);
}.
Arguments mk_account {A} _ _ _ _ _.
Arguments account_number {A} _.
Arguments name {A} _.
Arguments balance {A} _.
Arguments pin {A} _.
Arguments transactions {A} _.

(** [random.randint(a, b)] returns an integer of the closed range [[a, b]]:
    the contract of the library call, on the draw [r]. *)
Definition randint_ok (bounds : Z * Z) (r : Z) : bool :=
  (fst bounds <=? r)%Z && (r <=? snd bounds)%Z.

(** The arguments the code passes to [randint] (main.py 24). *)
Definition randint_bounds : Z * Z := (10 ^ 9, 10 ^ 10 - 1)%Z.

Section Methods.
Context {A : Type} `{PyNum A}.
Local Open Scope py_scope.

(** [str(random.randint(10**9, 10**10-1))]; [r] is the integer drawn, which
    satisfies [randint_ok randint_bounds r]. *)
Definition generate_account_number (r : Z) : string := py_str r.

(** [self.balance = b]. *)
Definition set_balance (b : A) (self : Account A) : Account A :=
  mk_account self.(account_number) self.(name) b self.(pin) self.(transactions).

(** [add_transaction]: appends a dict whose ["balance"] is the balance at
    the time of the call; [now] is the [strftime] of [datetime.now()]. *)
Definition add_transaction (now : datetime) (transaction_type : string) (amt : A)
    (self : Account A) : Account A :=
  let t := mk_transaction (strftime now) transaction_type amt self.(balance) in
  mk_account self.(account_number) self.(name) self.(balance) self.(pin)
    (self.(transactions) ++ [t])%list.

(** [__init__(name, pin, initial_deposit)], with [r] the random draw of
    [generate_account_number]. *)
Definition init (r : Z) (now : datetime) (name pin : string) (initial_deposit : A)
    : Account A :=
  let self := mk_account (generate_account_number r) name initial_deposit pin [] in
  add_transaction now "Account opened" initial_deposit self.

(** [deposit(amount)]: no check at this layer; returns the new balance. *)
Definition deposit (now : datetime) (amt : A) (self : Account A) : Account A * A :=
  let self := set_balance (self.(balance) + amt) self in
  let self := add_transaction now "Deposit" amt self in
  (self, self.(balance)).

(** [withdraw(amount, pin)]: the PIN check, then the funds check, then the
    debit and the transaction with the negated amount. *)
Definition withdraw (now : datetime) (amt : A) (pin' : string) (self : Account A)
    : Account A * (string + A) :=
  if negb (String.eqb pin' self.(pin)) then (self, inl "Invalid PIN")
  else if amt > self.(balance) then (self, inl "Insufficient funds")
  else
    let self := set_balance (self.(balance) - amt) self in
    let self := add_transaction now "Withdrawal" (- amt) self in
    (self, inr self.(balance)).

Definition get_statement (self : Account A) : list (transaction A) :=
  self.(transactions).
End Methods.

(** ** The ledger invariant (spec section 3), on exact amounts *)

(** Replays the recorded amounts from [prev]: each snapshot must be the
  previous one plus the amount; returns the last snapshot. *)
Fixpoint replay (prev : Z) (txs : list (transaction Z)) : option Z :=
match txs with
| [] => Some prev
| t :: txs' =>
    if (t.(balance_after) =? prev + t.(amount))%Z then replay t.(balance_after) txs'
    else None
end.

Definition ledger_ok (acc : Account Z) : bool :=
match replay 0 acc.(transactions) with
| Some b => (b =? acc.(balance))%Z
| None => false
end.

(** ** Lemmas *)

Lemma replay_snoc (prev : Z) (txs : list (transaction Z)) (t : transaction Z) :
replay prev (txs ++ [t])%list =
match replay prev txs with
| Some b => if (t.(balance_after) =? b + t.(amount))%Z then Some t.(balance_after) else None
| None => None
end.
Proof.
revert prev. induction txs as [|t' txs IH]; intros prev; simpl.
- destruct (_ =? _)%Z; reflexivity.
- destruct (_ =? _)%Z; [apply IH | reflexivity].
Qed.

(** The step every balance-changing operation shares: the ledger stays
  consistent when the balance moves by [amt] and the transaction records
  [amt] against the new balance. *)
Lemma ledger_ok_add_transaction (acc : Account Z) (now : datetime) (ty : string) (amt : Z) :
ledger_ok acc = true ->
ledger_ok (add_transaction now ty amt (set_balance (acc.(balance) + amt)%Z acc)) = true.
Proof.
unfold ledger_ok, add_transaction, set_balance. simpl.
rewrite replay_snoc. destruct (replay 0 (transactions acc)) as [b|]; [|discriminate].
intros Hb. bool_to_prop. subst b. simpl.
rewrite Z.eqb_refl. apply Z.eqb_refl.
Qed.

(** A refused withdrawal leaves the account as it was. *)
Lemma withdraw_refused_same {A} `{PyNum A} now amt p (acc acc' : Account A) msg :
withdraw now amt p acc = (acc', inl msg) -> acc' = acc.
Proof.
unfold withdraw. repeat case_match; intros Heq; injection Heq as <- ?; done.
Qed.

(** No method changes the account's number. *)
Lemma deposit_account_number {A} `{PyNum A} now amt (acc acc' : Account A) r :
deposit now amt acc = (acc', r) -> acc'.(account_number) = acc.(account_number).
Proof. unfold deposit. intros Heq. injection Heq as <- _. reflexivity. Qed.

Lemma withdraw_account_number {A} `{PyNum A} now amt p (acc acc' : Account A) r :
withdraw now amt p acc = (acc', r) -> acc'.(account_number) = acc.(account_number).
Proof. unfold withdraw. repeat case_match; intros Heq; injection Heq as <- _; reflexivity. Qed.

(** ** Well-typed accounts *)

(** A transaction whose ["date"] is the rendering of a valid instant. *)
Definition stamped {A} (t : transaction A) : Prop :=
  exists dt, valid dt = true /\ t.(date) = strftime dt.

(** The types the spec gives an account's fields: a ten-digit number, and
    every transaction dated [YYYY-MM-DD HH:MM:SS]. *)
Definition account_typed {A} (a : Account A) : Prop :=
  String.length a.(account_number) = 10%nat /\ py_isdigit a.(account_number) = true /\
  Forall stamped a.(transactions).

Section Typed.
Context {A : Type} `{PyNum A}.

Lemma add_transaction_typed now ty amt (a : Account A) :
  valid now = true -> account_typed a -> account_typed (add_transaction now ty amt a).
Proof.
  intros Hv (Hl & Hd & Hf). split; [exact Hl|]. split; [exact Hd|].
  apply Forall_app. split; [exact Hf|]. apply Forall_singleton. exists now. split; [exact Hv | reflexivity].
Qed.

Lemma set_balance_typed b (a : Account A) : account_typed a -> account_typed (set_balance b a).
Proof. intros Ha. exact Ha. Qed.

(** A drawn number in [randint]'s range and a valid clock give a typed
    account. *)
Lemma init_typed r now nm p (d : A) :
  randint_ok randint_bounds r = true -> valid now = true -> account_typed (init r now nm p d).
Proof.
  intros Hr Hv. unfold randint_ok, randint_bounds in Hr. cbn [fst snd] in Hr.
  rewrite andb_true_iff in Hr. bool_to_prop.
  destruct (py_str_decade r 9) as (Hl & Hd & _); [simpl in *; lia|].
  apply add_transaction_typed; [exact Hv|]. split; [exact Hl|]. split; [exact Hd | constructor].
Qed.

Lemma deposit_typed now amt (acc acc' : Account A) x :
  valid now = true -> account_typed acc -> deposit now amt acc = (acc', x) -> account_typed acc'.
Proof.
  intros Hv Ha Hd. unfold deposit in Hd. injection Hd as <- _.
  apply add_transaction_typed, set_balance_typed, Ha. exact Hv.
Qed.

Lemma withdraw_typed now amt p (acc acc' : Account A) x :
  valid now = true -> account_typed acc -> withdraw now amt p acc = (acc', x) -> account_typed acc'.
Proof.
  intros Hv Ha. unfold withdraw. repeat case_match; intros Heq; injection Heq as <- _;
    [exact Ha | exact Ha | apply add_transaction_typed, set_balance_typed, Ha; exact Hv].
Qed.
End Typed.

(** ** Account numbers *)

(** C14: the account number the code draws, [str(randint(10**9,
  10**10-1))], is a string of exactly ten decimal digits whose value is the
  drawn integer, for every integer [randint] may return with those
  arguments. *)
Theorem generate_account_number_ten_digits (r : Z) :
randint_ok randint_bounds r = true ->
String.length (generate_account_number r) = 10%nat /\
py_isdigit (generate_account_number r) = true /\
decimal_value (generate_account_number r) = Some r.
Proof.
intros Hr. unfold randint_ok, randint_bounds in Hr. cbn [fst snd] in Hr.
rewrite andb_true_iff in Hr. bool_to_prop. apply (py_str_decade r 9). simpl in *. lia.
Qed.

Lemma generate_account_number_ten_digits_witness :
randint_ok randint_bounds 4821937560 = true /\
String.length (generate_account_number 4821937560) = 10%nat /\
py_isdigit (generate_account_number 4821937560) = true /\
decimal_value (generate_account_number 4821937560) = Some 4821937560%Z.
Proof.
assert (H : randint_ok randint_bounds 4821937560 = true) by reflexivity.
split; [exact H | apply generate_account_number_ten_digits; exact H].
Defined.

(** ** Opening an account *)

(** C15: a new account holds the initial deposit and exactly one transaction,
  "Account opened" for the deposit with the deposit as its snapshot, and
  its ledger is consistent. *)
Theorem init_opening (r : Z) (now : datetime) (nm p : string) (d : Z) :
let acc := init r now nm p d in
acc.(balance) = d /\ acc.(pin) = p /\ acc.(name) = nm /\
acc.(transactions) = [mk_transaction (strftime now) "Account opened" d d] /\
ledger_ok acc = true.
Proof. simpl. repeat split. unfold ledger_ok. simpl. rewrite !Z.eqb_refl. reflexivity. Qed.

(** ** Deposit and withdrawal *)

(** The transactions a run of deposits of [amts] appends, starting from
    balance [b]: each records its amount and the running balance. *)
Fixpoint deposit_log (now : datetime) (b : Z) (amts : list Z) : list (transaction Z) :=
  match amts with
  | [] => []
  | x :: amts' => mk_transaction (strftime now) "Deposit" x (b + x)%Z :: deposit_log now (b + x)%Z amts'
  end.

(** C16: successive deposits add up: after depositing each amount of
    [amts] in turn, the balance has grown by their sum and the account has
    one "Deposit" transaction per amount, each recording the balance right
    after it. *)
Theorem deposits_accumulate (now : datetime) (amts : list Z) (acc : Account Z) :
  let acc' := fold_left (fun a x => fst (deposit now x a)) amts acc in
  acc'.(balance) = (acc.(balance) + fold_right Z.add 0 amts)%Z /\
  acc'.(transactions) = (acc.(transactions) ++ deposit_log now acc.(balance) amts)%list /\
  acc'.(pin) = acc.(pin) /\ acc'.(account_number) = acc.(account_number).
Proof.
cbv zeta. revert acc. induction amts as [|x amts IH]; intros acc.
- simpl. rewrite Z.add_0_r, app_nil_r. repeat split.
- cbn [fold_left]. destruct (IH (fst (deposit now x acc))) as (Hb & Ht & Hp & Hn).
  rewrite Hb, Ht, Hp, Hn. simpl. rewrite <- app_assoc. repeat split. lia.
Qed.

(** C17: [withdraw] fails with "Invalid PIN" when the PIN differs, else with
  "Insufficient funds" when the amount exceeds the balance, leaving the
  account unchanged in both cases; otherwise it debits the amount and
  records the negated amount against the new balance, which it returns. *)
Theorem withdraw_cases {A} `{PyNum A} (now : datetime) (amt : A) (p : string)
  (acc : Account A) :
(p <> acc.(pin) -> withdraw now amt p acc = (acc, inl "Invalid PIN")) /\
(p = acc.(pin) -> num_ltb acc.(balance) amt = true ->
   withdraw now amt p acc = (acc, inl "Insufficient funds")) /\
(p = acc.(pin) -> num_ltb acc.(balance) amt = false ->
   exists acc', withdraw now amt p acc = (acc', inr (num_sub acc.(balance) amt)) /\
     acc'.(balance) = num_sub acc.(balance) amt /\
     acc'.(transactions) = (acc.(transactions) ++
       [mk_transaction (strftime now) "Withdrawal" (num_neg amt) (num_sub acc.(balance) amt)])%list).
Proof.
unfold withdraw. repeat split.
- intros Hp. apply String.eqb_neq in Hp. rewrite Hp. reflexivity.
- intros -> Hlt. rewrite String.eqb_refl. simpl. rewrite Hlt. reflexivity.
- intros -> Hlt. rewrite String.eqb_refl. simpl. rewrite Hlt. eexists. repeat split.
Qed.

Lemma withdraw_cases_witness :
let acc := mk_account "4821937560" "Alice" 100%Z "1111" [] in
"9999" <> acc.(pin) /\ "1111" = acc.(pin) /\
num_ltb acc.(balance) 200%Z = true /\ num_ltb acc.(balance) 50%Z = false /\
withdraw tick0 50%Z "9999" acc = (acc, inl "Invalid PIN") /\
withdraw tick0 200%Z "1111" acc = (acc, inl "Insufficient funds").
Proof.
cbv zeta.
assert (Hne : "9999" <> "1111") by discriminate.
do 4 (split; [first [exact Hne | reflexivity]|]). split.
- apply (proj1 (withdraw_cases tick0 50%Z "9999" (mk_account "4821937560" "Alice" 100%Z "1111" []))).
  exact Hne.
- apply (proj1 (proj2 (withdraw_cases tick0 200%Z "1111"
           (mk_account "4821937560" "Alice" 100%Z "1111" [])))); reflexivity.
Defined.

(** C18: on exact amounts a successful withdrawal never overdraws: the new
  balance is non-negative. *)
Theorem withdraw_no_overdraft (now : datetime) (p : string) (amt : Z) (acc acc' : Account Z) (b : Z) :
withdraw now amt p acc = (acc', inr b) -> (0 <= b)%Z /\ acc'.(balance) = b.
Proof.
unfold withdraw. destruct (negb _); [discriminate|].
simpl. destruct (acc.(balance) <? amt)%Z eqn:Hlt; [discriminate|].
intros Heq. injection Heq as <- <-. bool_to_prop. simpl. split; [lia | reflexivity].
Qed.

Lemma withdraw_no_overdraft_witness :
withdraw tick0 50%Z "1111" (mk_account "4821937560" "Alice" 100%Z "1111" []) =
  (mk_account "4821937560" "Alice" 50%Z "1111" [mk_transaction (strftime tick0) "Withdrawal" (-50)%Z 50%Z],
   inr 50%Z) /\ (0 <= 50)%Z.
Proof.
assert (H : withdraw tick0 50%Z "1111" (mk_account "4821937560" "Alice" 100%Z "1111" []) =
  (mk_account "4821937560" "Alice" 50%Z "1111" [mk_transaction (strftime tick0) "Withdrawal" (-50)%Z 50%Z],
   inr 50%Z)) by reflexivity.
split; [exact H | apply (proj1 (withdraw_no_overdraft _ _ _ _ _ _ H))].
Defined.

(** C19: [deposit] and [withdraw] keep the ledger invariant. *)
Theorem methods_keep_ledger (now : datetime) (p : string) (amt : Z) (acc : Account Z) :
ledger_ok acc = true ->
ledger_ok (fst (deposit now amt acc)) = true /\
ledger_ok (fst (withdraw now amt p acc)) = true.
Proof.
intros Hok. split; [apply ledger_ok_add_transaction, Hok|].
unfold withdraw. destruct (negb _); [exact Hok|]. simpl.
destruct (_ <? _)%Z; [exact Hok|]. simpl fst.
replace (balance acc - amt)%Z with (balance acc + - amt)%Z by lia.
apply ledger_ok_add_transaction, Hok.
Qed.

Lemma methods_keep_ledger_witness :
let acc := init 4821937560 tick0 "Alice" "1111" 100%Z in
ledger_ok acc = true /\
ledger_ok (fst (deposit tick1 50%Z acc)) = true /\
ledger_ok (fst (withdraw tick1 50%Z "1111" acc)) = true.
Proof.
cbv zeta. assert (H : ledger_ok (init 4821937560 tick0 "Alice" "1111" 100%Z) = true)
  by reflexivity.
split; [exact H | apply methods_keep_ledger; exact H].
Defined.

End Account.
