(* ===== verification/Bank.v ===== *)
(** * The [Bank] class and its persistence (main.py 53-104)

    [Module Bank] holds the bank (the dict [accounts] from account-number
    strings to accounts), the process state [World] (the module-global
    [bank] object and the file [bank_data.pkl]), [save_data] and [load_data],
    and the two mutating methods [create_account] and [transfer].

    Pickle is not modelled byte by byte: [Pickle] is the interface the bank
    relies on (a dump and a partial load with the round-trip law
    [load (dump b) = Some b] for every well-formed bank, one that stores
    each account under its own number: [bank_wf]; a format that keys
    accounts by number without repeating it, as spec section 6's JSON does,
    round-trips exactly these); [PickleFile] is a concrete instance in which
    the file holds either a complete pickle of a bank or bytes that do not
    unpickle (a partial write, foreign data), which is what [load_data]
    distinguishes.

    [transfer] is the sequence of four in-place updates of the code, each an
    [alter] of the current map, so that a transfer from an account to itself
    updates the one aliased entry four times, as in Python.

    Beside the functional theorems, the file proves that both methods keep
    the bank well formed, keep the file in step with it ([world_ok]) and
    keep every account typed ([bank_typed]), the facts the server
    invariants are built from.  On binary64 amounts it shows that a
    transfer does not conserve the sum of the two balances. *)

From S2P Require Import Prelude PyStr DateTime Account.
From Stdlib Require Import ZArith String Lia Floats.

Module Bank.
Import DateTime Account.

(** [Bank.__init__]: [self.accounts = {}]. *)
Record Bank (A : Type) := mk_bank { accounts : gmap string (Account A) }.
Arguments mk_bank {A} _.
Arguments accounts {A} _.

(** A bank is well formed when every account is stored under its own
    number, as [create_account] stores it ([self.accounts[account.account_number]
    = account]).  A format that keys accounts by number without repeating the
    number inside (the JSON layout of the spec) round-trips exactly these. *)
Definition bank_wf {A} (b : Bank A) : Prop :=
  map_Forall (fun k a => a.(account_number) = k) b.(accounts).

#[export] Instance bank_wf_dec {A} (b : Bank A) : Decision (bank_wf b).
Proof. unfold bank_wf. apply _. Defined.

(** What a serializer for [save_data] and [load_data] provides: a file
    content for every bank, and a load that either fails (an exception) or
    returns a bank, such that loading a dumped well-formed bank gives it
    back.  [pickle] is one such serializer. *)
Class Pickle (A : Type) := {
  pickled : Type;
  dump : Bank A -> pickled;
  load : pickled -> option (Bank A);
  load_dump : forall b, bank_wf b -> load (dump b) = Some b;
}.

(** The file content: a complete pickle stream of a bank, or bytes that are
    not one. *)
Inductive pickle_file (A : Type) :=
  | PickleStream (b : Bank A)
  | Garbage (bytes : list Byte.byte).
Arguments PickleStream {A} _.
Arguments Garbage {A} _.

#[export] Program Instance PickleFile (A : Type) : Pickle A := {
  pickled := pickle_file A;
  dump := PickleStream;
  load := fun f => match f with PickleStream b => Some b | Garbage _ => None end;
}.
Next Obligation. intros A b _. reflexivity. Qed.

(** The process state: the module-global [bank] and the file
    [BANK_DATA_FILE] ([None] when it does not exist). *)
Record World (A : Type) `{Pickle A} := mk_world {
  bank : Bank A;
  disk : option pickled;
}.
Arguments mk_world {A _} _ _.
Arguments bank {A _} _.
Arguments disk {A _} _.

Section Methods.
Context {A : Type} `{PyNum A} `{Pickle A}.
Local Open Scope py_scope.

Definition empty_bank : Bank A := mk_bank ∅.

Definition set_accounts (m : gmap string (Account A)) (w : World A) : World A :=
  mk_world (mk_bank m) w.(disk).

(** [save_data]: overwrites the file with the pickle of the whole bank. *)
Definition save_data (w : World A) : World A :=
  mk_world w.(bank) (Some (dump w.(bank))).

(** [load_data]: a missing file or one that fails to unpickle gives a
    fresh [Bank()]. *)
Definition load_data (f : option pickled) : Bank A :=
  match f with
  | None => empty_bank
  | Some contents =>
      match load contents with
      | Some b => b
      | None => empty_bank
      end
  end.

(** [create_account(name, pin, initial_deposit)]; the result is the string
    the method returns: an error message or the new account number.  [r]
    and [now] are the random draw and the clock reading of [Account]. *)
Definition create_account (r : Z) (now : datetime) (nm p : string) (initial_deposit : A)
    (w : World A) : World A * string :=
  if negb (Nat.eqb (String.length p) 4) || negb (py_isdigit p) then
    (w, "PIN must be 4 digits")
  else if initial_deposit < 0 then
    (w, "Initial deposit must be positive")
  else
    let account := init r now nm p initial_deposit in
    let w := set_accounts (<[account.(account_number) := account]> w.(bank).(accounts)) w in
    (save_data w, account.(account_number)).

(** [transfer(from_acc, to_acc, amount, pin)]: three guards, then the two
    balance updates and the two transactions, in the code's order, on the
    entries of the shared dict; [now1] and [now2] are the clock readings of
    the two [add_transaction] calls. *)
Definition transfer (now1 now2 : datetime) (from_acc to_acc : string) (amt : A) (p : string)
    (w : World A) : World A * string :=
  match w.(bank).(accounts) !! from_acc, w.(bank).(accounts) !! to_acc with
  | Some fa, Some _ =>
      if negb (String.eqb fa.(pin) p) then (w, "Invalid PIN")
      else if fa.(balance) < amt then (w, "Insufficient funds")
      else
        let m := w.(bank).(accounts) in
        let m := alter (fun a => set_balance (a.(balance) - amt) a) from_acc m in
        let m := alter (fun a => set_balance (a.(balance) + amt) a) to_acc m in
        let m := alter (add_transaction now1 ("Transfer to " ++ to_acc) (- amt)) from_acc m in
        let m := alter (add_transaction now2 ("Transfer from " ++ from_acc) amt) to_acc m in
        (save_data (set_accounts m w), "Transfer successful")
  | _, _ => (w, "Invalid account number")
  end.
End Methods.

(** The total of all balances, on exact amounts. *)
Definition total (m : gmap string (Account Z)) : Z :=
map_fold (fun _ a s => (a.(balance) + s)%Z) 0%Z m.

(** ** Lemmas on the total *)

Lemma total_insert_fresh (m : gmap string (Account Z)) (k : string) (a : Account Z) :
m !! k = None -> total (<[k := a]> m) = (a.(balance) + total m)%Z.
Proof. intros Hk. unfold total. rewrite map_fold_insert_L; [reflexivity | intros; lia | exact Hk]. Qed.

(** Replacing the entry at [k] moves the total by the difference of the two
  balances. *)
Lemma total_insert_existing (m : gmap string (Account Z)) (k : string) (old a : Account Z) :
m !! k = Some old -> total (<[k := a]> m) = (total m - old.(balance) + a.(balance))%Z.
Proof.
intros Hk.
rewrite <- (insert_delete_eq m k a), total_insert_fresh by apply lookup_delete_eq.
rewrite <- (insert_id m k old Hk) at 2. rewrite <- insert_delete_eq.
rewrite total_insert_fresh by apply lookup_delete_eq. lia.
Qed.

Lemma total_alter (m : gmap string (Account Z)) (k : string) (f : Account Z -> Account Z)
  (a : Account Z) :
m !! k = Some a -> total (alter f k m) = (total m - a.(balance) + (f a).(balance))%Z.
Proof.
intros Hk. rewrite <- (insert_id m k a Hk) at 1.
rewrite alter_insert, decide_True by reflexivity.
apply total_insert_existing, Hk.
Qed.

(** An update that moves every balance by [delta] moves the total by
  [delta]. *)
Lemma total_alter_delta (m : gmap string (Account Z)) (k : string)
  (f : Account Z -> Account Z) (delta : Z) :
(forall a, (f a).(balance) = (a.(balance) + delta)%Z) -> is_Some (m !! k) ->
total (alter f k m) = (total m + delta)%Z.
Proof. intros Hf [a Ha]. rewrite (total_alter m k f a Ha), Hf. lia. Qed.

Lemma load_save {A} `{Pickle A} (w : World A) :
  bank_wf w.(bank) -> load_data (save_data w).(disk) = w.(bank).
Proof. intros Hwf. simpl. rewrite load_dump by exact Hwf. reflexivity. Qed.

#[export] Hint Rewrite @load_save : bank_rw.

(** ** Lemmas on [transfer] *)

Section TransferLemmas.
Context {A : Type} `{PyNum A} `{Pickle A}.

(** The map a successful transfer leaves, as in the code. *)
Definition transfer_map (now1 now2 : datetime) (from_acc to_acc : string) (amt : A)
    (m : gmap string (Account A)) : gmap string (Account A) :=
  alter (add_transaction now2 ("Transfer from " ++ from_acc) amt) to_acc
    (alter (add_transaction now1 ("Transfer to " ++ to_acc) (num_neg amt)) from_acc
      (alter (fun a => set_balance (num_add a.(balance) amt) a) to_acc
        (alter (fun a => set_balance (num_sub a.(balance) amt) a) from_acc m))).

(** Every guard passing, [transfer] succeeds, writes [transfer_map] and
    saves it. *)
Lemma transfer_success_eq now1 now2 from_acc to_acc amt p (w : World A) fa ta :
  w.(bank).(accounts) !! from_acc = Some fa -> w.(bank).(accounts) !! to_acc = Some ta ->
  fa.(pin) = p -> num_ltb fa.(balance) amt = false ->
  transfer now1 now2 from_acc to_acc amt p w =
    (save_data (set_accounts (transfer_map now1 now2 from_acc to_acc amt w.(bank).(accounts)) w),
     "Transfer successful").
Proof.
  intros Hf Ht <- Hlt. unfold transfer. rewrite Hf, Ht, ?String.eqb_refl, Hlt. reflexivity.
Qed.

(** For two distinct accounts the source is debited and the destination
    credited, each with its own transaction, and no other entry changes. *)
Lemma transfer_map_distinct now1 now2 from_acc to_acc amt m fa ta :
  from_acc <> to_acc -> m !! from_acc = Some fa -> m !! to_acc = Some ta ->
  transfer_map now1 now2 from_acc to_acc amt m !! from_acc =
    Some (add_transaction now1 ("Transfer to " ++ to_acc) (num_neg amt)
            (set_balance (num_sub fa.(balance) amt) fa)) /\
  transfer_map now1 now2 from_acc to_acc amt m !! to_acc =
    Some (add_transaction now2 ("Transfer from " ++ from_acc) amt
            (set_balance (num_add ta.(balance) amt) ta)) /\
  (forall k, k <> from_acc -> k <> to_acc -> transfer_map now1 now2 from_acc to_acc amt m !! k = m !! k).
Proof.
  intros Hne Hf Ht. unfold transfer_map. split; [|split].
  - rewrite lookup_alter_ne by done. rewrite lookup_alter_eq, lookup_alter_ne by done.
    rewrite lookup_alter_eq, Hf. reflexivity.
  - rewrite lookup_alter_eq, lookup_alter_ne by done. rewrite lookup_alter_eq.
    rewrite lookup_alter_ne by done. rewrite Ht. reflexivity.
  - intros k Hk1 Hk2. rewrite !lookup_alter_ne by done. reflexivity.
Qed.
(** A transfer either leaves the world as it was or succeeds through all
    three guards. *)
Lemma transfer_outcome now1 now2 from_acc to_acc amt p (w w' : World A) res :
  transfer now1 now2 from_acc to_acc amt p w = (w', res) ->
  (w' = w /\ res <> "Transfer successful") \/
  (exists fa ta, w.(bank).(accounts) !! from_acc = Some fa /\
     w.(bank).(accounts) !! to_acc = Some ta /\
     num_ltb fa.(balance) amt = false /\ res = "Transfer successful" /\
     w' = save_data (set_accounts (transfer_map now1 now2 from_acc to_acc amt
                                    w.(bank).(accounts)) w)).
Proof.
  unfold transfer. repeat case_match; intros Heq; injection Heq as <- <-;
    first [left; split; [reflexivity | discriminate]
          | right; do 2 eexists; repeat split; eassumption].
Qed.
End TransferLemmas.

(** ** Well-formedness and the file stay in step with the bank *)

(** An update that keeps each account's number keeps the bank well formed. *)
Lemma accounts_wf_alter {A} (m : gmap string (Account A)) (f : Account A -> Account A) k :
  (forall a, (f a).(account_number) = a.(account_number)) ->
  map_Forall (fun k a => a.(account_number) = k) m ->
  map_Forall (fun k a => a.(account_number) = k) (alter f k m).
Proof. intros Hf. apply map_Forall_alter_2. intros a Ha. rewrite Hf. exact Ha. Qed.

(** Writing back, under its key, an account read from that key with its
    number unchanged keeps the bank well formed. *)
Lemma accounts_wf_insert_same {A} (m : gmap string (Account A)) k (a a' : Account A) :
  map_Forall (fun k a => a.(account_number) = k) m -> m !! k = Some a ->
  a'.(account_number) = a.(account_number) ->
  map_Forall (fun k a => a.(account_number) = k) (<[k := a']> m).
Proof. intros Hm Hk Ha. apply map_Forall_insert_2; [rewrite Ha; exact (Hm k a Hk) | exact Hm]. Qed.

Section SyncLemmas.
Context {A : Type} `{PyNum A} `{Pickle A}.

(** The state a request may start from: a well-formed bank, which is what
    the file reloads to. *)
Definition world_ok (w : World A) : Prop :=
  bank_wf w.(bank) /\ load_data w.(disk) = w.(bank).

Lemma set_accounts_id (w : World A) : set_accounts w.(bank).(accounts) w = w.
Proof. destruct w as [[m] d]. reflexivity. Qed.

(** Saving a well-formed bank makes the file agree with it. *)
Lemma world_ok_save (w : World A) : bank_wf w.(bank) -> world_ok (save_data w).
Proof. intros Hwf. split; [exact Hwf | exact (load_save w Hwf)]. Qed.

Lemma create_account_sync r now nm p d (w w' : World A) res :
  world_ok w -> create_account r now nm p d w = (w', res) -> world_ok w'.
Proof.
  intros Hok. unfold create_account. repeat case_match; intros Heq; injection Heq as <- _;
    [exact Hok | exact Hok |].
  apply world_ok_save, map_Forall_insert_2; [reflexivity | apply Hok].
Qed.

Lemma transfer_map_wf now1 now2 from_acc to_acc (amt : A) m :
  map_Forall (fun k a => a.(account_number) = k) m ->
  map_Forall (fun k a => a.(account_number) = k) (transfer_map now1 now2 from_acc to_acc amt m).
Proof. intros Hm. unfold transfer_map. repeat apply accounts_wf_alter; try reflexivity. exact Hm. Qed.

Lemma transfer_sync now1 now2 from_acc to_acc amt p (w w' : World A) res :
  world_ok w -> transfer now1 now2 from_acc to_acc amt p w = (w', res) -> world_ok w'.
Proof.
  intros Hok Ht.
  destruct (transfer_outcome _ _ _ _ _ _ _ _ _ Ht) as [[-> _] | (_ & _ & _ & _ & _ & _ & ->)];
    [exact Hok | apply world_ok_save, transfer_map_wf, Hok].
Qed.

(** No method removes an account number. *)
Lemma create_account_keeps_keys r now nm p d (w w' : World A) res k :
  create_account r now nm p d w = (w', res) ->
  is_Some (w.(bank).(accounts) !! k) -> is_Some (w'.(bank).(accounts) !! k).
Proof.
  unfold create_account. repeat case_match; intros Heq; injection Heq as <- _;
    [done | done | simpl; rewrite lookup_insert_is_Some'; auto].
Qed.

Lemma transfer_keeps_keys now1 now2 from_acc to_acc amt p (w w' : World A) res k :
  transfer now1 now2 from_acc to_acc amt p w = (w', res) ->
  is_Some (w.(bank).(accounts) !! k) -> is_Some (w'.(bank).(accounts) !! k).
Proof.
  intros Ht. destruct (transfer_outcome _ _ _ _ _ _ _ _ _ Ht)
    as [[-> _] | (_ & _ & _ & _ & _ & _ & ->)]; [done|].
  simpl. unfold transfer_map. rewrite !alter_lookup_is_Some. done.
Qed.
(** [create_account] either refuses, leaving the world, or stores the new
    account under its generated number and saves. *)
Lemma create_account_outcome r now nm p d (w w' : World A) res :
  create_account r now nm p d w = (w', res) ->
  (w' = w /\ (res = "PIN must be 4 digits" \/ res = "Initial deposit must be positive")) \/
  (w' = save_data (set_accounts (<[generate_account_number r := init r now nm p d]>
                                  w.(bank).(accounts)) w) /\ res = generate_account_number r).
Proof. unfold create_account. repeat case_match; intros Heq; injection Heq as <- <-; auto. Qed.

(** An account that is not the source of a transfer is either left as it
    was or is the destination and credited. *)
Lemma transfer_other_entry now1 now2 from_acc to_acc amt p (w w' : World A) res k :
  transfer now1 now2 from_acc to_acc amt p w = (w', res) -> k <> from_acc ->
  w'.(bank).(accounts) !! k = w.(bank).(accounts) !! k \/
  (k = to_acc /\ exists ta, w.(bank).(accounts) !! to_acc = Some ta /\
     w'.(bank).(accounts) !! k =
       Some (add_transaction now2 ("Transfer from " ++ from_acc) amt (set_balance (num_add ta.(balance) amt) ta))).
Proof.
  intros Ht Hk. destruct (transfer_outcome _ _ _ _ _ _ _ _ _ Ht)
    as [[-> _] | (fa & ta & Hf & Htt & _ & _ & ->)]; [left; reflexivity|].
  destruct (decide (k = to_acc)) as [->|Hkt].
  - right. split; [reflexivity|]. exists ta. split; [exact Htt|].
    exact (proj1 (proj2 (transfer_map_distinct now1 now2 from_acc to_acc amt _ fa ta
                           (not_eq_sym Hk) Hf Htt))).
  - left. unfold transfer_map. cbn. rewrite !lookup_alter_ne by congruence. reflexivity.
Qed.
End SyncLemmas.

#[export] Hint Resolve create_account_keeps_keys transfer_keeps_keys : bank.

(** Every account of the bank has the types the spec gives it. *)
Definition bank_typed {A} (b : Bank A) : Prop :=
  map_Forall (fun _ a => account_typed a) b.(accounts).

Section TypedLemmas.
Context {A : Type} `{PyNum A} `{Pickle A}.

Lemma create_account_typed r now nm p d (w w' : World A) res :
  randint_ok randint_bounds r = true -> valid now = true ->
  bank_typed w.(bank) -> create_account r now nm p d w = (w', res) -> bank_typed w'.(bank).
Proof.
  intros Hr Hv Ht. unfold create_account. repeat case_match; intros Heq; injection Heq as <- _;
    [exact Ht | exact Ht |].
  apply map_Forall_insert_2; [apply init_typed; assumption | exact Ht].
Qed.

Lemma transfer_typed now1 now2 from_acc to_acc amt p (w w' : World A) res :
  valid now1 = true -> valid now2 = true ->
  bank_typed w.(bank) -> transfer now1 now2 from_acc to_acc amt p w = (w', res) ->
  bank_typed w'.(bank).
Proof.
  intros Hv1 Hv2 Ht Htr.
  destruct (transfer_outcome _ _ _ _ _ _ _ _ _ Htr) as [[-> _] | (_ & _ & _ & _ & _ & _ & ->)];
    [exact Ht|].
  unfold transfer_map. cbn.
  repeat apply map_Forall_alter_2; try exact Ht;
    intros a Ha; apply add_transaction_typed || apply set_balance_typed; assumption.
Qed.
End TypedLemmas.


#[export] Hint Resolve create_account_sync transfer_sync : bank.

(** ** Account creation *)

(** C12: [create_account] refuses a PIN that is not four digits, then a
  negative deposit, each time leaving the world unchanged; otherwise it
  stores the new account under its generated number, saves, and returns
  the number. *)
Theorem create_account_cases {A} `{PyNum A} `{Pickle A} (r : Z) (now : datetime) (nm p : string) (d : A)
  (w : World A) :
((String.length p <> 4%nat \/ py_isdigit p = false) ->
   create_account r now nm p d w = (w, "PIN must be 4 digits")) /\
(String.length p = 4%nat -> py_isdigit p = true -> num_ltb d num_zero = true ->
   create_account r now nm p d w = (w, "Initial deposit must be positive")) /\
(String.length p = 4%nat -> py_isdigit p = true -> num_ltb d num_zero = false ->
   create_account r now nm p d w =
     (save_data (set_accounts (<[generate_account_number r := init r now nm p d]>
                                w.(bank).(accounts)) w),
      generate_account_number r)).
Proof.
unfold create_account. split; [|split].
- intros [Hl|Hd].
  + apply Nat.eqb_neq in Hl. rewrite Hl. reflexivity.
  + rewrite Hd, orb_true_r. reflexivity.
- intros Hl Hd Hneg. rewrite Hl, Hd. simpl. rewrite Hneg. reflexivity.
- intros Hl Hd Hneg. rewrite Hl, Hd. simpl. rewrite Hneg. reflexivity.
Qed.

Lemma create_account_cases_witness :
let w0 := mk_world (A := Z) (mk_bank ∅) None in
(String.length "12a4" <> 4%nat \/ py_isdigit "12a4" = false) /\
create_account 4821937560 tick0 "Alice" "12a4" 100%Z w0 = (w0, "PIN must be 4 digits") /\
create_account 4821937560 tick0 "Alice" "123" 100%Z w0 = (w0, "PIN must be 4 digits") /\
create_account 4821937560 tick0 "Alice" "1234" (-1)%Z w0 = (w0, "Initial deposit must be positive") /\
snd (create_account 4821937560 tick0 "Alice" "1234" 0%Z w0) = "4821937560".
Proof.
cbv zeta.
assert (H12a4 : String.length "12a4" <> 4%nat \/ py_isdigit "12a4" = false) by (right; reflexivity).
split; [exact H12a4|]. split.
{ apply (proj1 (create_account_cases _ _ _ _ _ _)). exact H12a4. }
split.
{ apply (proj1 (create_account_cases _ _ _ _ _ _)). left. discriminate. }
split.
{ apply (proj1 (proj2 (create_account_cases _ _ _ _ _ _))); reflexivity. }
rewrite (proj2 (proj2 (create_account_cases _ _ _ _ _ _))) by reflexivity. reflexivity.
Defined.

(** C13: account numbers are not checked for collisions: when the drawn
  number is already taken, the existing account is replaced by the new one
  and its balance leaves the total. *)
Theorem create_account_overwrites (r : Z) (now : datetime) (nm p : string) (d : Z) (w : World Z)
  (old : Account Z) :
w.(bank).(accounts) !! generate_account_number r = Some old ->
String.length p = 4%nat -> py_isdigit p = true -> (0 <= d)%Z ->
let w' := fst (create_account r now nm p d w) in
w'.(bank).(accounts) !! generate_account_number r = Some (init r now nm p d) /\
total w'.(bank).(accounts) = (total w.(bank).(accounts) - old.(balance) + d)%Z.
Proof.
intros Hold Hl Hd Hpos. cbv zeta.
rewrite (proj2 (proj2 (create_account_cases r now nm p d w)) Hl Hd)
  by (apply Z.ltb_ge; exact Hpos).
simpl. rewrite lookup_insert_eq. split; [reflexivity|].
rewrite (total_insert_existing _ _ old _ Hold). reflexivity.
Qed.

Lemma create_account_overwrites_witness :
let old := init 4821937560 tick0 "Bob" "2222" 500%Z in
let w := mk_world (mk_bank {[ "4821937560" := old ]}) None in
w.(bank).(accounts) !! generate_account_number 4821937560 = Some old /\
total (fst (create_account 4821937560 tick1 "Eve" "1234" 0%Z w)).(bank).(accounts) = 0%Z.
Proof.
cbv zeta.
assert (Hold : (mk_world (mk_bank {[ "4821937560" := init 4821937560 tick0 "Bob" "2222" 500%Z ]}) None
   : World Z).(bank).(accounts) !! generate_account_number 4821937560 =
   Some (init 4821937560 tick0 "Bob" "2222" 500%Z)) by reflexivity.
split; [exact Hold|].
rewrite (proj2 (create_account_overwrites 4821937560 tick1 "Eve" "1234" 0%Z _ _ Hold
                  eq_refl eq_refl ltac:(lia))).
reflexivity.
Defined.

(** ** Transfers *)

(** C6: [transfer] fails with "Invalid account number" when either account
  is missing, then with "Invalid PIN" when the PIN is not the source's,
  then with "Insufficient funds" when the source balance is below the
  amount, each time mutating nothing and not saving. *)
Theorem transfer_errors {A} `{PyNum A} `{Pickle A} now1 now2 from_acc to_acc (amt : A) p
  (w : World A) :
((w.(bank).(accounts) !! from_acc = None \/ w.(bank).(accounts) !! to_acc = None) ->
   transfer now1 now2 from_acc to_acc amt p w = (w, "Invalid account number")) /\
(forall fa, w.(bank).(accounts) !! from_acc = Some fa -> is_Some (w.(bank).(accounts) !! to_acc) ->
   fa.(pin) <> p -> transfer now1 now2 from_acc to_acc amt p w = (w, "Invalid PIN")) /\
(forall fa, w.(bank).(accounts) !! from_acc = Some fa -> is_Some (w.(bank).(accounts) !! to_acc) ->
   fa.(pin) = p -> num_ltb fa.(balance) amt = true ->
   transfer now1 now2 from_acc to_acc amt p w = (w, "Insufficient funds")).
Proof.
unfold transfer. split; [|split].
- intros [-> | ->]; [reflexivity|]. destruct (_ !! from_acc); reflexivity.
- intros fa Hf [ta Ht] Hp. rewrite Hf, Ht. apply String.eqb_neq in Hp. rewrite Hp. reflexivity.
- intros fa Hf [ta Ht] <- Hlt. rewrite Hf, Ht, String.eqb_refl. simpl. rewrite Hlt. reflexivity.
Qed.

(** Two accounts of the spec's examples: A holds 100 under PIN 1111 and B
  holds 0 under PIN 2222. *)
Definition two_accounts : World Z :=
mk_world (mk_bank {[ "1000000001" := init 1000000001 tick0 "A" "1111" 100%Z;
                     "1000000002" := init 1000000002 tick0 "B" "2222" 0%Z ]}) None.

Lemma transfer_errors_witness :
two_accounts.(bank).(accounts) !! "0000000000" = None /\
transfer tick1 tick2 "1000000001" "0000000000" 40%Z "1111" two_accounts =
  (two_accounts, "Invalid account number") /\
transfer tick1 tick2 "1000000001" "1000000002" 40%Z "9999" two_accounts =
  (two_accounts, "Invalid PIN") /\
transfer tick1 tick2 "1000000001" "1000000002" 200%Z "1111" two_accounts =
  (two_accounts, "Insufficient funds").
Proof.
assert (Hnone : two_accounts.(bank).(accounts) !! "0000000000" = None) by reflexivity.
split; [exact Hnone|]. split; [apply (proj1 (transfer_errors _ _ _ _ _ _ _)); right; exact Hnone|].
split.
- apply (proj1 (proj2 (transfer_errors _ _ _ _ _ _ _)) (init 1000000001 tick0 "A" "1111" 100%Z));
    [reflexivity | eexists; reflexivity | discriminate].
- apply (proj2 (proj2 (transfer_errors _ _ _ _ _ _ _)) (init 1000000001 tick0 "A" "1111" 100%Z));
    [reflexivity | eexists; reflexivity | reflexivity | reflexivity].
Defined.

(** C7: between two distinct accounts, with the source's PIN and an amount
  not above its balance, [transfer] succeeds: the source is debited and
  records "Transfer to <dest>" with the negated amount, the destination is
  credited and records "Transfer from <source>" with the amount, each
  snapshot being its own account's new balance; no other account changes
  and the file holds the new bank. *)
Theorem transfer_distinct {A} `{PyNum A} `{Pickle A} now1 now2 from_acc to_acc (amt : A) p
  (w : World A) fa ta :
from_acc <> to_acc ->
w.(bank).(accounts) !! from_acc = Some fa -> w.(bank).(accounts) !! to_acc = Some ta ->
fa.(pin) = p -> num_ltb fa.(balance) amt = false ->
let '(w', res) := transfer now1 now2 from_acc to_acc amt p w in
res = "Transfer successful" /\
w'.(bank).(accounts) !! from_acc =
  Some (add_transaction now1 ("Transfer to " ++ to_acc) (num_neg amt)
          (set_balance (num_sub fa.(balance) amt) fa)) /\
w'.(bank).(accounts) !! to_acc =
  Some (add_transaction now2 ("Transfer from " ++ from_acc) amt
          (set_balance (num_add ta.(balance) amt) ta)) /\
(forall k, k <> from_acc -> k <> to_acc -> w'.(bank).(accounts) !! k = w.(bank).(accounts) !! k) /\
w'.(disk) = Some (dump w'.(bank)).
Proof.
intros Hne Hf Ht Hp Hlt. rewrite (transfer_success_eq _ _ _ _ _ _ _ fa ta Hf Ht Hp Hlt).
destruct (transfer_map_distinct now1 now2 from_acc to_acc amt _ fa ta Hne Hf Ht)
  as (H1 & H2 & H3).
simpl. repeat split; assumption.
Qed.

Lemma transfer_distinct_witness :
let w' := fst (transfer tick1 tick2 "1000000001" "1000000002" 40%Z "1111" two_accounts) in
"1000000001" <> "1000000002" /\
option_map balance (w'.(bank).(accounts) !! "1000000001") = Some 60%Z /\
option_map balance (w'.(bank).(accounts) !! "1000000002") = Some 40%Z.
Proof.
cbv zeta.
assert (Hne : "1000000001" <> "1000000002") by discriminate.
pose proof (transfer_distinct tick1 tick2 "1000000001" "1000000002" 40%Z "1111" two_accounts
  (init 1000000001 tick0 "A" "1111" 100%Z) (init 1000000002 tick0 "B" "2222" 0%Z)
  Hne eq_refl eq_refl eq_refl eq_refl) as Hd.
destruct (transfer _ _ _ _ _ _ _) as [w' res]. destruct Hd as (_ & H1 & H2 & _).
simpl. rewrite H1, H2. split; [exact Hne | split; reflexivity].
Defined.

(** C8: on exact amounts a transfer, successful or not, leaves the total
  of all balances unchanged (the debit and the credit cancel, also when
  both name the same account). *)
Theorem transfer_conserves_total now1 now2 from_acc to_acc (amt : Z) p (w w' : World Z) res :
transfer now1 now2 from_acc to_acc amt p w = (w', res) ->
total w'.(bank).(accounts) = total w.(bank).(accounts).
Proof.
intros Ht. destruct (transfer_outcome _ _ _ _ _ _ _ _ _ Ht)
  as [[-> _] | (fa & ta & Hf & Htt & _ & _ & ->)]; [reflexivity|].
simpl. unfold transfer_map.
assert (Hsf : is_Some (w.(bank).(accounts) !! from_acc)) by (eexists; exact Hf).
assert (Hst : is_Some (w.(bank).(accounts) !! to_acc)) by (eexists; exact Htt).
rewrite (total_alter_delta _ _ _ 0%Z), (total_alter_delta _ _ _ 0%Z),
  (total_alter_delta _ _ _ amt), (total_alter_delta _ _ _ (- amt)%Z);
  rewrite ?alter_lookup_is_Some; try assumption; try (intros; simpl; lia).
Qed.

Lemma transfer_conserves_total_witness :
transfer tick1 tick2 "1000000001" "1000000002" 40%Z "1111" two_accounts =
  (fst (transfer tick1 tick2 "1000000001" "1000000002" 40%Z "1111" two_accounts),
   "Transfer successful") /\
total (fst (transfer tick1 tick2 "1000000001" "1000000002" 40%Z "1111" two_accounts))
  .(bank).(accounts) = 100%Z.
Proof.
assert (H : transfer tick1 tick2 "1000000001" "1000000002" 40%Z "1111" two_accounts =
  (fst (transfer tick1 tick2 "1000000001" "1000000002" 40%Z "1111" two_accounts),
   "Transfer successful")) by reflexivity.
split; [exact H|]. rewrite (transfer_conserves_total _ _ _ _ _ _ _ _ _ H). reflexivity.
Defined.

(** C9: a transfer between two distinct accounts keeps the ledger
  invariant of every account. *)
Theorem transfer_keeps_ledger now1 now2 from_acc to_acc (amt : Z) p (w w' : World Z) res :
from_acc <> to_acc ->
(forall k a, w.(bank).(accounts) !! k = Some a -> ledger_ok a = true) ->
transfer now1 now2 from_acc to_acc amt p w = (w', res) ->
forall k a, w'.(bank).(accounts) !! k = Some a -> ledger_ok a = true.
Proof.
intros Hne Hok Ht. destruct (transfer_outcome _ _ _ _ _ _ _ _ _ Ht)
  as [[-> _] | (fa & ta & Hf & Htt & _ & _ & ->)]; [exact Hok|].
destruct (transfer_map_distinct now1 now2 from_acc to_acc amt _ fa ta Hne Hf Htt)
  as (H1 & H2 & H3).
intros k a Hk. simpl in Hk.
destruct (decide (k = from_acc)) as [->|Hkf]; [|destruct (decide (k = to_acc)) as [->|Hkt]].
- rewrite H1 in Hk. injection Hk as <-. rewrite <- Z.add_opp_r.
  apply ledger_ok_add_transaction, (Hok _ _ Hf).
- rewrite H2 in Hk. injection Hk as <-. apply ledger_ok_add_transaction, (Hok _ _ Htt).
- rewrite H3 in Hk by assumption. exact (Hok _ _ Hk).
Qed.

Lemma transfer_keeps_ledger_witness :
"1000000001" <> "1000000002" /\
(forall k a, two_accounts.(bank).(accounts) !! k = Some a -> ledger_ok a = true) /\
forall k a, (fst (transfer tick1 tick2 "1000000001" "1000000002" 40%Z "1111" two_accounts))
              .(bank).(accounts) !! k = Some a -> ledger_ok a = true.
Proof.
assert (Hne : "1000000001" <> "1000000002") by discriminate.
assert (Hok : forall k a, two_accounts.(bank).(accounts) !! k = Some a -> ledger_ok a = true).
{ intros k a Hk. unfold two_accounts in Hk. simpl in Hk.
  rewrite lookup_insert in Hk. destruct (decide _); [injection Hk as <-; reflexivity|].
  rewrite lookup_singleton_Some in Hk. destruct Hk as [_ <-]. reflexivity. }
split; [exact Hne|]. split; [exact Hok|].
apply (transfer_keeps_ledger tick1 tick2 _ _ 40%Z "1111" two_accounts _ "Transfer successful" Hne Hok).
reflexivity.
Defined.

(** C10: a transfer from an account to itself, with its PIN and a nonzero
  amount the balance covers, succeeds and leaves the balance as it was, but
  both transactions it records carry the final balance as snapshot (the
  four updates hit one aliased dict entry), so the first of them is not
  the previous snapshot plus its amount: an account whose ledger was
  consistent no longer is. *)
Theorem transfer_self_breaks_ledger now1 now2 (k : string) (amt : Z) (p : string) (w : World Z)
  (fa : Account Z) :
w.(bank).(accounts) !! k = Some fa -> fa.(pin) = p -> (amt <= fa.(balance))%Z -> amt <> 0%Z ->
ledger_ok fa = true ->
exists w' a', transfer now1 now2 k k amt p w = (w', "Transfer successful") /\
  w'.(bank).(accounts) !! k = Some a' /\ a'.(balance) = fa.(balance) /\ ledger_ok a' = false.
Proof.
intros Hf Hp Hle Hne Hok.
rewrite (transfer_success_eq _ _ _ _ _ _ _ fa fa Hf Hf Hp) by (num_Z; apply Z.ltb_ge; exact Hle).
do 2 eexists. split; [reflexivity|]. cbn. unfold transfer_map. rewrite !lookup_alter_eq, Hf.
split; [reflexivity|]. cbn. num_Z. split; [lia|].
unfold ledger_ok in *. cbn. rewrite !replay_snoc.
destruct (replay 0 (transactions fa)) as [b|]; [|discriminate]. bool_to_prop. subst b. cbn.
destruct (_ =? _)%Z eqn:E; [bool_to_prop; lia | reflexivity].
Qed.

Lemma transfer_self_breaks_ledger_witness :
two_accounts.(bank).(accounts) !! "1000000001" = Some (init 1000000001 tick0 "A" "1111" 100%Z) /\
(init (A := Z) 1000000001 tick0 "A" "1111" 100%Z).(pin) = "1111" /\
(40 <= (init (A := Z) 1000000001 tick0 "A" "1111" 100%Z).(balance))%Z /\ 40%Z <> 0%Z /\
ledger_ok (init 1000000001 tick0 "A" "1111" 100%Z) = true /\
exists w' a', transfer tick1 tick2 "1000000001" "1000000001" 40%Z "1111" two_accounts =
  (w', "Transfer successful") /\ w'.(bank).(accounts) !! "1000000001" = Some a' /\
  a'.(balance) = (init (A := Z) 1000000001 tick0 "A" "1111" 100%Z).(balance) /\ ledger_ok a' = false.
Proof.
assert (Hf : two_accounts.(bank).(accounts) !! "1000000001" = Some (init 1000000001 tick0 "A" "1111" 100%Z))
  by reflexivity.
assert (Hp : (init (A := Z) 1000000001 tick0 "A" "1111" 100%Z).(pin) = "1111") by reflexivity.
assert (Hle : (40 <= (init (A := Z) 1000000001 tick0 "A" "1111" 100%Z).(balance))%Z) by (cbn; lia).
assert (Hne : 40%Z <> 0%Z) by discriminate.
assert (Hok : ledger_ok (init 1000000001 tick0 "A" "1111" 100%Z) = true) by reflexivity.
do 5 (split; [assumption|]).
exact (transfer_self_breaks_ledger tick1 tick2 _ 40%Z "1111" two_accounts _ Hf Hp Hle Hne Hok).
Defined.

(** ** Binary64 amounts *)

#[local] Set Warnings "-inexact-float".

(** C23: on Python floats a successful transfer between two distinct
  accounts does not conserve money: from balances 0.1 and 0.2, moving 0.05
  leaves 0.05 and 0.25, whose float sum 0.3 differs from the sum before,
  0.30000000000000004 (the rounding of each update is not undone by the
  other).  On exact amounts the total is conserved (C8). *)
Theorem transfer_float_not_conserved now1 now2 from_acc to_acc p (w : World float) fa ta :
from_acc <> to_acc ->
w.(bank).(accounts) !! from_acc = Some fa -> w.(bank).(accounts) !! to_acc = Some ta ->
fa.(pin) = p -> fa.(balance) = 0.1%float -> ta.(balance) = 0.2%float ->
exists w' fa' ta',
  transfer now1 now2 from_acc to_acc 0.05%float p w = (w', "Transfer successful") /\
  w'.(bank).(accounts) !! from_acc = Some fa' /\ w'.(bank).(accounts) !! to_acc = Some ta' /\
  fa'.(balance) = 0.05%float /\ ta'.(balance) = 0.25%float /\
  PrimFloat.eqb (fa'.(balance) + ta'.(balance))%float (fa.(balance) + ta.(balance))%float = false.
Proof.
intros Hne Hf Ht Hp Hfb Htb.
rewrite (transfer_success_eq _ _ _ _ _ _ _ fa ta Hf Ht Hp) by (rewrite Hfb; reflexivity).
destruct (transfer_map_distinct now1 now2 from_acc to_acc 0.05%float _ fa ta Hne Hf Ht)
  as (H1 & H2 & _).
do 3 eexists. split; [reflexivity|]. split; [exact H1|]. split; [exact H2|].
cbn. rewrite Hfb, Htb. split; [|split]; vm_compute; reflexivity.
Qed.

(** Two accounts holding 0.1 and 0.2 dollars. *)
Definition float_two : World float :=
mk_world (mk_bank {[ "1000000001" := init 1000000001 tick0 "A" "1111" 0.1%float;
                     "1000000002" := init 1000000002 tick0 "B" "2222" 0.2%float ]}) None.

Lemma transfer_float_not_conserved_witness :
"1000000001" <> "1000000002" /\
exists w' fa' ta',
  transfer tick1 tick2 "1000000001" "1000000002" 0.05%float "1111" float_two = (w', "Transfer successful") /\
  w'.(bank).(accounts) !! "1000000001" = Some fa' /\ w'.(bank).(accounts) !! "1000000002" = Some ta' /\
  fa'.(balance) = 0.05%float /\ ta'.(balance) = 0.25%float /\
  PrimFloat.eqb (fa'.(balance) + ta'.(balance))%float (0.1 + 0.2)%float = false.
Proof.
assert (Hne : "1000000001" <> "1000000002") by discriminate.
split; [exact Hne|].
exact (transfer_float_not_conserved tick1 tick2 _ _ "1111" float_two
         (init 1000000001 tick0 "A" "1111" 0.1%float) (init 1000000002 tick0 "B" "2222" 0.2%float)
         Hne eq_refl eq_refl eq_refl eq_refl eq_refl).
Defined.

End Bank.
