(* ===== verification/Routes.v ===== *)
(** * The Flask route layer (main.py 103-232)

    A request is handled by a view function that reads [request.method] and
    [request.form], reads and writes the signed-cookie [session] (its one key
    [account_number]), queues [flash] notices, calls the bank and returns a
    page: a rendered template or a redirect.  A missing form key raises
    [BadRequestKeyError], which the debug mode of [app.run(debug=True)]
    traps; [float()] of a malformed string raises [ValueError] and
    [bank.accounts[...]] of a missing key raises [KeyError]: all three are
    unhandled (HTTP 500).

    [Handler] is a small state and exception monad of this development: its
    state is the world, the session and the queue of flashes; a computation
    either continues, returns a page early (Python's [return] inside the
    view), or raises an HTTP error.  Each view is one definition written in
    the order of the code, with [x <- m ;; k] for its statements.  [route]
    is Flask's routing: the nine URL rules with their allowed methods (and
    the HEAD and OPTIONS that Werkzeug and Flask add), 404 for an unknown
    path and 405 for a method the rule does not allow.

    [float()] of a form string and the [:.2f] rendering of a balance are
    library functions; they are the section variables [py_float] and
    [fmt2], so every theorem holds for any parser and any formatter. *)

From S2P Require Import Prelude PyStr DateTime Account Bank.
From Stdlib Require Import ZArith String Ascii Lia Floats.

Module Routes.
Import DateTime Account Bank.

(** [request.method]: the methods the URL rules name or Flask adds to them
    (HEAD to every rule that allows GET, OPTIONS to every rule), and any
    other. *)
Inductive Method := GET | POST | HEAD | OPTIONS | OtherMethod (m : string).

(** The keyword arguments of [render_template]. *)
Inductive TemplateArgs (A : Type) :=
  | NoArgs
  | AccountArg (account : Account A)
  | TransactionsArg (transactions : list (transaction A)).
Arguments NoArgs {A}.
Arguments AccountArg {A} _.
Arguments TransactionsArg {A} _.

(** The value a view returns. *)
Inductive Page (A : Type) :=
  | Render (template : string) (args : TemplateArgs A)
  | Redirect (endpoint : string)
  | HttpError (code : Z)
  | Options (allow : gset string).
Arguments Render {A} _ _.
Arguments Redirect {A} _.
Arguments HttpError {A} _.
Arguments Options {A} _.

(** [session['account_number']], absent when logged out. *)
Definition Session := option string.

Record Request := mk_request {
  method : Method;
  path : string;
  form : gmap string string;
  session : Session;
}.

(** The random draw and the clock readings a request may consume. *)
Record Oracle := mk_oracle { rand : Z; clock1 : datetime; clock2 : datetime }.

(** What the libraries guarantee of them: [random.randint(10**9, 10**10-1)]
    returns an integer in that closed range, and [datetime.now()] a valid
    [datetime]. *)
Definition oracle_ok (o : Oracle) : bool :=
  randint_ok randint_bounds o.(rand) && DateTime.valid o.(clock1) && DateTime.valid o.(clock2).

Record Response (A : Type) := mk_response {
  page : Page A;
  flashes : list (string * string);
  session_after : Session;
}.
Arguments mk_response {A} _ _ _.
Arguments page {A} _.
Arguments flashes {A} _.
Arguments session_after {A} _.

Section Handler.
Context {A : Type} `{PyNum A} `{Pickle A}.

Record HState := mk_hstate {
  hs_world : World A;
  hs_session : Session;
  hs_flashes : list (string * string);
}.

Inductive Outcome (X : Type) :=
  | Continue (x : X) (s : HState)
  | Return (p : Page A) (s : HState).
Arguments Continue {X} _ _.
Arguments Return {X} _ _.

Definition Handler (X : Type) := HState -> Outcome X.

Definition ret {X} (x : X) : Handler X := fun s => Continue x s.
Definition bind {X Y} (m : Handler X) (k : X -> Handler Y) : Handler Y :=
  fun s => match m s with
           | Continue x s' => k x s'
           | Return p s' => Return p s'
           end.

(** [return page] from the view. *)
Definition respond {X} (p : Page A) : Handler X := fun s => Return p s.
(** An unhandled exception: Flask answers with the error code. *)
Definition raise {X} (code : Z) : Handler X := fun s => Return (HttpError code) s.

Definition get_world : Handler (World A) := fun s => Continue s.(hs_world) s.
Definition modify_world (f : World A -> World A) : Handler unit :=
  fun s => Continue tt (mk_hstate (f s.(hs_world)) s.(hs_session) s.(hs_flashes)).
Definition get_session : Handler Session := fun s => Continue s.(hs_session) s.
Definition set_session (v : Session) : Handler unit :=
  fun s => Continue tt (mk_hstate s.(hs_world) v s.(hs_flashes)).
Definition flash (msg category : string) : Handler unit :=
  fun s => Continue tt (mk_hstate s.(hs_world) s.(hs_session)
                                 (s.(hs_flashes) ++ [(msg, category)])%list).
End Handler.

Arguments Continue {A _ X} _ _.
Arguments Return {A _ X} _ _.

Declare Scope handler_scope.
Delimit Scope handler_scope with handler.
Notation "x <- m ;; k" := (bind m (fun x => k))
(at level 100, m at next level, right associativity) : handler_scope.
Notation "m ;; k" := (bind m (fun _ => k))
(at level 100, right associativity) : handler_scope.

Local Open Scope handler_scope.

Section Views.
Context {A : Type} `{PyNum A} `{Pickle A}.
(** [float(s)]: [None] when Python raises [ValueError]. *)
Variable py_float : string -> option A.
(** [f'{x:.2f}']. *)
Variable fmt2 : A -> string.

Local Open Scope py_scope.

(** [request.form[key]].  A missing key raises [BadRequestKeyError]; the
    process runs with [app.run(debug=True)] (main.py 235), and in debug mode
    Flask traps that error (its [TRAP_BAD_REQUEST_ERRORS] default) instead
    of answering 400, so it ends as an unhandled exception: HTTP 500. *)
Definition form_get (req : Request) (key : string) : Handler string :=
  match req.(form) !! key with
  | Some v => ret v
  | None => raise 500
  end.

(** [float(s)]. *)
Definition to_float (s : string) : Handler A :=
  match py_float s with
  | Some x => ret x
  | None => raise 500
  end.

(** [bank.accounts[k]]. *)
Definition get_account (k : string) : Handler (Account A) :=
  w <- get_world ;;
  match w.(bank).(accounts) !! k with
  | Some a => ret a
  | None => raise 500
  end.

(** The account object [k] names after a method mutated it in place. *)
Definition put_account (k : string) (a : Account A) : Handler unit :=
  modify_world (fun w => set_accounts (<[k := a]> w.(bank).(accounts)) w).

(** The guard of every protected view (main.py 151-153 and copies). *)
Definition login_required : Handler string :=
  s <- get_session ;;
  match s with
  | None => flash "Please login first" "error" ;; respond (Redirect "login")
  | Some acc_no => ret acc_no
  end.

Definition index : Handler unit := respond (Render "index.html" NoArgs).

Definition create_account_view (o : Oracle) (req : Request) : Handler unit :=
  match req.(method) with
  | POST =>
      nm <- form_get req "name" ;;
      p <- form_get req "pin" ;;
      d <- form_get req "initial_deposit" ;;
      initial_deposit <- to_float d ;;
      w <- get_world ;;
      let '(w', result) := create_account o.(rand) o.(clock1) nm p initial_deposit w in
      modify_world (fun _ => w') ;;
      if String.prefix "PIN" result || String.prefix "Initial" result then
        flash result "error" ;; respond (Redirect "create_account")
      else
        flash ("Account created successfully! Your account number is: " ++ result) "success" ;;
        respond (Redirect "index")
  | _ => respond (Render "create_account.html" NoArgs)
  end.

(** [account_number in bank.accounts and bank.accounts[account_number].pin == pin]. *)
Definition credentials_ok (w : World A) (acc_no p : string) : bool :=
  match w.(bank).(accounts) !! acc_no with
  | Some a => String.eqb a.(pin) p
  | None => false
  end.

Definition login (req : Request) : Handler unit :=
  match req.(method) with
  | POST =>
      acc_no <- form_get req "account_number" ;;
      p <- form_get req "pin" ;;
      w <- get_world ;;
      if credentials_ok w acc_no p then
        set_session (Some acc_no) ;;
        flash "Login successful!" "success" ;;
        respond (Redirect "dashboard")
      else
        flash "Invalid account number or PIN" "error"
  | _ => ret tt
  end ;;
  respond (Render "login.html" NoArgs).

Definition logout : Handler unit :=
  set_session None ;;
  flash "You have been logged out" "info" ;;
  respond (Redirect "index").

Definition dashboard : Handler unit :=
  acc_no <- login_required ;;
  account <- get_account acc_no ;;
  respond (Render "dashboard.html" (AccountArg account)).

Definition deposit_view (o : Oracle) (req : Request) : Handler unit :=
  acc_no <- login_required ;;
  match req.(method) with
  | POST =>
      s <- form_get req "amount" ;;
      amt <- to_float s ;;
      if amt <= 0 then flash "Amount must be positive" "error"
      else
        account <- get_account acc_no ;;
        let '(account', new_balance) := deposit o.(clock1) amt account in
        put_account acc_no account' ;;
        modify_world save_data ;;
        flash ("Deposit successful! New balance: $" ++ fmt2 new_balance) "success" ;;
        respond (Redirect "dashboard")
  | _ => ret tt
  end ;;
  respond (Render "deposit.html" NoArgs).

Definition withdraw_view (o : Oracle) (req : Request) : Handler unit :=
  acc_no <- login_required ;;
  match req.(method) with
  | POST =>
      s <- form_get req "amount" ;;
      amt <- to_float s ;;
      p <- form_get req "pin" ;;
      if amt <= 0 then flash "Amount must be positive" "error"
      else
        account <- get_account acc_no ;;
        let '(account', result) := withdraw o.(clock1) amt p account in
        put_account acc_no account' ;;
        match result with
        | inr new_balance =>
            modify_world save_data ;;
            flash ("Withdrawal successful! New balance: $" ++ fmt2 new_balance) "success" ;;
            respond (Redirect "dashboard")
        | inl msg => flash msg "error"
        end
  | _ => ret tt
  end ;;
  respond (Render "withdraw.html" NoArgs).

Definition transfer_view (o : Oracle) (req : Request) : Handler unit :=
  acc_no <- login_required ;;
  match req.(method) with
  | POST =>
      to_account <- form_get req "to_account" ;;
      s <- form_get req "amount" ;;
      amt <- to_float s ;;
      p <- form_get req "pin" ;;
      w <- get_world ;;
      let '(w', result) := transfer o.(clock1) o.(clock2) acc_no to_account amt p w in
      modify_world (fun _ => w') ;;
      if String.eqb result "Transfer successful" then
        flash "Transfer completed successfully!" "success" ;;
        respond (Redirect "dashboard")
      else flash result "error"
  | _ => ret tt
  end ;;
  respond (Render "transfer.html" NoArgs).

Definition statement : Handler unit :=
  acc_no <- login_required ;;
  account <- get_account acc_no ;;
  let transactions := get_statement account in
  respond (Render "statement.html" (TransactionsArg transactions)).

(** Flask's URL map: the rule's view when the method is allowed, 405 when
    it is not, 404 for a path with no rule.  Werkzeug adds HEAD to every
    rule that allows GET (the view runs as for GET; the body is dropped on
    the wire) and Flask answers OPTIONS itself with the rule's methods. *)
Definition route (o : Oracle) (req : Request) : Handler unit :=
  let only_get h :=
    match req.(method) with
    | GET | HEAD => h
    | OPTIONS => respond (Options {["GET"; "HEAD"; "OPTIONS"]})
    | _ => raise 405
    end in
  let get_post h :=
    match req.(method) with
    | GET | HEAD | POST => h
    | OPTIONS => respond (Options {["GET"; "HEAD"; "POST"; "OPTIONS"]})
    | _ => raise 405
    end in
  if String.eqb req.(path) "/" then only_get index
  else if String.eqb req.(path) "/create_account" then get_post (create_account_view o req)
  else if String.eqb req.(path) "/login" then get_post (login req)
  else if String.eqb req.(path) "/logout" then only_get logout
  else if String.eqb req.(path) "/dashboard" then only_get dashboard
  else if String.eqb req.(path) "/deposit" then get_post (deposit_view o req)
  else if String.eqb req.(path) "/withdraw" then get_post (withdraw_view o req)
  else if String.eqb req.(path) "/transfer" then get_post (transfer_view o req)
  else if String.eqb req.(path) "/statement" then only_get statement
  else raise 404.

(** One request against the process state.  A view that falls off its end
    returns [None], which Flask refuses with a 500. *)
Definition handle (o : Oracle) (req : Request) (w : World A) : World A * Response A :=
  match route o req (mk_hstate w req.(session) []) with
  | Return p s => (s.(hs_world), mk_response p s.(hs_flashes) s.(hs_session))
  | Continue _ s => (s.(hs_world), mk_response (HttpError 500) s.(hs_flashes) s.(hs_session))
  end.
End Views.

(** ** Running a view symbolically *)

(** Unfolds the monad and the views, then splits on every test the code
  makes (form keys, float parsing, lookups, comparisons). *)
Ltac run_view :=
unfold handle, route, index, create_account_view, login, logout, dashboard, deposit_view,
  withdraw_view, transfer_view, statement, login_required, form_get, to_float, get_account,
  put_account, credentials_ok, bind, ret, respond, raise, get_world, modify_world,
  get_session, set_session, flash in *;
cbn -[create_account transfer deposit withdraw save_data set_accounts load_data] in *;
repeat (case_match; simplify_eq).

(** Two lookups of one key: the values are equal. *)
Ltac same_lookup :=
repeat match goal with
| H1 : ?e = Some _, H2 : ?e = Some _ |- _ => rewrite H1 in H2; injection H2 as <-
end.

(** Requests to the protected views: the five rules behind the login guard,
  with a method their rule allows. *)
Definition protected_request (req : Request) : bool :=
match req.(method) with
| GET | HEAD => bool_decide (req.(path) ∈ ["/dashboard"; "/deposit"; "/withdraw"; "/transfer"; "/statement"])
| POST => bool_decide (req.(path) ∈ ["/deposit"; "/withdraw"; "/transfer"])
| OPTIONS | OtherMethod _ => false
end.

(** [credentials_ok] is the test of main.py 134: the account exists and its
    PIN is the one given. *)
Lemma credentials_ok_spec {A} `{PyNum A} `{Pickle A} (w : World A) (acc_no p : string) :
  credentials_ok w acc_no p = true <-> exists a, w.(bank).(accounts) !! acc_no = Some a /\ a.(pin) = p.
Proof.
  unfold credentials_ok. destruct (_ !! acc_no) as [a|]; split.
  - intros Hc. apply String.eqb_eq in Hc. eauto.
  - intros (a' & [= <-] & Hp). apply String.eqb_eq, Hp.
  - discriminate.
  - intros (a' & Ha & _). discriminate.
Qed.

Section RouteTheorems.
Context {A : Type} `{PyNum A} `{Pickle A}.
Variable py_float : string -> option A.
Variable fmt2 : A -> string.

(** C4: without a session, every protected view flashes "Please login
    first", redirects to the login page and leaves the world as it was. *)
Theorem auth_gate (o : Oracle) (req : Request) (w : World A) :
  protected_request req = true -> req.(session) = None ->
  handle py_float fmt2 o req w =
    (w, mk_response (Redirect "login") [("Please login first", "error")] None).
Proof.
  destruct req as [m pth f sess]. unfold protected_request. cbn. intros Hp ->.
  destruct m; try discriminate;
    apply bool_decide_eq_true_1 in Hp; repeat (apply elem_of_cons in Hp as [->|Hp]);
    try (apply elem_of_nil in Hp; contradiction); reflexivity.
Qed.

(** C5: a login POST succeeds exactly when the account exists and its PIN
    is the one given: the session then names the account and the browser
    goes to the dashboard.  A failed login re-renders the form with an
    error and leaves the session as it came: a browser already logged in
    stays logged in as before.  The world never changes. *)
Theorem login_post (o : Oracle) (f : gmap string string) (sess : Session) (w : World A)
    (acc_no p : string) :
  f !! "account_number" = Some acc_no -> f !! "pin" = Some p ->
  let '(w', resp) := handle py_float fmt2 o (mk_request POST "/login" f sess) w in
  w' = w /\
  ((exists a, w.(bank).(accounts) !! acc_no = Some a /\ a.(pin) = p) ->
     resp = mk_response (Redirect "dashboard") [("Login successful!", "success")] (Some acc_no)) /\
  ((forall a, w.(bank).(accounts) !! acc_no = Some a -> a.(pin) <> p) ->
     resp = mk_response (Render "login.html" NoArgs)
              [("Invalid account number or PIN", "error")] sess).
Proof.
  intros Hf Hp. unfold handle, route, login, form_get, bind, ret, respond, get_world,
    set_session, flash. cbn. rewrite Hf, Hp. cbn [hs_world].
  destruct (credentials_ok w acc_no p) eqn:Hc; cbn; (split; [reflexivity|]); split.
  - reflexivity.
  - intros Hno. apply credentials_ok_spec in Hc as (a & Ha & Hpin). by destruct (Hno a Ha).
  - intros (a & Ha & Hpin). apply not_true_iff_false in Hc. destruct Hc.
    apply credentials_ok_spec. eauto.
  - reflexivity.
Qed.

(** A login with the right number and PIN, from any session. *)
Lemma login_success (o : Oracle) (f : gmap string string) (sess : Session) (w : World A)
    (acc_no p : string) :
  f !! "account_number" = Some acc_no -> f !! "pin" = Some p -> credentials_ok w acc_no p = true ->
  handle py_float fmt2 o (mk_request POST "/login" f sess) w =
    (w, mk_response (Redirect "dashboard") [("Login successful!", "success")] (Some acc_no)).
Proof.
  intros Hf Hp Hc. unfold handle, route, login, form_get, bind, ret, respond, get_world,
    set_session, flash. cbn. rewrite Hf, Hp. cbn [hs_world]. rewrite Hc. reflexivity.
Qed.

(** A request ends with a session naming an account only if it came with
    that session or it is a login with the account's number and PIN. *)
Lemma handle_session_sound (o : Oracle) (req : Request) (w : World A) (x : string) :
  (snd (handle py_float fmt2 o req w)).(session_after) = Some x ->
  req.(session) = Some x \/
  (req.(path) = "/login" /\ exists p, req.(form) !! "account_number" = Some x /\
     req.(form) !! "pin" = Some p /\ credentials_ok w x p = true).
Proof.
  destruct req as [m pth f sess]. intros Hs. run_view; cbn in *; simplify_eq; auto.
  all: right; bool_to_prop; split; [assumption|]; eexists; repeat split;
    first [eassumption | apply String.eqb_eq; congruence | congruence].
Qed.

(** Every request keeps the file in step with the bank: each view that
    mutates an account saves before it returns. *)
Lemma handle_sync (o : Oracle) (req : Request) (w : World A) :
  world_ok w -> world_ok (fst (handle py_float fmt2 o req w)).
Proof.
  intros Hok. destruct req as [m pth f sess]. run_view;
    try solve [exact Hok | eauto using create_account_sync, transfer_sync].
  all: cbn [fst hs_world] in *.
  all: first
    [ apply world_ok_save; eapply accounts_wf_insert_same;
      [apply Hok | eassumption | eauto using deposit_account_number, withdraw_account_number]
    | match goal with
      | Hw : withdraw _ _ _ _ = (_, inl _) |- _ => apply withdraw_refused_same in Hw; subst
      end; rewrite insert_id by eassumption; rewrite set_accounts_id; exact Hok ].
Qed.

Lemma oracle_ok_spec (o : Oracle) :
  oracle_ok o = true ->
  randint_ok randint_bounds o.(rand) = true /\ valid o.(clock1) = true /\ valid o.(clock2) = true.
Proof. unfold oracle_ok. rewrite !andb_true_iff. tauto. Qed.

(** With the libraries' guarantees, a request keeps every account typed. *)
Lemma handle_typed (o : Oracle) (req : Request) (w : World A) :
  oracle_ok o = true -> bank_typed w.(bank) -> bank_typed (fst (handle py_float fmt2 o req w)).(bank).
Proof.
  intros Ho Ht. apply oracle_ok_spec in Ho as (Hr & Hv1 & Hv2).
  destruct req as [m pth f sess]. run_view; try exact Ht.
  all: cbn [fst hs_world save_data set_accounts bank accounts] in *.
  all: match goal with
       | Hc : create_account _ _ _ _ _ _ = _ |- _ => exact (create_account_typed _ _ _ _ _ _ _ _ Hr Hv1 Ht Hc)
       | Hc : transfer _ _ _ _ _ _ _ = _ |- _ => exact (transfer_typed _ _ _ _ _ _ _ _ _ Hv1 Hv2 Ht Hc)
       | Hk : _ !! _ = Some ?acc, Hd : deposit _ _ ?acc = _ |- _ =>
           exact (map_Forall_insert_2 _ _ _ _ (deposit_typed _ _ _ _ _ Hv1 (Ht _ _ Hk) Hd) Ht)
       | Hk : _ !! _ = Some ?acc, Hd : withdraw _ _ _ ?acc = _ |- _ =>
           exact (map_Forall_insert_2 _ _ _ _ (withdraw_typed _ _ _ _ _ _ Hv1 (Ht _ _ Hk) Hd) Ht)
       end.
Qed.

(** [/logout]: pops the account number from the session, whatever it was,
    and changes nothing else. *)
Lemma logout_get (o : Oracle) (req : Request) (w : World A) :
  req.(method) = GET -> req.(path) = "/logout" ->
  handle py_float fmt2 o req w =
    (w, mk_response (Redirect "index") [("You have been logged out", "info")] None).
Proof. destruct req as [m pth f sess]. cbn. intros -> ->. reflexivity. Qed.

(** [/dashboard] with a session naming an existing account renders it. *)
Lemma dashboard_get (o : Oracle) (f : gmap string string) (w : World A) (k : string) (a : Account A) :
  w.(bank).(accounts) !! k = Some a ->
  handle py_float fmt2 o (mk_request GET "/dashboard" f (Some k)) w =
    (w, mk_response (Render "dashboard.html" (AccountArg a)) [] (Some k)).
Proof.
  intros Hk. unfold handle, route, dashboard, login_required, get_account, bind, ret, respond,
    get_session, get_world. cbn. rewrite Hk. reflexivity.
Qed.

(** No request removes an account number. *)
Lemma handle_keeps_keys (o : Oracle) (req : Request) (w : World A) (k : string) :
  is_Some (w.(bank).(accounts) !! k) ->
  is_Some ((fst (handle py_float fmt2 o req w)).(bank).(accounts) !! k).
Proof.
  intros Hk. destruct req as [m pth f sess]. run_view;
    try solve [exact Hk | eauto with bank].
  all: cbn [fst hs_world] in *; unfold save_data, set_accounts; cbn;
    rewrite lookup_insert_is_Some'; auto.
Qed.

(** C20: a GET request never changes the bank or the file: only form
    submissions mutate. *)
Theorem get_is_safe (o : Oracle) (pth : string) (f : gmap string string) (sess : Session)
    (w : World A) :
  fst (handle py_float fmt2 o (mk_request GET pth f sess) w) = w.
Proof. run_view; reflexivity. Qed.

(** C33: the deposit view on every branch, for a logged-in session whose
    account exists: a missing amount field (trapped by the debug mode) and
    a malformed one are both HTTP 500 and leave the world unchanged; an amount [<= 0] re-renders
    the form with "Amount must be positive"; otherwise the account is
    replaced by the result of [Account.deposit], the bank is saved and the
    browser is sent to the dashboard with the new balance. *)
Theorem deposit_post (o : Oracle) (f : gmap string string) (acc_no : string) (w : World A)
    (acc : Account A) :
  w.(bank).(accounts) !! acc_no = Some acc ->
  (f !! "amount" = None ->
     handle py_float fmt2 o (mk_request POST "/deposit" f (Some acc_no)) w =
       (w, mk_response (HttpError 500) [] (Some acc_no))) /\
  (forall s, f !! "amount" = Some s -> py_float s = None ->
     handle py_float fmt2 o (mk_request POST "/deposit" f (Some acc_no)) w =
       (w, mk_response (HttpError 500) [] (Some acc_no))) /\
  (forall s amt, f !! "amount" = Some s -> py_float s = Some amt -> num_leb amt num_zero = true ->
     handle py_float fmt2 o (mk_request POST "/deposit" f (Some acc_no)) w =
       (w, mk_response (Render "deposit.html" NoArgs) [("Amount must be positive", "error")]
             (Some acc_no))) /\
  (forall s amt, f !! "amount" = Some s -> py_float s = Some amt -> num_leb amt num_zero = false ->
     handle py_float fmt2 o (mk_request POST "/deposit" f (Some acc_no)) w =
       (save_data (set_accounts (<[acc_no := fst (deposit o.(clock1) amt acc)]> w.(bank).(accounts)) w),
        mk_response (Redirect "dashboard")
          [(("Deposit successful! New balance: $" ++ fmt2 (snd (deposit o.(clock1) amt acc)))%string, "success")]
          (Some acc_no))).
Proof.
  intros Hacc. repeat split; intros; run_view; try congruence; try reflexivity.
  all: cbn [hs_world hs_session hs_flashes] in *; same_lookup.
  all: first [congruence | match goal with Hd : deposit _ _ _ = _ |- _ => rewrite Hd end; reflexivity].
Qed.
(** C34: the withdraw view for a logged-in session whose account exists,
    with both form fields present and the amount parsed: an amount [<= 0]
    re-renders the form with "Amount must be positive"; a withdrawal that
    [Account.withdraw] refuses re-renders it with the method's message and
    leaves the world as it was; a successful one writes the account back,
    saves the bank and sends the browser to the dashboard with the new
    balance. *)
Theorem withdraw_post (o : Oracle) (f : gmap string string) (acc_no : string) (w : World A)
    (acc : Account A) (s p : string) (amt : A) :
  w.(bank).(accounts) !! acc_no = Some acc ->
  f !! "amount" = Some s -> py_float s = Some amt -> f !! "pin" = Some p ->
  (num_leb amt num_zero = true ->
     handle py_float fmt2 o (mk_request POST "/withdraw" f (Some acc_no)) w =
       (w, mk_response (Render "withdraw.html" NoArgs) [("Amount must be positive", "error")]
             (Some acc_no))) /\
  (forall msg, num_leb amt num_zero = false -> snd (withdraw o.(clock1) amt p acc) = inl msg ->
     handle py_float fmt2 o (mk_request POST "/withdraw" f (Some acc_no)) w =
       (w, mk_response (Render "withdraw.html" NoArgs) [(msg, "error")] (Some acc_no))) /\
  (forall b, num_leb amt num_zero = false -> snd (withdraw o.(clock1) amt p acc) = inr b ->
     handle py_float fmt2 o (mk_request POST "/withdraw" f (Some acc_no)) w =
       (save_data (set_accounts (<[acc_no := fst (withdraw o.(clock1) amt p acc)]>
                                   w.(bank).(accounts)) w),
        mk_response (Redirect "dashboard")
          [(("Withdrawal successful! New balance: $" ++ fmt2 b)%string, "success")]
          (Some acc_no))).
Proof.
  intros Hacc Hs Hamt Hp. repeat split; intros; run_view; try congruence; try reflexivity.
  all: cbn [hs_world hs_session hs_flashes] in *; same_lookup.
  all: first [congruence | match goal with Hw : withdraw _ _ _ _ = _ |- _ => rewrite Hw in * end].
  all: cbn [snd fst] in *; simplify_eq; try reflexivity.
  all: match goal with Hw : withdraw _ _ _ _ = (_, inl _) |- _ => apply withdraw_refused_same in Hw as -> end.
  all: rewrite insert_id by exact Hacc; rewrite set_accounts_id; reflexivity.
Qed.

(** C35: the transfer view for a logged-in session with every form field
    present and the amount parsed: whatever the amount's sign, the world
    becomes the one [Bank.transfer] returns; its message decides the page:
    "Transfer successful" redirects to the dashboard, any other message is
    flashed as an error over the re-rendered form. *)
Theorem transfer_post (o : Oracle) (f : gmap string string) (acc_no to_acc s p : string)
    (w : World A) (amt : A) :
  f !! "to_account" = Some to_acc -> f !! "amount" = Some s -> py_float s = Some amt ->
  f !! "pin" = Some p ->
  handle py_float fmt2 o (mk_request POST "/transfer" f (Some acc_no)) w =
    (fst (transfer o.(clock1) o.(clock2) acc_no to_acc amt p w),
     if String.eqb (snd (transfer o.(clock1) o.(clock2) acc_no to_acc amt p w)) "Transfer successful"
     then mk_response (Redirect "dashboard") [("Transfer completed successfully!", "success")]
            (Some acc_no)
     else mk_response (Render "transfer.html" NoArgs)
            [(snd (transfer o.(clock1) o.(clock2) acc_no to_acc amt p w), "error")] (Some acc_no)).
Proof.
  intros Ht Hs Hamt Hp. run_view; try congruence.
  all: cbn [hs_world hs_session hs_flashes] in *; same_lookup.
  all: match goal with Htr : transfer _ _ _ _ _ _ _ = _ |- _ => rewrite Htr in * end.
  all: cbn [fst snd] in *; first [congruence | reflexivity].
Qed.

(** C36: the statement page of a logged-in session whose account exists
    lists the account's transactions in the order they were recorded and
    changes nothing, so that two successive requests give the same page
    (spec section 8, property 12). *)
Theorem statement_get (o : Oracle) (f : gmap string string) (acc_no : string) (w : World A)
    (acc : Account A) :
  w.(bank).(accounts) !! acc_no = Some acc ->
  handle py_float fmt2 o (mk_request GET "/statement" f (Some acc_no)) w =
    (w, mk_response (Render "statement.html" (TransactionsArg acc.(transactions))) [] (Some acc_no)).
Proof.
  intros Hacc. run_view; cbn [hs_world hs_session hs_flashes] in *; same_lookup;
    first [congruence | reflexivity].
Qed.

(** The paths of the nine rules, by the methods they declare. *)
Definition get_rules : list string := ["/"; "/logout"; "/dashboard"; "/statement"].
Definition get_post_rules : list string :=
  ["/create_account"; "/login"; "/deposit"; "/withdraw"; "/transfer"].

(** C37: Flask's URL map as the code declares it, with what Werkzeug and
    Flask add to it: a path with no rule is HTTP 404; a HEAD request is
    handled exactly as the GET request; OPTIONS is answered with the rule's
    methods (GET, HEAD, OPTIONS, and POST where the rule declares it); any
    other method the rule does not allow is HTTP 405.  The errors and the
    OPTIONS answer change nothing and queue no notice. *)
Theorem route_errors (o : Oracle) (m : Method) (pth : string) (f : gmap string string)
    (sess : Session) (w : World A) :
  (pth ∉ get_rules ++ get_post_rules ->
     handle py_float fmt2 o (mk_request m pth f sess) w = (w, mk_response (HttpError 404) [] sess)) /\
  handle py_float fmt2 o (mk_request HEAD pth f sess) w =
    handle py_float fmt2 o (mk_request GET pth f sess) w /\
  (pth ∈ get_rules ->
     handle py_float fmt2 o (mk_request OPTIONS pth f sess) w =
       (w, mk_response (Options {["GET"; "HEAD"; "OPTIONS"]}) [] sess)) /\
  (pth ∈ get_post_rules ->
     handle py_float fmt2 o (mk_request OPTIONS pth f sess) w =
       (w, mk_response (Options {["GET"; "HEAD"; "POST"; "OPTIONS"]}) [] sess)) /\
  (pth ∈ get_rules -> m ∉ [GET; HEAD; OPTIONS] ->
     handle py_float fmt2 o (mk_request m pth f sess) w = (w, mk_response (HttpError 405) [] sess)) /\
  (pth ∈ get_post_rules -> m ∉ [GET; HEAD; POST; OPTIONS] ->
     handle py_float fmt2 o (mk_request m pth f sess) w = (w, mk_response (HttpError 405) [] sess)).
Proof.
  unfold get_rules, get_post_rules. split; [|split; [|split; [|split; [|split]]]].
  - intros Hp. unfold handle, route, raise. cbn [path].
    repeat match goal with
    | |- context [String.eqb pth ?c] => destruct (String.eqb_spec pth c) as [->|_]; [set_solver|]
    end.
    reflexivity.
  - unfold handle, route, index, create_account_view, login, logout, dashboard, deposit_view,
      withdraw_view, transfer_view, statement. cbn [method path]. reflexivity.
  - intros Hp. repeat (apply elem_of_cons in Hp as [->|Hp]); [..|set_solver]; reflexivity.
  - intros Hp. repeat (apply elem_of_cons in Hp as [->|Hp]); [..|set_solver]; reflexivity.
  - intros Hp Hm. repeat (apply elem_of_cons in Hp as [->|Hp]); [..|set_solver];
      unfold handle, route, raise; cbn; destruct m; first [set_solver | reflexivity].
  - intros Hp Hm. repeat (apply elem_of_cons in Hp as [->|Hp]); [..|set_solver];
      unfold handle, route, raise; cbn; destruct m; first [set_solver | reflexivity].
Qed.

(** C11: another browser can change an account only by transferring into
    it.  A request whose session does not name account [k] and that changes
    [k]'s entry is either an account creation whose drawn number is [k]
    (the collision of C13), or a POST to /transfer naming [k] as the
    destination, which records "Transfer from <sender>" on [k] and adds the
    parsed amount to its balance, whatever the amount's sign (the view never
    checks it): a negative amount takes money out of [k]. *)
Theorem other_session_only_credits (o : Oracle) (req : Request) (w : World A) (k : string)
    (acc : Account A) :
  w.(bank).(accounts) !! k = Some acc -> req.(session) <> Some k ->
  (fst (handle py_float fmt2 o req w)).(bank).(accounts) !! k <> Some acc ->
  (req.(method) = POST /\ req.(path) = "/create_account" /\ generate_account_number o.(rand) = k) \/
  (exists acc_no s amt, req.(method) = POST /\ req.(path) = "/transfer" /\ req.(session) = Some acc_no /\
     req.(form) !! "to_account" = Some k /\ req.(form) !! "amount" = Some s /\ py_float s = Some amt /\
     (fst (handle py_float fmt2 o req w)).(bank).(accounts) !! k =
       Some (add_transaction o.(clock2) ("Transfer from " ++ acc_no) amt
               (set_balance (num_add acc.(balance) amt) acc))).
Proof.
  destruct req as [m pth f sess]. cbn [session]. intros Hk Hs Hch. run_view.
  all: cbn [fst hs_world hs_session save_data set_accounts bank accounts] in *; bool_to_prop; subst;
    try congruence.
  all: first
    [ match goal with Hc : create_account _ _ _ _ _ _ = _ |- _ =>
        destruct (create_account_outcome _ _ _ _ _ _ _ _ Hc) as [[-> _] | [-> _]]; [congruence|];
        cbn in Hch; destruct (decide (generate_account_number (rand o) = k)) as [<-|Hne];
        [left; auto | rewrite lookup_insert_ne in Hch by done; congruence]
      end
    | match goal with Ht : transfer _ _ _ _ _ _ _ = _ |- _ =>
        destruct (transfer_other_entry _ _ _ _ _ _ _ _ _ k Ht ltac:(congruence))
          as [Heq | (-> & ta & Hta & Heq)]; [congruence|];
        rewrite Hk in Hta; injection Hta as <-; right; do 3 eexists; repeat split; eauto
      end
    | rewrite lookup_insert_ne in Hch by congruence; congruence ].
Qed.

(** C31: the create-account view with its form fields present and the
    deposit parsed, on every branch of [Bank.create_account]: a PIN that is
    not four digits, then a negative deposit, are flashed as errors with a
    redirect back to the form and nothing changed; otherwise the new
    account is stored under its generated number and saved, and the
    browser goes home with the number in a success notice (the view's test
    [result.startswith("PIN") or result.startswith("Initial")] tells the
    two error messages from an account number, which starts with a digit). *)
Theorem create_account_post (o : Oracle) (f : gmap string string) (sess : Session) (w : World A)
    (nm p s : string) (d : A) :
  f !! "name" = Some nm -> f !! "pin" = Some p -> f !! "initial_deposit" = Some s ->
  py_float s = Some d ->
  ((String.length p <> 4%nat \/ py_isdigit p = false) ->
     handle py_float fmt2 o (mk_request POST "/create_account" f sess) w =
       (w, mk_response (Redirect "create_account") [("PIN must be 4 digits", "error")] sess)) /\
  (String.length p = 4%nat -> py_isdigit p = true -> num_ltb d num_zero = true ->
     handle py_float fmt2 o (mk_request POST "/create_account" f sess) w =
       (w, mk_response (Redirect "create_account") [("Initial deposit must be positive", "error")] sess)) /\
  (String.length p = 4%nat -> py_isdigit p = true -> num_ltb d num_zero = false ->
     handle py_float fmt2 o (mk_request POST "/create_account" f sess) w =
       (save_data (set_accounts (<[generate_account_number o.(rand) := init o.(rand) o.(clock1) nm p d]>
                                  w.(bank).(accounts)) w),
        mk_response (Redirect "index")
          [(("Account created successfully! Your account number is: " ++ generate_account_number o.(rand))%string,
            "success")] sess)).
Proof.
  intros Hn Hp Hs Hd.
  split; [intros Hpin | split; intros Hl Hi Hneg]; run_view; cbn [hs_world hs_session hs_flashes] in *;
    same_lookup; try congruence.
  all: match goal with Hc : create_account _ _ _ _ _ _ = _ |- _ => unfold create_account in Hc end.
  all: try (destruct Hpin as [Hl|Hi]; [apply Nat.eqb_neq in Hl; rewrite Hl in *
                                      | rewrite Hi, orb_true_r in *]).
  all: try (rewrite Hl, Nat.eqb_refl, Hi in *; cbn [negb orb] in *; rewrite Hneg in *).
  all: cbn [negb orb] in *; simplify_eq; cbn in *; try discriminate; try reflexivity.
  all: unfold generate_account_number in *;
    rewrite !py_str_prefix_letter in * by (first [discriminate | reflexivity]); discriminate.
Qed.

(** C38: a request that flashes an error notice leaves the bank and the
    file exactly as they were: every refusal of the program (not logged
    in, wrong credentials, amount [<= 0], a PIN, funds or account-number
    refusal of [withdraw], [transfer] or [create_account]) returns before
    any mutation, or writes back an unchanged account (spec section 4.1:
    "a failed validation simply returns ... without mutating state"). *)
Theorem error_notice_no_change (o : Oracle) (req : Request) (w : World A) (msg : string) :
  In (msg, "error") (snd (handle py_float fmt2 o req w)).(flashes) ->
  fst (handle py_float fmt2 o req w) = w.
Proof.
  destruct req as [m pth f sess]. intros Hin. run_view; cbn [fst snd flashes hs_world hs_flashes] in *;
    try reflexivity.
  all: first
    [ solve [exfalso; cbn in Hin; destruct Hin as [Hin|[]]; simplify_eq]
    | match goal with
      | Hc : create_account _ _ _ _ _ _ = _ |- _ =>
          destruct (create_account_outcome _ _ _ _ _ _ _ _ Hc) as [[-> _] | [-> ->]]; [reflexivity|];
          exfalso; unfold generate_account_number in *;
          rewrite !py_str_prefix_letter in * by (first [discriminate | reflexivity]); discriminate
      | Ht : transfer _ _ _ _ _ _ _ = _ |- _ =>
          destruct (transfer_outcome _ _ _ _ _ _ _ _ _ Ht) as [[-> _] | (_ & _ & _ & _ & _ & -> & _)];
          [reflexivity | exfalso; cbn in *; discriminate]
      | Hw : withdraw _ _ _ _ = (_, inl _) |- _ =>
          apply withdraw_refused_same in Hw as ->; rewrite insert_id by eassumption;
          apply set_accounts_id
      end ].
Qed.

(** C39: the causes of an internal error.  A request ends in HTTP 500 only
    when a POST lacks one of the form fields the views read (trapped by the
    debug mode), when [float()] fails on the deposit or amount field, or
    when the session names an account the bank does not hold; in
    particular no view ever falls off its end (which Flask answers with a
    500 because the view returned [None]). *)
Theorem internal_error_causes (o : Oracle) (req : Request) (w : World A) :
  (snd (handle py_float fmt2 o req w)).(page) = HttpError 500 ->
  (req.(method) = POST /\ exists key,
     key ∈ ["name"; "pin"; "initial_deposit"; "account_number"; "amount"; "to_account"] /\
     req.(form) !! key = None) \/
  (req.(method) = POST /\ exists key s,
     key ∈ ["initial_deposit"; "amount"] /\ req.(form) !! key = Some s /\ py_float s = None) \/
  (exists x, req.(session) = Some x /\ w.(bank).(accounts) !! x = None).
Proof.
  destruct req as [m pth f sess]. cbn [method form session]. intros H500. run_view.
  all: cbn [hs_world hs_session] in *.
  all: first
    [ match goal with Hl : _ !! ?k = None |- _ =>
        left; split; [reflexivity|]; exists k; split; [set_solver | exact Hl] end
    | match goal with Hl : _ !! ?k = Some ?s, Hp : py_float ?s = None |- _ =>
        right; left; split; [reflexivity|]; exists k, s; split; [set_solver | split; assumption] end
    | match goal with Hl : accounts _ !! ?x = None |- _ =>
        right; right; exists x; split; [first [assumption | reflexivity] | exact Hl] end ].
Qed.

End RouteTheorems.

(** ** Concrete requests *)

(** A [float()] for the examples: decimal integers with an optional minus
  sign, on exact amounts. *)
Definition int_form (s : string) : option Z :=
match s with
| String "-"%char s' => option_map Z.opp (decimal_value s')
| _ => decimal_value s
end.

Definition int_fmt (z : Z) : string := py_str z.

Definition oracle0 : Oracle := mk_oracle 1000000003 (mk_datetime 2026 1 1 10 0 0 0) (mk_datetime 2026 1 1 10 0 1 0).

Definition synced_two : World Z := save_data two_accounts.

Lemma auth_gate_witness :
protected_request (mk_request POST "/deposit" {[ "amount" := "10" ]} None) = true /\
handle int_form int_fmt oracle0 (mk_request POST "/deposit" {[ "amount" := "10" ]} None) synced_two =
  (synced_two, mk_response (Redirect "login") [("Please login first", "error")] None).
Proof.
assert (Hp : protected_request (mk_request POST "/deposit" {[ "amount" := "10" ]} None) = true)
  by reflexivity.
split; [exact Hp | exact (auth_gate int_form int_fmt oracle0 _ synced_two Hp eq_refl)].
Defined.

Definition login_form (acc_no p : string) : gmap string string :=
{[ "account_number" := acc_no; "pin" := p ]}.

Lemma login_post_witness :
login_form "1000000001" "1111" !! "account_number" = Some "1000000001" /\
login_form "1000000001" "1111" !! "pin" = Some "1111" /\
snd (handle int_form int_fmt oracle0 (mk_request POST "/login" (login_form "1000000001" "1111")
       (Some "1000000002")) synced_two) =
  mk_response (Redirect "dashboard") [("Login successful!", "success")] (Some "1000000001") /\
snd (handle int_form int_fmt oracle0 (mk_request POST "/login" (login_form "1000000001" "9999")
       (Some "1000000002")) synced_two) =
  mk_response (Render "login.html" NoArgs) [("Invalid account number or PIN", "error")]
    (Some "1000000002").
Proof.
pose proof (login_post int_form int_fmt oracle0 (login_form "1000000001" "1111")
  (Some "1000000002") synced_two "1000000001" "1111" eq_refl eq_refl) as Hok.
pose proof (login_post int_form int_fmt oracle0 (login_form "1000000001" "9999")
  (Some "1000000002") synced_two "1000000001" "9999" eq_refl eq_refl) as Hbad.
destruct (handle _ _ _ (mk_request POST "/login" (login_form "1000000001" "1111") _) _)
  as [w1 r1].
destruct (handle _ _ _ (mk_request POST "/login" (login_form "1000000001" "9999") _) _)
  as [w2 r2].
destruct Hok as (_ & Hok & _). destruct Hbad as (_ & _ & Hbad).
split; [reflexivity|]. split; [reflexivity|]. split.
- apply Hok. eexists. split; [vm_compute; reflexivity | reflexivity].
- apply Hbad. intros a Ha. vm_compute in Ha. injection Ha as <-. discriminate.
Defined.

(** [Account.deposit] of NaN makes the balance NaN. *)
Lemma deposit_nan (now : datetime) (acc : Account float) :
  PrimFloat.is_nan (fst (deposit now nan acc)).(balance) = true.
Proof. unfold deposit. cbn [fst balance add_transaction set_balance num_add PyNum_float]. apply nan_add_r. Qed.

(** [Account.withdraw] of NaN with the right PIN passes the funds check. *)
Lemma withdraw_nan_eq (now : datetime) (acc : Account float) :
  withdraw now nan acc.(pin) acc =
    (add_transaction now "Withdrawal" (- nan)%float (set_balance (acc.(balance) - nan)%float acc),
     inr (acc.(balance) - nan)%float).
Proof.
  unfold withdraw. rewrite String.eqb_refl. cbn [negb num_ltb PyNum_float]. rewrite ltb_nan_r.
  reflexivity.
Qed.

(** C22: neither amount check of the views rejects NaN.  Whatever the
  bank, when [float()] of the posted amount is NaN (Python's
  [float("nan")]), [nan <= 0] is false, so the deposit view deposits it,
  and [nan > balance] is false too, so the withdraw view, given the PIN,
  withdraws it: either way the account's balance becomes NaN, the bank is
  saved with it and the browser is sent to the dashboard. *)
Theorem amount_checks_accept_nan (py_float : string -> option float) (fmt2 : float -> string)
    (o : Oracle) (f : gmap string string) (acc_no s p : string) (w : World float)
    (acc : Account float) :
  w.(bank).(accounts) !! acc_no = Some acc -> f !! "amount" = Some s -> py_float s = Some nan ->
  (let '(w', resp) := handle py_float fmt2 o (mk_request POST "/deposit" f (Some acc_no)) w in
   resp.(page) = Redirect "dashboard" /\ w'.(disk) = Some (dump w'.(bank)) /\
   option_map (fun a => PrimFloat.is_nan a.(balance)) (w'.(bank).(accounts) !! acc_no) = Some true) /\
  (f !! "pin" = Some p -> acc.(pin) = p ->
   let '(w', resp) := handle py_float fmt2 o (mk_request POST "/withdraw" f (Some acc_no)) w in
   resp.(page) = Redirect "dashboard" /\ w'.(disk) = Some (dump w'.(bank)) /\
   option_map (fun a => PrimFloat.is_nan a.(balance)) (w'.(bank).(accounts) !! acc_no) = Some true).
Proof.
  intros Hacc Hs Hnan. split; [|intros Hp <-]; run_view.
  all: cbn [hs_world hs_session hs_flashes] in *; same_lookup; try congruence.
  all: try match goal with
       | Hd : deposit _ nan ?a = _ |- _ =>
           pose proof (deposit_nan o.(clock1) a) as Hn; rewrite Hd in Hn; cbn [fst] in Hn
       | Hw : withdraw _ nan _ ?a = _ |- _ =>
           pose proof (nan_sub_r a.(balance)) as Hn; rewrite withdraw_nan_eq in Hw; simplify_eq
       end; try discriminate.
  all: cbn; rewrite lookup_insert_eq; cbn; repeat split; cbn; rewrite ?Hn; reflexivity.
Qed.

(** B's owner is not logged in; A posts a transfer of -50 to B. *)
Definition negative_transfer_request : Request :=
  mk_request POST "/transfer" {[ "to_account" := "1000000002"; "amount" := "-50"; "pin" := "1111" ]}
    (Some "1000000001").

Lemma other_session_only_credits_witness :
synced_two.(bank).(accounts) !! "1000000002" = Some (init 1000000002 tick0 "B" "2222" 0%Z) /\
negative_transfer_request.(session) <> Some "1000000002" /\
(fst (handle int_form int_fmt oracle0 negative_transfer_request synced_two)).(bank).(accounts)
  !! "1000000002" <> Some (init 1000000002 tick0 "B" "2222" 0%Z) /\
((negative_transfer_request.(method) = POST /\ negative_transfer_request.(path) = "/create_account" /\
  generate_account_number oracle0.(rand) = "1000000002") \/
 (exists acc_no s amt, negative_transfer_request.(method) = POST /\
    negative_transfer_request.(path) = "/transfer" /\ negative_transfer_request.(session) = Some acc_no /\
    negative_transfer_request.(form) !! "to_account" = Some "1000000002" /\
    negative_transfer_request.(form) !! "amount" = Some s /\ int_form s = Some amt /\
    (fst (handle int_form int_fmt oracle0 negative_transfer_request synced_two)).(bank).(accounts)
      !! "1000000002" =
      Some (add_transaction oracle0.(clock2) ("Transfer from " ++ acc_no) amt
              (set_balance (num_add (init (A := Z) 1000000002 tick0 "B" "2222" 0%Z).(balance) amt)
                 (init 1000000002 tick0 "B" "2222" 0%Z))))).
Proof.
assert (Hk : synced_two.(bank).(accounts) !! "1000000002" = Some (init 1000000002 tick0 "B" "2222" 0%Z))
  by (vm_compute; reflexivity).
assert (Hs : negative_transfer_request.(session) <> Some "1000000002") by discriminate.
assert (Hch : (fst (handle int_form int_fmt oracle0 negative_transfer_request synced_two)).(bank).(accounts)
  !! "1000000002" <> Some (init 1000000002 tick0 "B" "2222" 0%Z)) by (vm_compute; discriminate).
split; [exact Hk|]. split; [exact Hs|]. split; [exact Hch|].
exact (other_session_only_credits int_form int_fmt oracle0 negative_transfer_request synced_two
         "1000000002" _ Hk Hs Hch).
Defined.

(** Carol opens an account with PIN 1234 and 25 dollars. *)
Definition signup_form : gmap string string :=
  {[ "name" := "Carol"; "pin" := "1234"; "initial_deposit" := "25" ]}.

Lemma create_account_post_witness :
signup_form !! "name" = Some "Carol" /\ signup_form !! "pin" = Some "1234" /\
signup_form !! "initial_deposit" = Some "25" /\ int_form "25" = Some 25%Z /\
String.length "1234" = 4%nat /\ py_isdigit "1234" = true /\ num_ltb 25%Z num_zero = false /\
handle int_form int_fmt oracle0 (mk_request POST "/create_account" signup_form None) synced_two =
  (save_data (set_accounts (<[generate_account_number oracle0.(rand) :=
                                init oracle0.(rand) oracle0.(clock1) "Carol" "1234" 25%Z]>
                              synced_two.(bank).(accounts)) synced_two),
   mk_response (Redirect "index")
     [(("Account created successfully! Your account number is: " ++
        generate_account_number oracle0.(rand))%string, "success")] None).
Proof.
assert (Hn : signup_form !! "name" = Some "Carol") by (vm_compute; reflexivity).
assert (Hp : signup_form !! "pin" = Some "1234") by (vm_compute; reflexivity).
assert (Hs : signup_form !! "initial_deposit" = Some "25") by (vm_compute; reflexivity).
assert (Hd : int_form "25" = Some 25%Z) by reflexivity.
assert (Hl : String.length "1234" = 4%nat) by reflexivity.
assert (Hi : py_isdigit "1234" = true) by reflexivity.
assert (Hneg : num_ltb 25%Z num_zero = false) by reflexivity.
do 7 (split; [assumption|]).
exact (proj2 (proj2 (create_account_post int_form int_fmt oracle0 signup_form None synced_two
         "Carol" "1234" "25" 25%Z Hn Hp Hs Hd)) Hl Hi Hneg).
Defined.

(** A posts a transfer to B with a wrong PIN. *)
Definition wrong_pin_request : Request :=
  mk_request POST "/transfer" {[ "to_account" := "1000000002"; "amount" := "40"; "pin" := "9999" ]}
    (Some "1000000001").

Lemma error_notice_no_change_witness :
In ("Invalid PIN", "error") (snd (handle int_form int_fmt oracle0 wrong_pin_request synced_two)).(flashes) /\
fst (handle int_form int_fmt oracle0 wrong_pin_request synced_two) = synced_two.
Proof.
assert (Hin : In ("Invalid PIN", "error")
  (snd (handle int_form int_fmt oracle0 wrong_pin_request synced_two)).(flashes))
  by (vm_compute; left; reflexivity).
split; [exact Hin | exact (error_notice_no_change int_form int_fmt oracle0 _ synced_two _ Hin)].
Defined.

(** A posts a deposit whose amount does not parse. *)
Definition bad_amount_request : Request :=
  mk_request POST "/deposit" {[ "amount" := "ten" ]} (Some "1000000001").

Lemma internal_error_causes_witness :
(snd (handle int_form int_fmt oracle0 bad_amount_request synced_two)).(page) = HttpError 500 /\
((bad_amount_request.(method) = POST /\ exists key,
    key ∈ ["name"; "pin"; "initial_deposit"; "account_number"; "amount"; "to_account"] /\
    bad_amount_request.(form) !! key = None) \/
 (bad_amount_request.(method) = POST /\ exists key s,
    key ∈ ["initial_deposit"; "amount"] /\ bad_amount_request.(form) !! key = Some s /\ int_form s = None) \/
 (exists x, bad_amount_request.(session) = Some x /\ synced_two.(bank).(accounts) !! x = None)).
Proof.
assert (H500 : (snd (handle int_form int_fmt oracle0 bad_amount_request synced_two)).(page) = HttpError 500)
  by (vm_compute; reflexivity).
split; [exact H500 | exact (internal_error_causes int_form int_fmt oracle0 _ synced_two H500)].
Defined.

(** An account holding 100.0 as a Python float, with the file in step. *)
Definition float_world : World float :=
save_data (mk_world (mk_bank {[ "1000000001" := init 1000000001 tick0 "A" "1111" 100%float ]}) None).

Definition nan_parser (s : string) : option float := if String.eqb s "nan" then Some nan else None.

Lemma amount_checks_accept_nan_witness :
float_world.(bank).(accounts) !! "1000000001" = Some (init 1000000001 tick0 "A" "1111" 100%float) /\
({[ "amount" := "nan" ]} : gmap string string) !! "amount" = Some "nan" /\ nan_parser "nan" = Some nan /\
let '(w', resp) := handle nan_parser (fun _ => "") oracle0
                     (mk_request POST "/deposit" {[ "amount" := "nan" ]} (Some "1000000001")) float_world in
resp.(page) = Redirect "dashboard" /\ w'.(disk) = Some (dump w'.(bank)) /\
option_map (fun a => PrimFloat.is_nan a.(balance)) (w'.(bank).(accounts) !! "1000000001") = Some true.
Proof.
assert (Hacc : float_world.(bank).(accounts) !! "1000000001" =
  Some (init 1000000001 tick0 "A" "1111" 100%float)) by (vm_compute; reflexivity).
assert (Hf : ({[ "amount" := "nan" ]} : gmap string string) !! "amount" = Some "nan") by (vm_compute; reflexivity).
assert (Hn : nan_parser "nan" = Some nan) by reflexivity.
split; [exact Hacc|]. split; [exact Hf|]. split; [exact Hn|].
exact (proj1 (amount_checks_accept_nan nan_parser (fun _ => "") oracle0 _ "1000000001" "nan" ""
  float_world _ Hacc Hf Hn)).
Defined.

(** Depositing 10 into account A of [synced_two]. *)
Definition deposit_form : gmap string string := {[ "amount" := "10" ]}.

Lemma deposit_post_witness :
synced_two.(bank).(accounts) !! "1000000001" = Some (init 1000000001 tick0 "A" "1111" 100%Z) /\
deposit_form !! "amount" = Some "10" /\ int_form "10" = Some 10%Z /\
num_leb 10%Z num_zero = false /\
handle int_form int_fmt oracle0 (mk_request POST "/deposit" deposit_form (Some "1000000001")) synced_two =
  (save_data (set_accounts (<["1000000001" := fst (deposit oracle0.(clock1) 10%Z
                                 (init 1000000001 tick0 "A" "1111" 100%Z))]>
                              synced_two.(bank).(accounts)) synced_two),
   mk_response (Redirect "dashboard")
     [(("Deposit successful! New balance: $" ++
        int_fmt (snd (deposit oracle0.(clock1) 10%Z (init 1000000001 tick0 "A" "1111" 100%Z))))%string,
       "success")]
     (Some "1000000001")).
Proof.
assert (Hacc : synced_two.(bank).(accounts) !! "1000000001" =
  Some (init 1000000001 tick0 "A" "1111" 100%Z)) by (vm_compute; reflexivity).
assert (Hf : deposit_form !! "amount" = Some "10") by (vm_compute; reflexivity).
assert (Hp : int_form "10" = Some 10%Z) by (vm_compute; reflexivity).
assert (Hl : num_leb 10%Z num_zero = false) by reflexivity.
split; [exact Hacc|]. split; [exact Hf|]. split; [exact Hp|]. split; [exact Hl|].
exact (proj2 (proj2 (proj2 (deposit_post int_form int_fmt oracle0 deposit_form "1000000001"
         synced_two _ Hacc))) "10" 10%Z Hf Hp Hl).
Defined.

(** Withdrawing 40 from account A of [synced_two] with its PIN. *)
Definition withdraw_form : gmap string string := {[ "amount" := "40"; "pin" := "1111" ]}.

Lemma withdraw_post_witness :
synced_two.(bank).(accounts) !! "1000000001" = Some (init 1000000001 tick0 "A" "1111" 100%Z) /\
withdraw_form !! "amount" = Some "40" /\ int_form "40" = Some 40%Z /\
withdraw_form !! "pin" = Some "1111" /\ num_leb 40%Z num_zero = false /\
snd (withdraw oracle0.(clock1) 40%Z "1111" (init 1000000001 tick0 "A" "1111" 100%Z)) = inr 60%Z /\
handle int_form int_fmt oracle0 (mk_request POST "/withdraw" withdraw_form (Some "1000000001")) synced_two =
  (save_data (set_accounts (<["1000000001" := fst (withdraw oracle0.(clock1) 40%Z "1111"
                                 (init 1000000001 tick0 "A" "1111" 100%Z))]>
                              synced_two.(bank).(accounts)) synced_two),
   mk_response (Redirect "dashboard")
     [(("Withdrawal successful! New balance: $" ++ int_fmt 60%Z)%string, "success")]
     (Some "1000000001")).
Proof.
assert (Hacc : synced_two.(bank).(accounts) !! "1000000001" =
  Some (init 1000000001 tick0 "A" "1111" 100%Z)) by (vm_compute; reflexivity).
assert (Hs : withdraw_form !! "amount" = Some "40") by (vm_compute; reflexivity).
assert (Hp : int_form "40" = Some 40%Z) by (vm_compute; reflexivity).
assert (Hpin : withdraw_form !! "pin" = Some "1111") by (vm_compute; reflexivity).
assert (Hl : num_leb 40%Z num_zero = false) by reflexivity.
assert (Hw : snd (withdraw oracle0.(clock1) 40%Z "1111" (init 1000000001 tick0 "A" "1111" 100%Z)) =
  inr 60%Z) by reflexivity.
do 6 (split; [assumption|]).
exact (proj2 (proj2 (withdraw_post int_form int_fmt oracle0 withdraw_form "1000000001" synced_two
         _ "40" "1111" 40%Z Hacc Hs Hp Hpin)) 60%Z Hl Hw).
Defined.

(** Transferring 40 from account A to account B of [synced_two]. *)
Definition transfer_form : gmap string string :=
  {[ "to_account" := "1000000002"; "amount" := "40"; "pin" := "1111" ]}.

Lemma transfer_post_witness :
transfer_form !! "to_account" = Some "1000000002" /\ transfer_form !! "amount" = Some "40" /\
int_form "40" = Some 40%Z /\ transfer_form !! "pin" = Some "1111" /\
(snd (handle int_form int_fmt oracle0 (mk_request POST "/transfer" transfer_form (Some "1000000001"))
        synced_two)).(page) = Redirect "dashboard".
Proof.
assert (Ht : transfer_form !! "to_account" = Some "1000000002") by (vm_compute; reflexivity).
assert (Hs : transfer_form !! "amount" = Some "40") by (vm_compute; reflexivity).
assert (Hp : int_form "40" = Some 40%Z) by (vm_compute; reflexivity).
assert (Hpin : transfer_form !! "pin" = Some "1111") by (vm_compute; reflexivity).
do 4 (split; [assumption|]).
rewrite (transfer_post int_form int_fmt oracle0 transfer_form "1000000001" "1000000002" "40" "1111"
           synced_two 40%Z Ht Hs Hp Hpin).
vm_compute. reflexivity.
Defined.

Lemma statement_get_witness :
synced_two.(bank).(accounts) !! "1000000001" = Some (init 1000000001 tick0 "A" "1111" 100%Z) /\
handle int_form int_fmt oracle0 (mk_request GET "/statement" ∅ (Some "1000000001")) synced_two =
  (synced_two, mk_response (Render "statement.html"
     (TransactionsArg (init (A := Z) 1000000001 tick0 "A" "1111" 100%Z).(transactions))) []
     (Some "1000000001")).
Proof.
assert (Hacc : synced_two.(bank).(accounts) !! "1000000001" =
  Some (init 1000000001 tick0 "A" "1111" 100%Z)) by (vm_compute; reflexivity).
split; [exact Hacc | exact (statement_get int_form int_fmt oracle0 ∅ "1000000001" synced_two _ Hacc)].
Defined.

Lemma route_errors_witness :
("/admin" ∉ get_rules ++ get_post_rules) /\
handle int_form int_fmt oracle0 (mk_request GET "/admin" ∅ None) synced_two =
  (synced_two, mk_response (HttpError 404) [] None) /\
handle int_form int_fmt oracle0 (mk_request HEAD "/dashboard" ∅ None) synced_two =
  handle int_form int_fmt oracle0 (mk_request GET "/dashboard" ∅ None) synced_two /\
("/dashboard" ∈ get_rules) /\
handle int_form int_fmt oracle0 (mk_request OPTIONS "/dashboard" ∅ None) synced_two =
  (synced_two, mk_response (Options {["GET"; "HEAD"; "OPTIONS"]}) [] None) /\
(POST ∉ [GET; HEAD; OPTIONS]) /\
handle int_form int_fmt oracle0 (mk_request POST "/dashboard" ∅ None) synced_two =
  (synced_two, mk_response (HttpError 405) [] None).
Proof.
assert (H1 : "/admin" ∉ get_rules ++ get_post_rules) by (unfold get_rules, get_post_rules; set_solver).
assert (H2 : "/dashboard" ∈ get_rules) by (unfold get_rules; set_solver).
assert (H3 : POST ∉ [GET; HEAD; OPTIONS]) by set_solver.
destruct (route_errors int_form int_fmt oracle0 GET "/admin" ∅ None synced_two) as [H404 _].
destruct (route_errors int_form int_fmt oracle0 POST "/dashboard" ∅ None synced_two)
  as (_ & Hhead & Hopt & _ & H405 & _).
split; [exact H1|]. split; [exact (H404 H1)|]. split; [exact Hhead|]. split; [exact H2|].
split; [exact (Hopt H2)|]. split; [exact H3|]. exact (H405 H2 H3).
Defined.

End Routes.
