(* ===== verification/Server.v ===== *)
(** * The server process (main.py 8-12, 103-104, 234-235)

    The process starts by loading the bank from [bank_data.pkl]
    ([bank = Bank.load_data()]) and draws a fresh session secret
    ([app.secret_key = os.urandom(24)]), so no cookie signed by an earlier
    process is accepted.  It then serves requests one at a time (the
    development server).  A browser can present any session cookie this
    process has signed, including an old one it kept after logging out, or no
    cookie at all.  [app.run(debug=True)] runs the reloader, which restarts
    the process (re-running the module: [load_data] and a new secret)
    whenever the code changes.

    [Module Server] models this as a step relation: the state is the world
    and the list of session values the process has signed so far; a step is
    either one request carrying one of them, handled by [Routes.handle],
    with a random draw and clock readings the libraries can return
    ([Routes.oracle_ok]), or a restart between two requests, which reloads
    the file and forgets every session.  The theorems hold in every
    reachable state, by induction on the steps: the file always reloads to
    the in-memory bank (so a restart loses nothing), every account is
    stored under its own ten-digit number with timestamped transactions,
    every signed session names an existing account, so no GET request ends
    in an internal error, and the owner of any account can always log in.
    Since a signed cookie is never revoked, a cookie replayed after logout
    still authenticates until the next restart. *)

From S2P Require Import Prelude PyStr DateTime Account Bank Routes.
From Stdlib Require Import ZArith String Lia.

Module Server.
Import DateTime Account Bank Routes.

Section Server.
Context {A : Type} `{PyNum A} `{Pickle A}.
Variable py_float : string -> option A.
Variable fmt2 : A -> string.

Record Server := mk_server {
  world : World A;
  issued : list Session;
}.

(** Start-up: [Bank.load_data()] on the file as it is; the only session a
    browser can present is none. *)
Definition start (d : option pickled) : Server := mk_server (mk_world (load_data d) d) [None].

Inductive step : Server -> Server -> Prop :=
  | step_request (o : Oracle) (req : Request) (s : Server) (w' : World A) (resp : Response A) :
      oracle_ok o = true ->
      req.(session) ∈ s.(issued) ->
      handle py_float fmt2 o req s.(world) = (w', resp) ->
      step s (mk_server w' (resp.(session_after) :: s.(issued)))
  | step_restart (s : Server) :
      step s (start s.(world).(disk)).

Definition reachable (d : option pickled) (s : Server) : Prop := rtc step (start d) s.

(** A property that holds at start-up and that every step keeps holds in
    every reachable state. *)
Lemma reachable_ind (P : Server -> Prop) d s :
  P (start d) -> (forall s s', P s -> step s s' -> P s') -> reachable d s -> P s.
Proof.
  unfold reachable. intros Hstart Hstep Hr. revert Hstart.
  induction Hr as [s0|s0 s1 s2 Hs Hr IH]; intros Hs0; [exact Hs0|].
  exact (IH (Hstep s0 s1 Hs0 Hs)).
Qed.

(** The session invariant: every signed session names an account. *)
Definition sessions_inv (s : Server) : Prop :=
  forall x, Some x ∈ s.(issued) -> is_Some (s.(world).(bank).(accounts) !! x).

Lemma sessions_inv_start d : sessions_inv (start d).
Proof. intros x Hx. apply list_elem_of_singleton in Hx. discriminate. Qed.

Lemma sessions_inv_step s s' : sessions_inv s -> step s s' -> sessions_inv s'.
Proof.
  intros Hsess Hstep. destruct Hstep as [o req s w' resp Ho Hin Hh | s]; [|apply sessions_inv_start].
  intros x Hx. simpl.
  assert (Hkeep : forall k, is_Some (s.(world).(bank).(accounts) !! k) ->
                            is_Some (w'.(bank).(accounts) !! k)).
  { intros k Hk. pose proof (handle_keeps_keys py_float fmt2 o req s.(world) k Hk) as Hk'.
    rewrite Hh in Hk'. exact Hk'. }
  apply elem_of_cons in Hx as [Hx|Hx]; apply Hkeep; [|exact (Hsess x Hx)].
  pose proof (handle_session_sound py_float fmt2 o req s.(world) x) as Hsound.
  rewrite Hh in Hsound. destruct (Hsound (eq_sym Hx)) as [Hreq | (_ & p & _ & _ & Hc)].
  + apply Hsess. rewrite <- Hreq. exact Hin.
  + unfold credentials_ok in Hc. destruct (_ !! x); [eexists; reflexivity | discriminate].
Qed.

(** The world invariant: a well-formed bank that the file reloads to.  It
    holds at start-up when the file holds a well-formed bank, which every
    file the program writes does. *)
Lemma world_ok_start d : bank_wf (load_data d) -> world_ok (start d).(world).
Proof. intros Hwf. split; [exact Hwf | reflexivity]. Qed.

Lemma world_ok_step s s' : world_ok s.(world) -> step s s' -> world_ok s'.(world).
Proof.
  intros Hok Hstep. destruct Hstep as [o req s w' resp Ho Hin Hh | s].
  2: { apply world_ok_start. destruct Hok as [Hwf ->]. exact Hwf. }
  pose proof (handle_sync py_float fmt2 o req s.(world) Hok) as Hs. rewrite Hh in Hs. exact Hs.
Qed.

Lemma reachable_world_ok d s : bank_wf (load_data d) -> reachable d s -> world_ok s.(world).
Proof.
  intros Hwf. apply (reachable_ind (fun s => world_ok s.(world)));
    [apply world_ok_start, Hwf | apply world_ok_step].
Qed.

Lemma reachable_sessions d s : reachable d s -> sessions_inv s.
Proof. apply reachable_ind; [apply sessions_inv_start | apply sessions_inv_step]. Qed.

(** C1: in every state the running process reaches, reloading
    [bank_data.pkl] gives exactly the in-memory bank (same accounts,
    balances and transaction histories): a restart between any two
    requests loses nothing. *)
Theorem reachable_file_in_sync (d : option pickled) (s : Server) :
  bank_wf (load_data d) -> reachable d s -> load_data s.(world).(disk) = s.(world).(bank).
Proof. intros Hwf Hr. exact (proj2 (reachable_world_ok d s Hwf Hr)). Qed.

(** C24: in every reachable state each account is stored under its own
    number, the key [create_account] gave it: no request stores an account
    under another account's number. *)
Theorem reachable_accounts_keyed (d : option pickled) (s : Server) (k : string) (a : Account A) :
  bank_wf (load_data d) -> reachable d s ->
  s.(world).(bank).(accounts) !! k = Some a -> a.(account_number) = k.
Proof. intros Hwf Hr. exact (proj1 (reachable_world_ok d s Hwf Hr) k a). Qed.

(** A browser without a cookie is always accepted. *)
Lemma reachable_none_issued d s : reachable d s -> None ∈ s.(issued).
Proof.
  apply (reachable_ind (fun s => None ∈ s.(issued))); [apply list_elem_of_here|].
  intros s1 s2 Hin Hstep. inversion Hstep; subst; cbn; [apply list_elem_of_further, Hin|].
  apply list_elem_of_here.
Qed.

(** C30: in every reachable state the owner of any account can log in: a
    step of the process (a POST to /login with the account's number and
    PIN, from a browser without a cookie) leaves the bank as it is and
    issues a session naming the account. *)
Theorem login_always_possible (d : option pickled) (s : Server) (k : string) (a : Account A) :
  reachable d s -> s.(world).(bank).(accounts) !! k = Some a ->
  exists s', step s s' /\ s'.(world) = s.(world) /\ Some k ∈ s'.(issued).
Proof.
  intros Hr Hk. set (req := mk_request POST "/login" (login_form k a.(pin)) None).
  assert (Hh : handle py_float fmt2 oracle0 req s.(world) =
    (s.(world), mk_response (Redirect "dashboard") [("Login successful!", "success")] (Some k))).
  { apply login_success with (p := a.(pin)).
    - unfold req, login_form. cbn [form]. by simplify_map_eq.
    - unfold req, login_form. cbn [form]. by simplify_map_eq.
    - unfold credentials_ok. rewrite Hk. apply String.eqb_refl. }
  eexists. split; [apply (step_request oracle0 req s _ _ eq_refl (reachable_none_issued d s Hr) Hh)|].
  split; [reflexivity | apply list_elem_of_here].
Qed.

Lemma reachable_typed d s :
  bank_wf (load_data d) -> bank_typed (load_data d) -> reachable d s -> bank_typed s.(world).(bank).
Proof.
  intros Hwf Ht Hr.
  enough (world_ok s.(world) /\ bank_typed s.(world).(bank)) as [_ Htyped] by exact Htyped.
  revert Hr. apply (reachable_ind (fun s => world_ok s.(world) /\ bank_typed s.(world).(bank))).
  { split; [apply world_ok_start, Hwf | exact Ht]. }
  intros s1 s2 [Hok Hs] Hstep. split; [exact (world_ok_step _ _ Hok Hstep)|].
  destruct Hstep as [o req s0 w' resp Ho Hin Hh | s0].
  - pose proof (handle_typed py_float fmt2 o req s0.(world) Ho Hs) as Hw. rewrite Hh in Hw. exact Hw.
  - destruct Hok as [_ Hsync]. cbn. rewrite Hsync. exact Hs.
Qed.

(** C32: in every reachable state (from a file holding a well-formed bank
    of typed accounts, or none) every account has the types of spec section 3: its number is a
    string of ten decimal digits and every transaction is dated by the
    [YYYY-MM-DD HH:MM:SS] rendering of a valid instant (restarts reload
    the accounts the file holds), given that
    [random.randint] stays in its range and [datetime.now()] is valid. *)
Theorem reachable_accounts_typed (d : option pickled) (s : Server) (k : string) (a : Account A) :
  bank_wf (load_data d) -> bank_typed (load_data d) -> reachable d s ->
  s.(world).(bank).(accounts) !! k = Some a ->
  String.length a.(account_number) = 10%nat /\ py_isdigit a.(account_number) = true /\
  Forall (fun t => exists dt, DateTime.valid dt = true /\ t.(date) = strftime dt) a.(transactions).
Proof. intros Hwf Ht Hr Hk. exact (reachable_typed d s Hwf Ht Hr k a Hk). Qed.

(** C2: every session value the process has signed names an account
    that exists: sessions come only from successful logins and accounts
    are never removed. *)
Theorem reachable_sessions_valid (d : option pickled) (s : Server) (x : string) :
  reachable d s -> Some x ∈ s.(issued) -> is_Some (s.(world).(bank).(accounts) !! x).
Proof. intros Hr. exact (reachable_sessions d s Hr x). Qed.

(** C3: in a reachable state no GET request with a cookie the process
    signed ends in an internal error: the [bank.accounts[...]] lookups of
    the dashboard and the statement always find the account. *)
Theorem get_never_internal_error (d : option pickled) (s : Server) (o : Oracle)
    (req : Request) :
  reachable d s -> req.(method) = GET -> req.(session) ∈ s.(issued) ->
  (snd (handle py_float fmt2 o req s.(world))).(page) <> HttpError 500.
Proof.
  intros Hr Hget Hin. pose proof (reachable_sessions d s Hr) as Hsess.
  destruct req as [m pth f sess]. cbn in Hget, Hin. subst m.
  run_view; try discriminate.
  all: cbn [hs_world hs_session] in *; subst sess.
  all: match goal with
       | Hl : accounts _ !! ?x = None |- _ => destruct (Hsess x Hin); congruence
       end.
Qed.
(** C40: logging out does not revoke the cookie the browser held.  The
    logout request changes neither the bank nor the file and hands back a
    cookie without an account, but the process keeps accepting the cookie
    it signed at login (the session lives in the signed cookie, not on the
    server): replayed after the logout, it still opens the dashboard of the
    account it names, until the process restarts. *)
Theorem logout_does_not_revoke (d : option pickled) (s : Server) (o o' : Oracle) (req : Request)
    (k : string) :
  reachable d s -> Some k ∈ s.(issued) -> oracle_ok o' = true ->
  req.(method) = GET -> req.(path) = "/logout" ->
  let '(w', resp) := handle py_float fmt2 o req s.(world) in
  let s' := mk_server w' (resp.(session_after) :: s.(issued)) in
  resp.(session_after) = None /\ w' = s.(world) /\
  exists a, w'.(bank).(accounts) !! k = Some a /\
    step s' (mk_server w' (Some k :: s'.(issued))) /\
    handle py_float fmt2 o' (mk_request GET "/dashboard" ∅ (Some k)) w' =
      (w', mk_response (Render "dashboard.html" (AccountArg a)) [] (Some k)).
Proof.
  intros Hr Hk Ho' Hm Hp. rewrite (logout_get py_float fmt2 o req s.(world) Hm Hp). cbn.
  split; [reflexivity|]. split; [reflexivity|].
  destruct (reachable_sessions d s Hr k Hk) as [a Ha]. exists a.
  pose proof (dashboard_get py_float fmt2 o' ∅ s.(world) k a Ha) as Hd.
  split; [exact Ha|]. split; [|exact Hd].
  exact (step_request o' (mk_request GET "/dashboard" ∅ (Some k)) (mk_server _ _) _ _ Ho'
           (list_elem_of_further _ _ _ Hk) Hd).
Qed.
End Server.

(** ** Start-up *)

(** C21: when the file is missing or does not unpickle, the process starts
  with a bank of zero accounts instead of failing. *)
Theorem start_resilience {A} `{PyNum A} `{Pickle A} (d : option pickled) :
(d = None \/ exists f, d = Some f /\ load f = None) ->
(start d).(world).(bank).(accounts) = ∅.
Proof.
intros [-> | (f & -> & Hf)]; [reflexivity|]. simpl. rewrite Hf. reflexivity.
Qed.

Lemma start_resilience_witness :
(Some (Garbage (A := Z) [Byte.x80; Byte.x04]) = None \/
 exists f, Some (Garbage (A := Z) [Byte.x80; Byte.x04]) = Some f /\ load (A := Z) f = None) /\
(start (A := Z) (Some (Garbage (A := Z) [Byte.x80; Byte.x04]))).(world).(bank).(accounts) = ∅.
Proof.
assert (Hd : Some (Garbage (A := Z) [Byte.x80; Byte.x04]) = None \/
  exists f, Some (Garbage (A := Z) [Byte.x80; Byte.x04]) = Some f /\ load (A := Z) f = None)
  by (right; eexists; split; reflexivity).
split; [exact Hd | exact (@start_resilience Z _ (PickleFile Z) _ Hd)].
Defined.

(** A run of the process from an empty disk: Alice opens an account. *)
Definition signup_request : Request :=
mk_request POST "/create_account" {[ "name" := "Alice"; "pin" := "1111"; "initial_deposit" := "100" ]} None.

Definition after_signup : Server (A := Z) :=
let '(w', resp) := handle int_form int_fmt oracle0 signup_request (start None).(world) in
mk_server w' (resp.(session_after) :: [None]).

Lemma after_signup_reachable : reachable int_form int_fmt None after_signup.
Proof.
apply rtc_once. unfold after_signup.
destruct (handle _ _ _ _ _) as [w' resp] eqn:Hh.
apply step_request with (o := oracle0) (req := signup_request); [reflexivity| |exact Hh].
apply list_elem_of_singleton. reflexivity.
Qed.

Lemma reachable_file_in_sync_witness :
bank_wf (load_data (A := Z) None) /\ reachable int_form int_fmt None after_signup /\
load_data after_signup.(world).(disk) = after_signup.(world).(bank).
Proof.
assert (Hwf : bank_wf (load_data (A := Z) None)) by apply map_Forall_empty.
split; [exact Hwf|]. split; [exact after_signup_reachable|].
exact (reachable_file_in_sync int_form int_fmt None after_signup Hwf after_signup_reachable).
Defined.

Lemma reachable_accounts_keyed_witness :
bank_wf (load_data (A := Z) None) /\ reachable int_form int_fmt None after_signup /\
after_signup.(world).(bank).(accounts) !! "1000000003" =
  Some (init 1000000003 (mk_datetime 2026 1 1 10 0 0 0) "Alice" "1111" 100%Z) /\
(init (A := Z) 1000000003 (mk_datetime 2026 1 1 10 0 0 0) "Alice" "1111" 100%Z).(account_number) = "1000000003".
Proof.
assert (Hwf : bank_wf (load_data (A := Z) None)) by apply map_Forall_empty.
assert (Hl : after_signup.(world).(bank).(accounts) !! "1000000003" =
  Some (init 1000000003 (mk_datetime 2026 1 1 10 0 0 0) "Alice" "1111" 100%Z)) by (vm_compute; reflexivity).
split; [exact Hwf|]. split; [exact after_signup_reachable|]. split; [exact Hl|].
exact (reachable_accounts_keyed int_form int_fmt None after_signup "1000000003" _ Hwf
         after_signup_reachable Hl).
Defined.

Lemma login_always_possible_witness :
reachable int_form int_fmt None after_signup /\
after_signup.(world).(bank).(accounts) !! "1000000003" =
  Some (init 1000000003 (mk_datetime 2026 1 1 10 0 0 0) "Alice" "1111" 100%Z) /\
exists s', step int_form int_fmt after_signup s' /\ s'.(world) = after_signup.(world) /\
           Some "1000000003" ∈ s'.(issued).
Proof.
assert (Hl : after_signup.(world).(bank).(accounts) !! "1000000003" =
  Some (init 1000000003 (mk_datetime 2026 1 1 10 0 0 0) "Alice" "1111" 100%Z))
  by (vm_compute; reflexivity).
split; [exact after_signup_reachable|]. split; [exact Hl|].
exact (login_always_possible int_form int_fmt None after_signup "1000000003" _
         after_signup_reachable Hl).
Defined.

Lemma reachable_accounts_typed_witness :
bank_wf (load_data (A := Z) None) /\ bank_typed (load_data (A := Z) None) /\ reachable int_form int_fmt None after_signup /\
after_signup.(world).(bank).(accounts) !! "1000000003" =
  Some (init 1000000003 (mk_datetime 2026 1 1 10 0 0 0) "Alice" "1111" 100%Z) /\
String.length "1000000003" = 10%nat /\ py_isdigit "1000000003" = true /\
Forall (fun t => exists dt, DateTime.valid dt = true /\ t.(date) = strftime dt)
  (init (A := Z) 1000000003 (mk_datetime 2026 1 1 10 0 0 0) "Alice" "1111" 100%Z).(transactions).
Proof.
assert (Hwf : bank_wf (load_data (A := Z) None)) by apply map_Forall_empty.
assert (Ht : bank_typed (load_data (A := Z) None)) by apply map_Forall_empty.
assert (Hl : after_signup.(world).(bank).(accounts) !! "1000000003" =
  Some (init 1000000003 (mk_datetime 2026 1 1 10 0 0 0) "Alice" "1111" 100%Z))
  by (vm_compute; reflexivity).
split; [exact Hwf|]. split; [exact Ht|]. split; [exact after_signup_reachable|]. split; [exact Hl|].
exact (reachable_accounts_typed int_form int_fmt None after_signup "1000000003" _ Hwf Ht
         after_signup_reachable Hl).
Defined.

(** Alice logs in: the process signs her session. *)
Definition after_login : Server (A := Z) :=
let '(w', resp) := handle int_form int_fmt oracle0
                     (mk_request POST "/login" (login_form "1000000003" "1111") None)
                     after_signup.(world) in
mk_server w' (resp.(session_after) :: after_signup.(issued)).

Lemma after_login_reachable : reachable int_form int_fmt None after_login.
Proof.
eapply rtc_r; [exact after_signup_reachable|]. unfold after_login.
destruct (handle _ _ _ _ _) as [w' resp] eqn:Hh.
eapply (step_request _ _ oracle0); [reflexivity| |exact Hh]. apply list_elem_of_further, list_elem_of_here.
Qed.

Lemma reachable_sessions_valid_witness :
reachable int_form int_fmt None after_login /\ Some "1000000003" ∈ after_login.(issued) /\
is_Some (after_login.(world).(bank).(accounts) !! "1000000003").
Proof.
assert (Hin : Some "1000000003" ∈ after_login.(issued)) by (vm_compute; left).
split; [exact after_login_reachable|]. split; [exact Hin|].
exact (reachable_sessions_valid int_form int_fmt None after_login "1000000003"
         after_login_reachable Hin).
Defined.

Lemma get_never_internal_error_witness :
reachable int_form int_fmt None after_login /\
(mk_request GET "/statement" ∅ (Some "1000000003")).(session) ∈ after_login.(issued) /\
(snd (handle int_form int_fmt oracle0 (mk_request GET "/statement" ∅ (Some "1000000003"))
        after_login.(world))).(page) <> HttpError 500.
Proof.
assert (Hin : (mk_request GET "/statement" ∅ (Some "1000000003")).(session) ∈ after_login.(issued))
  by (vm_compute; left).
split; [exact after_login_reachable|]. split; [exact Hin|].
exact (get_never_internal_error int_form int_fmt None after_login oracle0
         (mk_request GET "/statement" ∅ (Some "1000000003"))
         after_login_reachable eq_refl Hin).
Defined.

(** Alice logs out, then her browser replays the cookie it kept. *)
Definition logout_request : Request := mk_request GET "/logout" ∅ (Some "1000000003").

Lemma logout_does_not_revoke_witness :
reachable int_form int_fmt None after_login /\ Some "1000000003" ∈ after_login.(issued) /\
oracle_ok oracle0 = true /\ logout_request.(method) = GET /\ logout_request.(path) = "/logout" /\
let '(w', resp) := handle int_form int_fmt oracle0 logout_request after_login.(world) in
let s' := mk_server w' (resp.(session_after) :: after_login.(issued)) in
resp.(session_after) = None /\ w' = after_login.(world) /\
exists a, w'.(bank).(accounts) !! "1000000003" = Some a /\
  step int_form int_fmt s' (mk_server w' (Some "1000000003" :: s'.(issued))) /\
  handle int_form int_fmt oracle0 (mk_request GET "/dashboard" ∅ (Some "1000000003")) w' =
    (w', mk_response (Render "dashboard.html" (AccountArg a)) [] (Some "1000000003")).
Proof.
assert (Hin : Some "1000000003" ∈ after_login.(issued)) by (vm_compute; left).
split; [exact after_login_reachable|]. split; [exact Hin|].
split; [reflexivity|]. split; [reflexivity|]. split; [reflexivity|].
exact (logout_does_not_revoke int_form int_fmt None after_login oracle0 oracle0 logout_request
         "1000000003" after_login_reachable Hin eq_refl eq_refl eq_refl).
Defined.

End Server.
