(* ===== verification/Ledger.v ===== *)
(** * The ledger view of the bank: an abstract specification and its refinement

    What the bank promises its customers is a ledger: a balance per account
    number, changed only by the operations of spec sections 4.1 and 4.4,
    each with the check the spec gives it: opening an account with an
    initial deposit that is not [< 0], a deposit of an amount that is not
    [<= 0], a withdrawal of an amount that is not [<= 0] and does not
    exceed the balance, and a transfer of an amount the source balance is
    not less than (debit the source, then credit the destination).
    [Module Ledger] states this as a step relation [move] on maps from
    account numbers to amounts, for any amount type with Python's
    operators ([PyNum]): the program's binary64 floats as well as exact
    amounts.  The abstraction function [balances] forgets names, PINs,
    transactions, sessions and the file.

    The refinement theorem shows that every request the route layer
    handles, for any [float()] parser, moves the ledger by exactly one
    abstract [move] (or leaves it unchanged); the simulation is then lifted
    to runs of the server: the ledger of every reachable state is reached
    from the ledger loaded at start-up by abstract moves.  The spec's checks
    are comparisons, so on floats a NaN amount passes them in the spec as
    in the code (see [Routes.amount_checks_accept_nan]); and the transfer
    check does not look at the amount's sign. *)

From S2P Require Import Prelude PyStr DateTime Account Bank Routes Server.
From Stdlib Require Import ZArith String Lia.

Module Ledger.
Import DateTime Account Bank Routes Server.

Section Abstract.
Context {A : Type} `{PyNum A}.
Local Open Scope py_scope.

(** ** The abstract ledger *)

(** The abstract moves.  The transfer move has no sign condition on the
    amount: neither the spec nor the code states one. *)
Inductive move : gmap string A -> gmap string A -> Prop :=
| move_none (L : gmap string A) : move L L
| move_open (L : gmap string A) (k : string) (d : A) :
    (d < 0) = false -> move L (<[k := d]> L)
| move_deposit (L : gmap string A) (k : string) (b a : A) :
    L !! k = Some b -> (a <= 0) = false -> move L (<[k := b + a]> L)
| move_withdraw (L : gmap string A) (k : string) (b a : A) :
    L !! k = Some b -> (a <= 0) = false -> (a > b) = false -> move L (<[k := b - a]> L)
| move_transfer (L : gmap string A) (f t : string) (bf a : A) :
    L !! f = Some bf -> is_Some (L !! t) -> (bf < a) = false ->
    move L (alter (fun x => x + a) t (alter (fun x => x - a) f L)).

(** The abstraction: the balance of every account. *)
Definition balances (m : gmap string (Account A)) : gmap string A := balance <$> m.

(** ** The abstraction commutes with the concrete updates *)

Lemma balances_alter (g : Account A -> Account A) (h : A -> A) (k : string) m :
  (forall a, (g a).(balance) = h a.(balance)) ->
  balances (alter g k m) = alter h k (balances m).
Proof.
  intros Hg. apply map_eq. intros j. unfold balances.
  rewrite lookup_fmap. destruct (decide (k = j)) as [<-|Hne].
  - rewrite !lookup_alter_eq, lookup_fmap. destruct (m !! k); simpl; [rewrite Hg|]; reflexivity.
  - rewrite !lookup_alter_ne, lookup_fmap by done. reflexivity.
Qed.

Lemma balances_insert (k : string) (a : Account A) m :
  balances (<[k := a]> m) = <[k := a.(balance)]> (balances m).
Proof. unfold balances. apply fmap_insert. Qed.

Lemma balances_lookup (k : string) (a : Account A) m :
  m !! k = Some a -> balances m !! k = Some a.(balance).
Proof. intros Hk. unfold balances. rewrite lookup_fmap, Hk. reflexivity. Qed.

(** A successful transfer moves the ledger by the abstract transfer. *)
Lemma balances_transfer_map now1 now2 from_acc to_acc (amt : A) m :
  balances (transfer_map now1 now2 from_acc to_acc amt m) =
  alter (fun x => x + amt) to_acc (alter (fun x => x - amt) from_acc (balances m)).
Proof.
  unfold transfer_map.
  rewrite (balances_alter _ id), (balances_alter _ id) by reflexivity.
  rewrite (balances_alter _ (fun x => x + amt)), (balances_alter _ (fun x => x - amt))
    by reflexivity.
  rewrite !(alter_id id) by reflexivity. reflexivity.
Qed.

(** ** Each bank method is an abstract move *)

Lemma create_account_move `{Pickle A} r now nm p d (w w' : World A) res :
  create_account r now nm p d w = (w', res) ->
  move (balances w.(bank).(accounts)) (balances w'.(bank).(accounts)).
Proof.
  unfold create_account. repeat case_match; intros Heq; injection Heq as <- _;
    try apply move_none.
  cbn. rewrite balances_insert. apply move_open. assumption.
Qed.

Lemma transfer_move `{Pickle A} now1 now2 from_acc to_acc amt p (w w' : World A) res :
  transfer now1 now2 from_acc to_acc amt p w = (w', res) ->
  move (balances w.(bank).(accounts)) (balances w'.(bank).(accounts)).
Proof.
  intros Ht. destruct (transfer_outcome _ _ _ _ _ _ _ _ _ Ht)
    as [[-> _] | (fa & ta & Hf & Htt & Hlt & _ & ->)]; [apply move_none|].
  cbn. rewrite balances_transfer_map.
  eapply move_transfer; [apply balances_lookup, Hf | eexists; apply balances_lookup, Htt | exact Hlt].
Qed.

(** Writing back the account a deposit returned. *)
Lemma deposit_move now amt k (acc acc' : Account A) r m :
  m !! k = Some acc -> (amt <= 0) = false -> deposit now amt acc = (acc', r) ->
  move (balances m) (balances (<[k := acc']> m)).
Proof.
  intros Hk Ha Hd. unfold deposit in Hd. injection Hd as <- _.
  rewrite balances_insert. apply move_deposit; [apply balances_lookup, Hk | exact Ha].
Qed.

(** Writing back the account a withdrawal returned, refused or not. *)
Lemma withdraw_move now amt p k (acc acc' : Account A) r m :
  m !! k = Some acc -> (amt <= 0) = false -> withdraw now amt p acc = (acc', r) ->
  move (balances m) (balances (<[k := acc']> m)).
Proof.
  intros Hk Ha. unfold withdraw. repeat case_match; intros Heq; injection Heq as <- _.
  1,2: rewrite insert_id by exact Hk; apply move_none.
  rewrite balances_insert. apply move_withdraw; [apply balances_lookup, Hk | exact Ha | assumption].
Qed.
End Abstract.

(** ** Refinement *)

Section Refinement.
Context {A : Type} `{PyNum A} `{Pickle A}.
Variable py_float : string -> option A.
Variable fmt2 : A -> string.

(** One request moves the ledger by one abstract move. *)
Lemma handle_move (o : Oracle) (req : Request) (w : World A) :
  move (balances w.(bank).(accounts))
       (balances (fst (handle py_float fmt2 o req w)).(bank).(accounts)).
Proof.
  destruct req as [m pth f sess]. run_view;
    try solve [apply move_none | eauto using create_account_move, transfer_move].
  all: cbn [fst hs_world save_data set_accounts bank accounts] in *.
  all: solve [eapply deposit_move; eauto | eapply withdraw_move; eauto].
Qed.

(** C28: every request the application handles, for any amount type (the
    program's binary64 floats included) and any [float()] parser, moves
    the ledger of balances by one abstract move of spec sections 4.1 and
    4.4 (or none): the route layer refines the ledger specification. *)
Theorem handle_refines (o : Oracle) (req : Request) (w : World A) :
  move (balances w.(bank).(accounts))
       (balances (fst (handle py_float fmt2 o req w)).(bank).(accounts)).
Proof. exact (handle_move o req w). Qed.

(** C29: the simulation lifted to runs of the server, restarts included,
    for any amount type: the ledger of every reachable state is reached
    from the ledger loaded at start-up by a sequence of abstract moves. *)
Theorem reachable_ledger (d : option pickled) (s : Server) :
  bank_wf (load_data d) -> reachable py_float fmt2 d s ->
  rtc move (balances (load_data d).(accounts)) (balances s.(world).(bank).(accounts)).
Proof.
  intros Hwf Hr.
  enough (world_ok s.(world) /\
          rtc move (balances (load_data d).(accounts)) (balances s.(world).(bank).(accounts)))
    as [_ Hm] by exact Hm.
  revert Hr. apply (reachable_ind py_float fmt2 (fun s => world_ok s.(world) /\
    rtc move (balances (load_data d).(accounts)) (balances s.(world).(bank).(accounts)))).
  { split; [apply world_ok_start, Hwf | reflexivity]. }
  intros s1 s2 [Hok IH] Hstep. split; [exact (world_ok_step _ _ _ _ Hok Hstep)|].
  destruct Hstep as [o req s0 w' resp Ho Hin Hh | s0].
  - eapply rtc_r; [exact IH|].
    pose proof (handle_move o req s0.(world)) as Hm. rewrite Hh in Hm. exact Hm.
  - destruct Hok as [_ Hsync]. cbn. rewrite Hsync. exact IH.
Qed.

End Refinement.

Lemma reachable_ledger_witness :
  bank_wf (load_data (A := Z) None) /\ reachable int_form int_fmt None after_signup /\
  rtc move (balances (load_data (A := Z) None).(accounts))
           (balances after_signup.(world).(bank).(accounts)).
Proof.
  assert (Hwf : bank_wf (load_data (A := Z) None)) by apply map_Forall_empty.
  split; [exact Hwf|]. split; [exact after_signup_reachable|].
  exact (reachable_ledger int_form int_fmt None after_signup Hwf after_signup_reachable).
Defined.

End Ledger.
